(** * banana-slides: the slide-deck generation pipeline

    A shallow embedding of [demo.py] (outline flattening, the two
    thread-pool stages, the image file naming, the PPTX assembler and the
    orchestrator [gen_ppt]) and of [backend/services/ai_service.py]
    ([AIService.generate_outline], [AIService.flatten_outline]).

    Python values that come out of [json.loads] are modelled by the type
    [json]; Python exceptions by the error monad [result]; a [dict] used
    as a map by stdpp's [gmap]; the text of a [str] by a Rocq [string]
    holding one character per code point below 256. *)

From Stdlib Require Import ZArith List Ascii String Sorted Permutation Lia.
From Stdlib Require Import DecimalString DecimalNat.
From stdpp Require Import base option list gmap sorting strings.

Local Open Scope string_scope.
Local Open Scope list_scope.
Local Open Scope nat_scope.
Set Warnings "-register-all".

(** ** Python runtime: exceptions and the error monad *)

Module Py.

(** The exception classes the modelled code can raise; [BackendError]
    stands for whatever an external collaborator (the generative backend,
    the image writer) raises, all of them subclasses of [Exception]. *)
Inductive exn : Type :=
| TypeError
| AttributeError
| KeyError
| JSONDecodeError
| BackendError (msg : string).

Inductive result (A : Type) : Type :=
| Ok (a : A)
| Raise (e : exn).
Global Arguments Ok {A} a.
Global Arguments Raise {A} e.

Global Instance result_ret : MRet result := fun _ a => Ok a.
Global Instance result_bind : MBind result := fun _ _ f m =>
  match m with
  | Ok a => f a
  | Raise e => Raise e
  end.

Global Arguments result_ret _ _ /.
Global Arguments result_bind _ _ _ !_ /.

(** [try: body except Exception: handler] *)
Definition try_except {A} (body : result A) (handler : exn -> result A) : result A :=
  match body with
  | Ok a => Ok a
  | Raise e => handler e
  end.

Definition is_ok {A} (r : result A) : bool :=
  match r with Ok _ => true | Raise _ => false end.

(** A [for] loop that threads an accumulator and stops at the first
    exception. *)
Fixpoint for_each {A S} (body : S -> A -> result S) (s : S) (l : list A) : result S :=
  match l with
  | [] => Ok s
  | x :: l' => s' ← body s x; for_each body s' l'
  end.

(** [enumerate(l, start)] *)
Fixpoint enumerate {A} (start : nat) (l : list A) : list (nat * A) :=
  match l with
  | [] => []
  | x :: l' => (start, x) :: enumerate (S start) l'
  end.

End Py.
Export Py.

(** ** JSON values, as [json.loads] returns them *)

Inductive json : Type :=
| JNull
| JBool (b : bool)
| JInt (n : Z)
| JFloat (lexeme : string)
| JStr (s : string)
| JList (l : list json)
| JDict (m : gmap string json).

Module PyObj.

(** [needle in hay] on two [str] *)
Fixpoint is_substring (needle hay : string) : bool :=
  String.prefix needle hay ||
  match hay with
  | EmptyString => false
  | String _ hay' => is_substring needle hay'
  end.

Definition is_str (k : string) (v : json) : bool :=
  match v with
  | JStr s => String.eqb s k
  | _ => false
  end.

(** [k in c] for a string literal [k] *)
Definition contains (k : string) (c : json) : result bool :=
  match c with
  | JDict m => Ok (bool_decide (is_Some (m !! k)))
  | JList l => Ok (existsb (is_str k) l)
  | JStr s => Ok (is_substring k s)
  | _ => Raise TypeError
  end.

(** [c[k]] for a string literal [k] *)
Definition getitem (c : json) (k : string) : result json :=
  match c with
  | JDict m =>
      match m !! k with
      | Some v => Ok v
      | None => Raise KeyError
      end
  | _ => Raise TypeError
  end.

(** The elements a [for] loop over [c] visits.  A [dict] yields its keys;
    their order is not modelled, [gmap] has none. *)
Definition iter (c : json) : result (list json) :=
  match c with
  | JList l => Ok l
  | JDict m => Ok ((fun kv => JStr kv.1) <$> map_to_list m)
  | JStr s => Ok ((fun ch => JStr (String ch EmptyString)) <$> list_ascii_of_string s)
  | _ => Raise TypeError
  end.

(** [c.copy()] *)
Definition copy (c : json) : result json :=
  match c with
  | JDict m => Ok (JDict m)
  | JList l => Ok (JList l)
  | _ => Raise AttributeError
  end.

(** [c[k] = v] for a string literal [k], returning the updated object *)
Definition setitem (c : json) (k : string) (v : json) : result json :=
  match c with
  | JDict m => Ok (JDict (<[k := v]> m))
  | _ => Raise TypeError
  end.

End PyObj.

(** ** Outline flattening ([flatten_outline], the same text in both files) *)

Module Flatten.

(** The test ['part' in item and 'pages' in item], short-circuiting. *)
Definition is_part (item : json) : result bool :=
  b ← PyObj.contains "part" item;
  if b : bool then PyObj.contains "pages" item else mret false.

(** The body of the inner loop: one page of a part. *)
Definition add_page (item : json) (pages : list json) (page : json) : result (list json) :=
  page_with_part ← PyObj.copy page;
  part ← PyObj.getitem item "part";
  page_with_part ← PyObj.setitem page_with_part "part" part;
  mret (pages ++ [page_with_part]).

(** The body of the outer loop: one top-level entry. *)
Definition add_item (pages : list json) (item : json) : result (list json) :=
  b ← is_part item;
  if b : bool then
    ps ← PyObj.getitem item "pages";
    ps ← PyObj.iter ps;
    for_each (add_page item) pages ps
  else
    mret (pages ++ [item]).

Definition flatten_outline (outline : json) : result (list json) :=
  items ← PyObj.iter outline;
  for_each add_item [] items.

(** The two loops read as list functions: what one page of a part
    becomes, and the pages one part yields.  [flatten_outline] is proved
    to compute them further down. *)
Definition stamp (part : json) (page : json) : result json :=
  c ← PyObj.copy page; PyObj.setitem c "part" part.

Definition expand (part pages : json) : result (list json) :=
  l ← PyObj.iter pages; mapM (stamp part) l.

End Flatten.

(** ** Shape-valid outlines

    The two reply shapes the outline prompt asks the generator for
    ([gen_outline], the prompt text): a page [{title, points}], or a part
    [{part, pages: [{title, points}, ...]}]. *)

Module Outline.

Record Page : Type := { title : string; points : list string }.

Inductive OutlineEntry : Type :=
| EPage (p : Page)
| EPart (name : string) (pages : list Page).

Definition encode_page (p : Page) : gmap string json :=
  <["title" := JStr (title p)]> (<["points" := JList (JStr <$> points p)]> ∅).

Definition encode_entry (e : OutlineEntry) : json :=
  match e with
  | EPage p => JDict (encode_page p)
  | EPart name pages =>
      JDict (<["part" := JStr name]>
             (<["pages" := JList ((fun p => JDict (encode_page p)) <$> pages)]> ∅))
  end.

Definition encode_outline (o : list OutlineEntry) : json :=
  JList (encode_entry <$> o).

(** The pages of an entry in traversal order, each with the name of the
    part it sits in, if any. *)
Definition entry_pages (e : OutlineEntry) : list (option string * Page) :=
  match e with
  | EPage p => [(None, p)]
  | EPart name pages => (fun p => (Some name, p)) <$> pages
  end.

Definition traversal (o : list OutlineEntry) : list (option string * Page) :=
  o ≫= entry_pages.

Definition page_count (e : OutlineEntry) : nat :=
  match e with
  | EPage _ => 1
  | EPart _ pages => length pages
  end.

Definition total_pages (o : list OutlineEntry) : nat :=
  foldr (fun e n => page_count e + n) 0 o.

(** The flat page the flattener is to emit for a page of the traversal. *)
Definition encode_flat (tp : option string * Page) : json :=
  match tp.1 with
  | Some name => JDict (<["part" := JStr name]> (encode_page tp.2))
  | None => JDict (encode_page tp.2)
  end.

End Outline.

(** ** Text: the [str] methods, formatting and file-name handling used *)

Module Text.

(** [str.isspace] on one character, for code points below 256. *)
Definition is_space (c : ascii) : bool :=
  let n := nat_of_ascii c in
  ((9 <=? n) && (n <=? 13)) || ((28 <=? n) && (n <=? 32)) || (n =? 133) || (n =? 160).

Fixpoint lstrip_by (p : ascii -> bool) (s : string) : string :=
  match s with
  | EmptyString => EmptyString
  | String c s' => if p c then lstrip_by p s' else s
  end.

Fixpoint rstrip_by (p : ascii -> bool) (s : string) : string :=
  match s with
  | EmptyString => EmptyString
  | String c s' =>
      match rstrip_by p s' with
      | EmptyString => if p c then EmptyString else String c EmptyString
      | r => String c r
      end
  end.

Fixpoint all_chars (p : ascii -> bool) (s : string) : bool :=
  match s with
  | EmptyString => true
  | String c s' => p c && all_chars p s'
  end.

Definition strip_by (p : ascii -> bool) (s : string) : string :=
  rstrip_by p (lstrip_by p s).

(** [s.strip()] *)
Definition strip (s : string) : string := strip_by is_space s.

Fixpoint mem_char (c : ascii) (chars : string) : bool :=
  match chars with
  | EmptyString => false
  | String d chars' => Ascii.eqb c d || mem_char c chars'
  end.

(** [s.strip(chars)]: removes from both ends every character that
    occurs in [chars]; [chars] is a set, not a prefix or a suffix. *)
Definition strip_chars (chars : string) (s : string) : string :=
  strip_by (fun c => mem_char c chars) s.

(** [str(n)] for an [int] that is not negative. *)
Definition decimal (n : nat) : string := NilZero.string_of_uint (Nat.to_uint n).

Fixpoint zeros (k : nat) : string :=
  match k with
  | 0 => EmptyString
  | S k' => String "0"%char (zeros k')
  end.

(** [f'{n:02d}']: the decimal text, padded with zeros on the left up to
    a width of two; a longer text is left as it is. *)
Definition format_02d (n : nat) : string :=
  let d := decimal n in
  zeros (2 - String.length d) +:+ d.

Definition is_digit (c : ascii) : bool :=
  let n := nat_of_ascii c in (48 <=? n) && (n <=? 57).

Definition digit_value (c : ascii) : nat := nat_of_ascii c - 48.

Fixpoint all_digits (s : string) : bool :=
  match s with
  | EmptyString => true
  | String c s' => is_digit c && all_digits s'
  end.

(** The longest prefix of digits: what a greedy [\d+] takes. *)
Fixpoint take_digits (s : string) : string :=
  match s with
  | EmptyString => EmptyString
  | String c s' => if is_digit c then String c (take_digits s') else EmptyString
  end.

Fixpoint int_of_digits_acc (s : string) (acc : nat) : nat :=
  match s with
  | EmptyString => acc
  | String c s' => int_of_digits_acc s' (10 * acc + digit_value c)
  end.

(** [int(s)] for a text of digits. *)
Definition int_of_digits (s : string) : nat := int_of_digits_acc s 0.

Fixpoint drop (k : nat) (s : string) : string :=
  match k, s with
  | S k', String _ s' => drop k' s'
  | _, _ => s
  end.

Fixpoint take (k : nat) (s : string) : string :=
  match k, s with
  | S k', String c s' => String c (take k' s')
  | _, _ => EmptyString
  end.

(** Does [s] end with [suf]? *)
Definition ends_with (suf s : string) : bool :=
  (String.length suf <=? String.length s) &&
  String.eqb (drop (String.length s - String.length suf) s) suf.

(** [s.rfind('.')], as an option. *)
Fixpoint rfind_dot (s : string) : option nat :=
  match s with
  | EmptyString => None
  | String c s' =>
      match rfind_dot s' with
      | Some i => Some (S i)
      | None => if Ascii.eqb c "."%char then Some 0 else None
      end
  end.

(** [PurePath.stem] of a file name: the name without its last suffix; a
    dot in first or in last place starts no suffix. *)
Definition stem (name : string) : string :=
  match rfind_dot name with
  | Some i => if (0 <? i) && (i <? String.length name - 1) then take i name else name
  | None => name
  end.

(** What stands between the slashes of a path text. *)
Fixpoint split_slash (s : string) : list string :=
  match s with
  | EmptyString => [EmptyString]
  | String c s' =>
      if Ascii.eqb c "/"%char then EmptyString :: split_slash s'
      else match split_slash s' with
           | [] => [String c EmptyString]
           | p :: ps => String c p :: ps
           end
  end.

(** [Path(dir)] on POSIX: the root, which is two slashes when the text
    starts with exactly two, and the parts, which are the components
    that are neither empty nor a single dot. *)
Definition path_root (dir : string) : string :=
  if String.prefix "//" dir && negb (String.prefix "///" dir) then "//"
  else if String.prefix "/" dir then "/"
  else EmptyString.

Definition path_parts (dir : string) : list string :=
  filter (fun p => negb (String.eqb p EmptyString) && negb (String.eqb p ".") = true)
         (split_slash dir).

(** [str(Path(dir) / name)] for a [name] of one component. *)
Definition path_join (dir name : string) : string :=
  path_root dir +:+ String.concat "/" (path_parts dir ++ [name]).

(** Lexical order of two [str]: by code point, a proper prefix first. *)
Definition lex_lt (s1 s2 : string) : bool :=
  match String.compare s1 s2 with
  | Lt => true
  | _ => false
  end.

End Text.

(** ** Sorting: [sorted] and [list.sort(key=...)], both stable *)

Module Sort.

Section by_key.
Context {A : Type} (key : A -> nat).

(** [x] stood before every element of [l]; it stays before those of
    an equal key. *)
Fixpoint insert (x : A) (l : list A) : list A :=
  match l with
  | [] => [x]
  | y :: l' => if key x <=? key y then x :: y :: l' else y :: insert x l'
  end.

Definition sort_by (l : list A) : list A := foldr insert [] l.

(** The order a list sorted by [key] is in. *)
Definition key_le (x y : A) : Prop := key x <= key y.
End by_key.

(** [sorted(l)] on a list of [int] *)
Definition sorted (l : list nat) : list nat := sort_by (fun n => n) l.

End Sort.

(** ** The world outside the repository *)

Module IO.

(** An image object as the backend returns it. *)
Inductive image : Type := Image (id : nat).

(** What a run does to the outside world, in the order it does it. *)
Inductive event : Type :=
| EvOutlineRequest
| EvTextRequest (i : nat)
| EvPromptBuilt (i : nat)
| EvImageRequest (i : nat)
| EvImageSaved (path : string)
| EvAddPicture (path : string)
| EvPptxSaved (output_file : string).

(** [files]: the files of the working directory's subdirectories, as
    (directory, name), in the order a directory scan lists them. *)
Record world : Type := World { files : list (string * string); trace : list event }.

(** State and exceptions: an exception keeps the effects done so far. *)
Definition M (A : Type) : Type := world -> world * result A.

Global Instance M_ret : MRet M := fun _ a w => (w, Ok a).
Global Instance M_bind : MBind M := fun _ _ f m w =>
  match m w with
  | (w', Ok a) => f a w'
  | (w', Raise e) => (w', Raise e)
  end.

Definition lift {A} (r : result A) : M A := fun w => (w, r).

Definition emit (e : event) : M unit :=
  fun w => (World (files w) (trace w ++ [e]), Ok tt).

(** [try: body except Exception as e: handler] *)
Definition catch {A} (body : M A) (handler : exn -> M A) : M A := fun w =>
  match body w with
  | (w', Ok a) => (w', Ok a)
  | (w', Raise e) => handler e w'
  end.

(** [executor.submit(task)]: the task runs in the pool and its outcome,
    value or exception, is kept in the future.  The tasks of one stage
    are run here in the order of submission; they share no state but the
    trace and the directory, to which each adds its own entries. *)
Definition submit {A} (task : M A) : M (result A) := fun w =>
  let '(w', r) := task w in (w', Ok r).

Definition has_file (dir name : string) (fs : list (string * string)) : bool :=
  existsb (fun f => String.eqb f.1 dir && String.eqb f.2 name) fs.

(** A file [dir/name] comes to exist (or is overwritten). *)
Definition write_file (dir name : string) : M unit := fun w =>
  (World (if has_file dir name (files w) then files w else files w ++ [(dir, name)])
         (trace w), Ok tt).

(** The names in directory [dir], in scan order. *)
Definition scandir (dir : string) : M (list string) := fun w =>
  (w, Ok (snd <$> filter (fun f => String.eqb f.1 dir = true) (files w))).

(** The collaborators: the generative backend ([gemini_genai], the
    [genai] client), the image and presentation writers, the file system,
    the JSON decoder and the thread pool's completion order.  A call on
    the backend for a page carries the page's index: the backend is not
    a function of the prompt. *)
Record env : Type := {
  gen_json_text : string -> result string;
  generate_content : string -> result string;
  json_loads : string -> result json;
  gen_text : nat -> string -> result string;
  gen_image : nat -> string -> string -> result (option image);
  image_save : image -> string -> result unit;
  mkdir : string -> result unit;
  add_picture : string -> result unit;
  pptx_save : string -> result unit;
  as_completed : forall A : Type, list A -> list A
}.

(** The wording of prompts and the text form of values: payload that the
    pipeline passes on without looking into it. *)
Record wording : Type := {
  py_str : json -> string;
  dedent : string -> string;
  outline_prompt : string -> string;
  desc_prompt : string -> json -> string -> nat -> json -> string;
  image_prompt : string -> string -> string -> string
}.

(** What [m] returns, read off a run from the empty world. *)
Definition outcome {A} (m : M A) : result A := (m (World [] [])).2.

(** The same collaborators with another completion order. *)
Definition with_as_completed (E : env) (order : forall A : Type, list A -> list A) : env :=
  {| gen_json_text := gen_json_text E;
     generate_content := generate_content E;
     json_loads := json_loads E;
     gen_text := gen_text E;
     gen_image := gen_image E;
     image_save := image_save E;
     mkdir := mkdir E;
     add_picture := add_picture E;
     pptx_save := pptx_save E;
     as_completed := order |}.

(** A completion order yields every future once. *)
Definition completes_all (order : forall A : Type, list A -> list A) : Prop :=
  forall (A : Type) (l : list A), order A l ≡ₚ l.

(** Events of the stages after the description stage. *)
Definition after_description (ev : event) : bool :=
  match ev with
  | EvOutlineRequest | EvTextRequest _ => false
  | _ => true
  end.

(** Events of the assembler: calls on the packaging collaborator. *)
Definition is_packaging (ev : event) : bool :=
  match ev with
  | EvAddPicture _ | EvPptxSaved _ => true
  | _ => false
  end.

(** [m] adds to the trace only events that satisfy [P]. *)
Definition emits_only {A} (P : event -> bool) (m : M A) : Prop :=
  forall w, exists t, trace (m w).1 = trace w ++ t /\ forallb P t = true.

End IO.
Export IO.

(** ** The fan-in of both thread-pool stages

    [for future in as_completed(futures): i, v = future.result(); d[i] = v]
    and then [[d[i] for i in sorted(d.keys())]]. *)

Module Pool.

Definition collect {V} (completed : list (result (nat * V))) : result (gmap nat V) :=
  for_each (fun (d : gmap nat V) future => '(i, v) ← future; mret (<[i := v]> d))
           ∅ completed.

(** [d[kv.1] = kv.2] *)
Definition put {V} (d : gmap nat V) (kv : nat * V) : gmap nat V := <[kv.1 := kv.2]> d.

Definition keys {V} (d : gmap nat V) : list nat := (map_to_list d).*1.

Definition subscript {V} (d : gmap nat V) (i : nat) : result V :=
  match d !! i with
  | Some v => Ok v
  | None => Raise KeyError
  end.

Definition by_index {V} (d : gmap nat V) : result (list V) :=
  mapM (subscript d) (Sort.sorted (keys d)).

End Pool.

(** ** The stages of [demo.py] and [AIService.generate_outline] *)

Module Pipeline.

Definition newline : string := String (ascii_of_nat 10) EmptyString.

(** [c.get(k, dflt)] *)
Definition get_default (c : json) (k : string) (dflt : json) : result json :=
  match c with
  | JDict m => Ok (default dflt (m !! k))
  | _ => Raise AttributeError
  end.

Definition slide_name (i : nat) : string :=
  "slide_" +:+ Text.format_02d i +:+ ".png".

(** [Path.glob] with the pattern [slide_*.png], on one name. *)
Definition glob_match (name : string) : bool :=
  String.prefix "slide_" name && Text.ends_with ".png" name &&
  (10 <=? String.length name).

(** [re.search(r'slide_(\d+)', s)]: group 1 of the leftmost match. *)
Fixpoint search_slide (s : string) : option string :=
  match s with
  | EmptyString => None
  | String _ s' =>
      if String.prefix "slide_" s then
        match Text.take_digits (Text.drop 6 s) with
        | EmptyString => search_slide s'
        | d => Some d
        end
      else search_slide s'
  end.

Definition extract_number (filename : string) : nat :=
  match search_slide (Text.stem filename) with
  | Some d => Text.int_of_digits d
  | None => 0
  end.

Section stages.
Variable E : env.
Variable W : wording.

(** [demo.gen_outline] *)
Definition gen_outline (idea_prompt : string) : M json :=
  _ ← emit EvOutlineRequest;
  outline ← lift (gen_json_text E (outline_prompt W idea_prompt));
  lift (json_loads E outline).

(** The chain of [strip] calls of [AIService.generate_outline]. *)
Definition strip_fences (text : string) : string :=
  Text.strip (Text.strip_chars "```" (Text.strip_chars "```json" (Text.strip text))).

(** [AIService.generate_outline] *)
Definition generate_outline (idea_prompt : string) : M json :=
  _ ← emit EvOutlineRequest;
  response_text ← lift (generate_content E (outline_prompt W idea_prompt));
  lift (json_loads E (strip_fences response_text)).

(** [gen_desc], the task of one page *)
Definition generate_page_desc (idea_prompt : string) (outline : json)
    (i : nat) (page_outline : json) : M (nat * string) :=
  has_part ← lift (PyObj.contains "part" page_outline);
  part_info ← (if has_part : bool
               then part ← lift (PyObj.getitem page_outline "part");
                    mret (newline +:+ "This page belongs to: " +:+ py_str W part)
               else mret EmptyString);
  _ ← emit (EvTextRequest i);
  page_desc ← lift (gen_text E i (desc_prompt W idea_prompt outline part_info i page_outline));
  mret (i, dedent W page_desc).

Definition gen_desc (idea_prompt : string) (outline : json) : M (list string) :=
  pages ← lift (Flatten.flatten_outline outline);
  futures ← mapM (fun ip => submit (generate_page_desc idea_prompt outline ip.1 ip.2))
                 (enumerate 1 pages);
  desc_dict ← lift (Pool.collect (as_completed E _ futures));
  lift (Pool.by_index desc_dict).

(** [gen_outline_text] *)
Definition outline_line (i : nat) (item : json) : result string :=
  b ← Flatten.is_part item;
  if b : bool then
    part ← PyObj.getitem item "part";
    mret (Text.decimal i +:+ ". " +:+ py_str W part)
  else
    t ← get_default item "title" (JStr "Untitled");
    mret (Text.decimal i +:+ ". " +:+ py_str W t).

Definition gen_outline_text (outline : json) : result string :=
  items ← PyObj.iter outline;
  text_parts ← mapM (fun ii => outline_line ii.1 ii.2) (enumerate 1 items);
  mret (dedent W (String.concat newline text_parts)).

(** [gen_prompts], the body of the loop *)
Definition gen_prompt (outline_text : string) (i : nat) (page : json)
    (page_desc : string) : M string :=
  has_part ← lift (PyObj.contains "part" page);
  current_section ← lift (if has_part : bool
                          then PyObj.getitem page "part"
                          else get_default page "title" (JStr "Untitled"));
  _ ← emit (EvPromptBuilt i);
  mret (image_prompt W page_desc outline_text (py_str W current_section)).

Definition gen_prompts (outline : json) (desc : list string) : M (list string) :=
  pages ← lift (Flatten.flatten_outline outline);
  outline_text ← lift (gen_outline_text outline);
  mapM (fun ipd => gen_prompt outline_text ipd.1 ipd.2.1 ipd.2.2)
       (enumerate 1 (zip pages desc)).

(** [gen_images_parallel], the task of one page *)
Definition generate_single_image (ref_image output_dir : string)
    (i : nat) (prompt : string) : M (nat * option string) :=
  catch
    (_ ← emit (EvImageRequest i);
     image ← lift (gen_image E i prompt ref_image);
     match image with
     | Some img =>
         let output_file := Text.path_join output_dir (slide_name i) in
         _ ← lift (image_save E img output_file);
         _ ← write_file output_dir (slide_name i);
         _ ← emit (EvImageSaved output_file);
         mret (i, Some output_file)
     | None => mret (i, None)
     end)
    (fun _ => mret (i, None)).

Definition gen_images_parallel (prompts : list string) (ref_image output_dir : string)
    : M (list (option string)) :=
  _ ← lift (mkdir E output_dir);
  futures ← mapM (fun ip => submit (generate_single_image ref_image output_dir ip.1 ip.2))
                 (enumerate 1 prompts);
  image_files ← lift (Pool.collect (as_completed E _ futures));
  lift (Pool.by_index image_files).

(** [create_pptx_from_images] *)
Definition add_slide (input_dir : string) (image_file : string) : M unit :=
  _ ← lift (add_picture E (Text.path_join input_dir image_file));
  emit (EvAddPicture (Text.path_join input_dir image_file)).

Definition create_pptx_from_images (input_dir output_file : string) : M bool :=
  names ← scandir input_dir;
  let slide_files := Sort.sort_by extract_number (filter (fun n => glob_match n = true) names) in
  _ ← mapM (add_slide input_dir) slide_files;
  _ ← lift (pptx_save E output_file);
  _ ← emit (EvPptxSaved output_file);
  mret true.

(** [gen_ppt], the loop that prints the outline: what it reads *)
Definition show_page (page : json) : result unit :=
  _ ← get_default page "title" (JStr "Untitled");
  _ ← get_default page "points" (JList []);
  mret tt.

Definition show_item (item : json) : result unit :=
  b ← Flatten.is_part item;
  if b : bool then
    _ ← PyObj.getitem item "part";
    ps ← PyObj.getitem item "pages";
    ps ← PyObj.iter ps;
    _ ← mapM show_page ps;
    mret tt
  else show_page item.

Definition show_outline (outline : json) : result unit :=
  items ← PyObj.iter outline;
  _ ← mapM show_item items;
  mret tt.

(** [gen_ppt], the loop that prints the descriptions: what it reads *)
Definition show_desc (page : json) : result unit :=
  has_part ← PyObj.contains "part" page;
  _ ← (if has_part : bool then PyObj.getitem page "part" else mret JNull);
  _ ← get_default page "title" (JStr "Untitled");
  mret tt.

Definition is_not_none (f : option string) : bool :=
  match f with Some _ => true | None => false end.

Definition gen_ppt (timestamp idea_prompt ref_image : string) : M (list (option string)) :=
  let output_dir := "output_" +:+ timestamp in
  let pptx_filename := "presentation_" +:+ timestamp +:+ ".pptx" in
  outline ← gen_outline idea_prompt;
  _ ← lift (show_outline outline);
  desc ← gen_desc idea_prompt outline;
  pages ← lift (Flatten.flatten_outline outline);
  _ ← lift (mapM (fun pd => show_desc pd.1) (zip pages desc));
  prompts ← gen_prompts outline desc;
  image_files ← gen_images_parallel prompts ref_image output_dir;
  let successful := filter (fun f => is_not_none f = true) image_files in
  _ ← match successful with
      | [] => mret false
      | _ :: _ => create_pptx_from_images output_dir pptx_filename
      end;
  mret image_files.

End stages.

End Pipeline.

(** ** Views of the reply of the generator *)

Module ReplyView.

(** A character of the marker [```json]. *)
Definition marker_char (c : ascii) : bool := Text.mem_char c "```json".

(** A character that the chain of [strip] calls takes off an end of the
    reply: whitespace, or a character of the marker. *)
Definition strippable (c : ascii) : bool := Text.is_space c || marker_char c.

(** [inner] is [text] without a prefix and a suffix made of characters
    that satisfy [p]. *)
Definition trimmed_by (p : ascii -> bool) (text inner : string) : Prop :=
  exists pre post : string,
    text = pre +:+ inner +:+ post /\
    Text.all_chars p pre = true /\ Text.all_chars p post = true.

End ReplyView.

(** ** A decoder for a fragment of JSON

    [json.loads] belongs to Python's standard library.  This decoder
    stands in for it in the scenarios below, on the fragment of JSON that
    has no escape in a string and no fraction or exponent in a number: on
    a text of the fragment it returns what [json.loads] returns.  A text
    outside the fragment is answered with [JSONDecodeError]; the
    scenarios use none. *)

Module Decoder.

Definition dquote : ascii := ascii_of_nat 34.
Definition backslash : ascii := ascii_of_nat 92.

Definition is_ws (c : ascii) : bool :=
  let n := nat_of_ascii c in (n =? 32) || (n =? 9) || (n =? 10) || (n =? 13).

Fixpoint skip_ws (s : string) : string :=
  match s with
  | String c s' => if is_ws c then skip_ws s' else s
  | EmptyString => s
  end.

(** The characters up to the closing quote, and the text after it. *)
Fixpoint string_body (s : string) : option (string * string) :=
  match s with
  | EmptyString => None
  | String c s' =>
      if Ascii.eqb c dquote then Some (EmptyString, s')
      else if Ascii.eqb c backslash || (nat_of_ascii c <? 32) then None
      else match string_body s' with
           | Some (b, r) => Some (String c b, r)
           | None => None
           end
  end.

Definition integer (s : string) : option (json * string) :=
  let '(neg, s1) := match s with
                    | String c s' => if Ascii.eqb c "-" then (true, s') else (false, s)
                    | EmptyString => (false, s)
                    end in
  let digits := match s1 with
                | String c _ => if Ascii.eqb c "0" then "0"%string else Text.take_digits s1
                | EmptyString => EmptyString
                end in
  let rest := Text.drop (String.length digits) s1 in
  match digits, rest with
  | EmptyString, _ => None
  | _, String c _ =>
      if Ascii.eqb c "." || Ascii.eqb c "e" || Ascii.eqb c "E" then None
      else Some (JInt (if neg : bool then - Z.of_nat (Text.int_of_digits digits)
                       else Z.of_nat (Text.int_of_digits digits)), rest)
  | _, EmptyString =>
      Some (JInt (if neg : bool then - Z.of_nat (Text.int_of_digits digits)
                  else Z.of_nat (Text.int_of_digits digits)), rest)
  end.

Section nested.
Variable parse_value : string -> option (json * string).

(** The elements of an array after the first bracket, up to the
    closing one. *)
Fixpoint parse_elements (fuel : nat) (s : string) : option (list json * string) :=
  match fuel with
  | 0 => None
  | S fuel' =>
      match parse_value s with
      | Some (v, r) =>
          match skip_ws r with
          | String c r' =>
              if Ascii.eqb c "," then
                match parse_elements fuel' r' with
                | Some (vs, r'') => Some (v :: vs, r'')
                | None => None
                end
              else if Ascii.eqb c "]" then Some ([v], r')
              else None
          | EmptyString => None
          end
      | None => None
      end
  end.

(** The members of an object after the brace, up to the closing one. *)
Fixpoint parse_members (fuel : nat) (s : string) : option (list (string * json) * string) :=
  match fuel with
  | 0 => None
  | S fuel' =>
      match skip_ws s with
      | String c0 r0 =>
          if Ascii.eqb c0 dquote then
            match string_body r0 with
            | Some (k, r1) =>
                match skip_ws r1 with
                | String c1 r2 =>
                    if Ascii.eqb c1 ":" then
                      match parse_value r2 with
                      | Some (v, r3) =>
                          match skip_ws r3 with
                          | String c r' =>
                              if Ascii.eqb c "," then
                                match parse_members fuel' r' with
                                | Some (kvs, r'') => Some ((k, v) :: kvs, r'')
                                | None => None
                                end
                              else if Ascii.eqb c "}" then Some ([(k, v)], r')
                              else None
                          | EmptyString => None
                          end
                      | None => None
                      end
                    else None
                | EmptyString => None
                end
            | None => None
            end
          else None
      | EmptyString => None
      end
  end.
End nested.

(** A later member of the same name replaces an earlier one. *)
Definition dict_of (kvs : list (string * json)) : gmap string json :=
  foldl (fun m kv => <[kv.1 := kv.2]> m) ∅ kvs.

Fixpoint parse_value (fuel : nat) (s : string) : option (json * string) :=
  match fuel with
  | 0 => None
  | S fuel' =>
      match skip_ws s with
      | String c r =>
          if Ascii.eqb c "[" then
            match skip_ws r with
            | String c2 r2 =>
                if Ascii.eqb c2 "]" then Some (JList [], r2)
                else match parse_elements (parse_value fuel') fuel' r with
                     | Some (vs, r') => Some (JList vs, r')
                     | None => None
                     end
            | EmptyString => None
            end
          else if Ascii.eqb c "{" then
            match skip_ws r with
            | String c2 r2 =>
                if Ascii.eqb c2 "}" then Some (JDict ∅, r2)
                else match parse_members (parse_value fuel') fuel' r with
                     | Some (kvs, r') => Some (JDict (dict_of kvs), r')
                     | None => None
                     end
            | EmptyString => None
            end
          else if Ascii.eqb c dquote then
            match string_body r with
            | Some (b, r') => Some (JStr b, r')
            | None => None
            end
          else if String.prefix "null" (String c r) then Some (JNull, Text.drop 4 (String c r))
          else if String.prefix "true" (String c r) then Some (JBool true, Text.drop 4 (String c r))
          else if String.prefix "false" (String c r) then Some (JBool false, Text.drop 5 (String c r))
          else integer (String c r)
      | EmptyString => None
      end
  end.

Definition json_loads (s : string) : result json :=
  match parse_value (S (String.length s)) s with
  | Some (v, r) =>
      match skip_ws r with
      | EmptyString => Ok v
      | String _ _ => Raise JSONDecodeError
      end
  | None => Raise JSONDecodeError
  end.

End Decoder.

(** ** Scenarios: concrete collaborators to run the pipeline on *)

Module Scenario.

Definition quoted (s : string) : string :=
  String Decoder.dquote (s +:+ String Decoder.dquote EmptyString).

Definition page_text (title : string) : string :=
  "{" +:+ quoted "title" +:+ ": " +:+ quoted title +:+ ", " +:+
  quoted "points" +:+ ": [" +:+ quoted "point" +:+ "]}".

Definition part_text (name : string) (pages : list string) : string :=
  "{" +:+ quoted "part" +:+ ": " +:+ quoted name +:+ ", " +:+
  quoted "pages" +:+ ": [" +:+ String.concat ", " pages +:+ "]}".

(** Six pages: two in a first part, one standalone, three in a second
    part. *)
Definition outline_text : string :=
  "[" +:+ part_text "Part 1" [page_text "A"; page_text "B"] +:+ ", " +:+
  page_text "C" +:+ ", " +:+
  part_text "Part 2" [page_text "D"; page_text "E"; page_text "F"] +:+ "]".

Definition fenced (body : string) : string :=
  "```json" +:+ Pipeline.newline +:+ body +:+ Pipeline.newline +:+ "```".

Definition wording0 : wording :=
  {| py_str := fun v => match v with JStr s => s | _ => EmptyString end;
     dedent := fun s => s;
     outline_prompt := fun idea => idea;
     desc_prompt := fun idea _ part_info _ _ => idea +:+ part_info;
     image_prompt := fun page_desc _ section => page_desc +:+ " / " +:+ section |}.

Definition make_env (reply : string) (text : nat -> string -> result string)
    (image : nat -> string -> string -> result (option image))
    (order : forall A : Type, list A -> list A) : env :=
  {| gen_json_text := fun _ => Ok reply;
     generate_content := fun _ => Ok (fenced reply);
     json_loads := Decoder.json_loads;
     gen_text := text;
     gen_image := image;
     image_save := fun _ _ => Ok tt;
     mkdir := fun _ => Ok tt;
     add_picture := fun _ => Ok tt;
     pptx_save := fun _ => Ok tt;
     as_completed := order |}.

Definition all_texts (i : nat) (prompt : string) : result string :=
  Ok ("description " +:+ Text.decimal i).

Definition all_images (i : nat) (prompt ref_image : string) : result (option image) :=
  Ok (Some (Image i)).

(** Futures complete in the reverse of the order of submission. *)
Definition last_first (A : Type) (l : list A) : list A := reverse l.

Definition first_first (A : Type) (l : list A) : list A := l.

(** Every call succeeds. *)
Definition env0 : env := make_env outline_text all_texts all_images last_first.

(** The render of page 2 raises and that of page 5 returns no image. *)
Definition holes_2_5 (i : nat) (prompt ref_image : string) : result (option image) :=
  if i =? 2 then Raise (BackendError "no image found in the response")
  else if i =? 5 then Ok None
  else Ok (Some (Image i)).

Definition env_holes : env := make_env outline_text all_texts holes_2_5 last_first.

(** The descriptions of pages 3 and 5 fail, each with its own error. *)
Definition texts_fail_3_5 (i : nat) (prompt : string) : result string :=
  if i =? 3 then Raise (BackendError "page 3")
  else if i =? 5 then Raise (BackendError "page 5")
  else Ok ("description " +:+ Text.decimal i).

Definition env_desc_fails : env := make_env outline_text texts_fail_3_5 all_images last_first.

(** The description of page 4 fails with [e]. *)
Definition text_fails_4 (e : exn) (i : nat) (prompt : string) : result string :=
  if i =? 4 then Raise e else Ok ("description " +:+ Text.decimal i).

Definition env_desc_fails_4 (e : exn) : env :=
  make_env outline_text (text_fails_4 e) all_images first_first.

(** No page renders. *)
Definition no_image (i : nat) (prompt ref_image : string) : result (option image) := Ok None.

Definition env_no_render : env := make_env outline_text all_texts no_image last_first.

(** The generator replies with a list whose one entry has neither a
    title nor a part. *)
Definition env_shapeless : env := make_env "[{}]" all_texts all_images last_first.

(** The generator fences its reply loosely: blanks around the marker,
    a newline after the closing fence. *)
Definition loose_reply : string :=
  (" " +:+ "```json" +:+ (" " +:+ Pipeline.newline)) +:+
  String "["%char (page_text "A" +:+
                   String "]"%char (Pipeline.newline +:+ "```" +:+ Pipeline.newline)).

Definition env_loose_fence : env :=
  {| gen_json_text := fun _ => Ok loose_reply;
     generate_content := fun _ => Ok loose_reply;
     json_loads := Decoder.json_loads;
     gen_text := all_texts;
     gen_image := all_images;
     image_save := fun _ _ => Ok tt;
     mkdir := fun _ => Ok tt;
     add_picture := fun _ => Ok tt;
     pptx_save := fun _ => Ok tt;
     as_completed := last_first |}.

Definition empty_world : world := World [] [].

(** The decoded outline of [outline_text] and its flat pages. *)
Definition outline0 : json :=
  match Decoder.json_loads outline_text with
  | Ok v => v
  | Raise _ => JNull
  end.

Definition pages0 : list json :=
  match Flatten.flatten_outline outline0 with
  | Ok pages => pages
  | Raise _ => []
  end.

(** A directory listed out of order, with a file of another directory
    and a file that is no slide. *)
Definition shuffled_world : world :=
  World [("out", "slide_10.png"); ("out", "slide_02.png"); ("other", "slide_01.png");
         ("out", "slide_11.png"); ("out", "slide_01.png"); ("out", "notes.txt")] [].

(** An entry with a key [part] and no key [pages], between two pages. *)
Definition page_A : json := JDict (<["title" := JStr "A"]> ∅).
Definition page_B : json := JDict (<["title" := JStr "B"]> ∅).
Definition lone_part : gmap string json := <["part" := JStr "Intro"]> ∅.

Definition six_prompts : list string := ["p1"; "p2"; "p3"; "p4"; "p5"; "p6"].

(** The descriptions [all_texts] gives for the six pages, and the
    prompts built from them. *)
Definition descs0 : list string := (fun i => "description " +:+ Text.decimal i) <$> seq 1 6.

Definition prompts0 : list string :=
  match (Pipeline.gen_prompts wording0 outline0 descs0 empty_world).2 with
  | Ok prompts => prompts
  | Raise _ => []
  end.

End Scenario.

(** ** The per-page functions of [AIService] and views of the outline *)

Module Service.

(** [AIService.generate_image_prompt]: the prompt of one page.  The
    outline text is computed anew for every page. *)
Definition generate_image_prompt (W : wording) (outline page : json)
    (page_desc : string) (page_index : nat) : result string :=
  outline_text ← Pipeline.gen_outline_text W outline;
  has_part ← PyObj.contains "part" page;
  current_section ← (if has_part : bool
                     then PyObj.getitem page "part"
                     else Pipeline.get_default page "title" (JStr "Untitled"));
  mret (image_prompt W page_desc outline_text (py_str W current_section)).

End Service.

Module OutlineView.

(** The label of a top-level entry in the outline text: the name of a
    part, the title of a page. *)
Definition entry_label (e : Outline.OutlineEntry) : string :=
  match e with
  | Outline.EPage p => Outline.title p
  | Outline.EPart name _ => name
  end.

(** The section a flat page is in: its part, or else its own title. *)
Definition section_label (tp : option string * Outline.Page) : string :=
  match tp.1 with
  | Some name => name
  | None => Outline.title tp.2
  end.

End OutlineView.

(** ** File names *)

Module Names.

(** A character below 128: on names of such characters [\d] of the
    pattern of [extract_number] matches the digits 0 to 9 and no other. *)
Definition is_ascii (c : ascii) : bool := nat_of_ascii c <? 128.

End Names.

(** ** Views of what the image stage leaves behind *)

Module StageView.

(** The indices of the pages that rendered, read off the results of the
    image stage, the first result having index [start]. *)
Definition rendered_from (start : nat) (results : list (option string)) : list nat :=
  omap (fun ir : nat * option string =>
          match ir.2 with
          | Some _ => Some ir.1
          | None => None
          end)
       (enumerate start results).

Definition rendered (results : list (option string)) : list nat := rendered_from 1 results.

(** The events of the task of one page: the request, and the save when
    there is a path. *)
Definition render_events (ir : nat * option string) : list event :=
  EvImageRequest ir.1 ::
  match ir.2 with
  | Some path => [EvImageSaved path]
  | None => []
  end.

(** What the task of page [i] returns beside [i]: the path of the saved
    image, or nothing when the backend raises, returns no image, or the
    image cannot be saved. *)
Definition render_path (E : env) (ref_image output_dir : string) (i : nat)
    (prompt : string) : option string :=
  match gen_image E i prompt ref_image with
  | Ok (Some img) =>
      match image_save E img (Text.path_join output_dir (Pipeline.slide_name i)) with
      | Ok _ => Some (Text.path_join output_dir (Pipeline.slide_name i))
      | Raise _ => None
      end
  | _ => None
  end.

(** The paths of the pages that rendered, in page order. *)
Definition rendered_paths (results : list (option string)) : list string :=
  omap (fun f => f) results.

End StageView.

(** ** [AIService.generate_image] and [AIService.edit_image] *)

Module ImageService.

(** A part of the response: one that has text, or one that has none, on
    which [as_image] is tried. *)
Inductive part : Type :=
| TextPart (text : string)
| InlinePart (as_image : result (option image)).

(** The collaborators of [generate_image]: the file system, the image
    model (opening the reference and the request, giving
    [response.parts], which may be [None]), the type name and the text
    of what they raise, and the wording of the edit instruction. *)
Record image_backend : Type := {
  path_exists : string -> bool;
  image_model : string -> string -> result (option (list part));
  exn_name : exn -> string;
  exn_text : exn -> string;
  edit_instruction : string -> string
}.

(** What is raised inside the [try] block. *)
Inductive raised : Type :=
| FileNotFoundError (message : string)
| NoneNotIterable
| ValueError (message : string)
| Collaborator (e : exn).

Definition type_name (B : image_backend) (r : raised) : string :=
  match r with
  | FileNotFoundError _ => "FileNotFoundError"
  | NoneNotIterable => "TypeError"
  | ValueError _ => "ValueError"
  | Collaborator e => exn_name B e
  end.

Definition message (B : image_backend) (r : raised) : string :=
  match r with
  | FileNotFoundError m => m
  | NoneNotIterable => "'NoneType' object is not iterable"
  | ValueError m => m
  | Collaborator e => exn_text B e
  end.

(** The loop over the parts: a part with text is passed over; on any
    other, [as_image] is tried, an exception of it is caught and an
    empty result passed over; the first image ends the loop. *)
Fixpoint first_image (parts : list part) : option image :=
  match parts with
  | [] => None
  | TextPart _ :: rest => first_image rest
  | InlinePart (Ok (Some img)) :: _ => Some img
  | InlinePart _ :: rest => first_image rest
  end.

Definition no_image_message (parts : list part) : string :=
  "No image found in API response. " +:+
  match parts with
  | [] => "Response had no parts."
  | _ :: _ => "Response had " +:+ Text.decimal (length parts) +:+
              " parts but none contained valid images."
  end.

(** The body of the [try] block. *)
Definition generate_image_body (B : image_backend) (prompt ref_image_path : string)
    : raised + image :=
  if path_exists B ref_image_path then
    match image_model B prompt ref_image_path with
    | Raise e => inl (Collaborator e)
    | Ok None => inl NoneNotIterable
    | Ok (Some parts) =>
        match first_image parts with
        | Some img => inr img
        | None => inl (ValueError (no_image_message parts))
        end
    end
  else inl (FileNotFoundError ("Reference image not found: " +:+ ref_image_path)).

(** [except Exception as e: raise Exception(error_detail) from e] *)
Definition generate_image (B : image_backend) (prompt ref_image_path : string)
    : result (option image) :=
  match generate_image_body B prompt ref_image_path with
  | inr img => Ok (Some img)
  | inl r => Raise (BackendError ("Error generating image: " +:+ type_name B r +:+ ": " +:+
                                  message B r))
  end.

Definition edit_image (B : image_backend) (prompt current_image_path : string)
    : result (option image) :=
  generate_image B (edit_instruction B prompt) current_image_path.

(** Is [p] a part that yields an image? *)
Definition yields_image (p : part) : bool :=
  match p with
  | InlinePart (Ok (Some _)) => true
  | _ => false
  end.

End ImageService.

(** ** More scenarios *)

Module Scenario2.

(** A part of one page; the page has a key [part] of its own and a key
    the shapes do not name. *)
Definition tagged_page : gmap string json :=
  <["title" := JStr "A"]> (<["part" := JStr "old"]> (<["notes" := JStr "n"]> ∅)).

Definition part_of (pages : json) : gmap string json :=
  <["part" := JStr "P"]> (<["pages" := pages]> ∅).

Definition a_page : Outline.Page := {| Outline.title := "A"; Outline.points := ["x"] |}.

Definition small_outline : list Outline.OutlineEntry :=
  [Outline.EPart "P" [a_page; a_page]; Outline.EPage a_page].

(** The flat pages of [Scenario.outline0], as dicts. *)
Definition dicts0 : list (gmap string json) :=
  omap (fun page => match page with JDict d => Some d | _ => None end) Scenario.pages0.

Definition six_descs : list string := ["d1"; "d2"; "d3"; "d4"; "d5"; "d6"].

(** The picture of page 2 cannot be added. *)
Definition env_bad_picture : env :=
  {| gen_json_text := gen_json_text Scenario.env0;
     generate_content := generate_content Scenario.env0;
     json_loads := json_loads Scenario.env0;
     gen_text := gen_text Scenario.env0;
     gen_image := gen_image Scenario.env0;
     image_save := image_save Scenario.env0;
     mkdir := mkdir Scenario.env0;
     add_picture := fun path =>
       if String.eqb path "out/slide_02.png" then Raise (BackendError "not an image")
       else Ok tt;
     pptx_save := pptx_save Scenario.env0;
     as_completed := as_completed Scenario.env0 |}.

(** A response of five parts: text, a part on which [as_image] raises, a
    part that yields nothing, and two images. *)
Definition five_parts : list ImageService.part :=
  [ImageService.TextPart "here is your slide";
   ImageService.InlinePart (Raise (BackendError "bad data"));
   ImageService.InlinePart (Ok None);
   ImageService.InlinePart (Ok (Some (Image 7)));
   ImageService.InlinePart (Ok (Some (Image 8)))].

Definition image_backend0 : ImageService.image_backend :=
  {| ImageService.path_exists := fun path => String.eqb path "template.png";
     ImageService.image_model := fun _ _ => Ok (Some five_parts);
     ImageService.exn_name := fun _ => "ServerError";
     ImageService.exn_text := fun _ => "unavailable";
     ImageService.edit_instruction := fun prompt => "edit: " +:+ prompt |}.

(** A world whose one file is in another directory. *)
Definition other_world : world := World [("other", "slide_01.png")] [].

(** The run in which the render of page 2 raises and that of page 5
    returns no image. *)
Definition run_holes : world * result (list (option string)) :=
  Pipeline.gen_ppt Scenario.env_holes Scenario.wording0 "t" "idea" "ref.png"
                   Scenario.empty_world.

Definition results_holes : list (option string) :=
  [Some "output_t/slide_01.png"; None; Some "output_t/slide_03.png";
   Some "output_t/slide_04.png"; None; Some "output_t/slide_06.png"].

End Scenario2.

(** ** Facts about the error monad and loops *)

(** Lookups of literal keys in a [dict] built by insertions. *)
Ltac lookup_keys :=
  repeat first [ rewrite lookup_insert_eq
               | rewrite lookup_insert_ne by done
               | rewrite lookup_empty ].

Section loops.
Context {A B : Type}.

Lemma for_each_app {S} (body : S -> A -> result S) (s : S) (l1 l2 : list A) :
  for_each body s (l1 ++ l2) = s' ← for_each body s l1; for_each body s' l2.
Proof.
  revert s; induction l1 as [|x l1 IH]; intros s; cbn; [done|].
  destruct (body s x) as [s'|e]; cbn; [apply IH|done].
Qed.

Lemma mapM_result_app (f : A -> result B) (l1 l2 : list A) :
  mapM f (l1 ++ l2) = r1 ← mapM f l1; r2 ← mapM f l2; Ok (r1 ++ r2).
Proof.
  induction l1 as [|x l1 IH]; cbn.
  - destruct (mapM f l2); done.
  - destruct (f x) as [y|e]; cbn; [|done]. rewrite IH.
    destruct (mapM f l1) as [r1|e]; cbn; [|done].
    destruct (mapM f l2) as [r2|e]; cbn; done.
Qed.

(** A loop that appends one element per round is a [mapM]. *)
Lemma for_each_snoc (body : list B -> A -> result (list B)) (g : A -> result B) :
  (forall acc x, body acc x = r ← g x; Ok (acc ++ [r])) ->
  forall l acc, for_each body acc l = mid ← mapM g l; Ok (acc ++ mid).
Proof.
  intros Hbody. induction l as [|x l IH]; intros acc; cbn.
  - by rewrite app_nil_r.
  - rewrite Hbody. destruct (g x) as [r|e]; cbn; [|done].
    rewrite IH. destruct (mapM g l) as [mid|e]; cbn; [|done].
    by rewrite <- app_assoc.
Qed.

(** A loop that appends a list per round is a [mapM] and a [concat]. *)
Lemma for_each_extend (body : list B -> A -> result (list B)) (h : A -> result (list B)) :
  (forall acc x, body acc x = r ← h x; Ok (acc ++ r)) ->
  forall l acc, for_each body acc l = rs ← mapM h l; Ok (acc ++ concat rs).
Proof.
  intros Hbody. induction l as [|x l IH]; intros acc; cbn.
  - by rewrite app_nil_r.
  - rewrite Hbody. destruct (h x) as [r|e]; cbn; [|done].
    rewrite IH. destruct (mapM h l) as [rs|e]; cbn; [|done].
    by rewrite <- app_assoc.
Qed.
End loops.

Lemma enumerate_fst {A} (l : list A) (start : nat) :
  (enumerate start l).*1 = seq start (length l).
Proof.
  revert start; induction l as [|x l IH]; intros start; simpl; [done|].
  by rewrite IH.
Qed.

Lemma enumerate_snd {A} (l : list A) (start : nat) :
  (enumerate start l).*2 = l.
Proof.
  revert start; induction l as [|x l IH]; intros start; simpl; [done|].
  by rewrite IH.
Qed.

Lemma enumerate_lookup {A} (l : list A) (start k : nat) :
  enumerate start l !! k = (fun x => (start + k, x)) <$> l !! k.
Proof.
  revert start k; induction l as [|x l IH]; intros start k; [done|].
  destruct k as [|k]; cbn; [by rewrite Nat.add_0_r|].
  rewrite IH. by replace (S start + k) with (start + S k) by lia.
Qed.

Lemma enumerate_length {A} (l : list A) (start : nat) :
  length (enumerate start l) = length l.
Proof. by rewrite <- (length_fmap fst), enumerate_fst, length_seq. Qed.

(** ** The flattener *)

Section flatten_facts.
Import Flatten.

Lemma add_page_stamp (item part : json) :
  PyObj.getitem item "part" = Ok part ->
  forall acc page, add_page item acc page = r ← stamp part page; Ok (acc ++ [r]).
Proof.
  intros Hpart acc page. unfold add_page, stamp.
  destruct (PyObj.copy page) as [c|e]; cbn; [|done].
  rewrite Hpart; cbn. destruct (PyObj.setitem c "part" part); done.
Qed.

Lemma is_part_dict (m : gmap string json) :
  is_part (JDict m) =
    Ok (bool_decide (is_Some (m !! "part")) && bool_decide (is_Some (m !! "pages"))).
Proof.
  unfold is_part; cbn. destruct (bool_decide (is_Some (m !! "part"))); reflexivity.
Qed.

(** One top-level [dict] entry. *)
Lemma add_item_dict (acc : list json) (m : gmap string json) :
  add_item acc (JDict m) =
    match m !! "part", m !! "pages" with
    | Some part, Some pages => mid ← expand part pages; Ok (acc ++ mid)
    | _, _ => Ok (acc ++ [JDict m])
    end.
Proof.
  unfold add_item. rewrite is_part_dict.
  destruct (m !! "part") as [part|] eqn:Hpart;
    [destruct (m !! "pages") as [pages|] eqn:Hpages|].
  - rewrite !bool_decide_eq_true_2 by eauto. cbn. rewrite Hpages. cbn. unfold expand.
    destruct (PyObj.iter pages) as [l|e]; cbn; [|done].
    apply for_each_snoc, add_page_stamp. cbn. by rewrite Hpart.
  - rewrite bool_decide_eq_true_2 by eauto.
    rewrite bool_decide_eq_false_2 by (intros [? ?]; done). reflexivity.
  - rewrite bool_decide_eq_false_2 by (intros [? ?]; done). reflexivity.
Qed.

Lemma add_item_shift (acc : list json) (item : json) :
  add_item acc item = r ← add_item [] item; Ok (acc ++ r).
Proof.
  unfold add_item. destruct (is_part item) as [[|]|e]; cbn; try done.
  destruct (PyObj.getitem item "pages") as [ps|e]; cbn; [|done].
  destruct (PyObj.iter ps) as [l|e]; cbn; [|done].
  destruct (PyObj.getitem item "part") as [part|e] eqn:Hpart.
  - rewrite !(for_each_snoc _ _ (add_page_stamp item part Hpart)).
    destruct (mapM (stamp part) l); done.
  - destruct l as [|p l]; cbn; [by rewrite app_nil_r|].
    unfold add_page. destruct (PyObj.copy p); cbn; [|done]. by rewrite Hpart.
Qed.

Lemma flatten_outline_list (items : list json) :
  flatten_outline (JList items) = rs ← mapM (add_item []) items; Ok (concat rs).
Proof.
  unfold flatten_outline; cbn. apply (for_each_extend _ _ add_item_shift).
Qed.

Lemma flatten_outline_app (l1 l2 : list json) :
  flatten_outline (JList (l1 ++ l2)) =
    r ← flatten_outline (JList l1); r' ← flatten_outline (JList l2); Ok (r ++ r').
Proof.
  rewrite !flatten_outline_list, mapM_result_app.
  destruct (mapM (add_item []) l1) as [r1|e]; cbn; [|done].
  destruct (mapM (add_item []) l2) as [r2|e]; cbn; [|done].
  by rewrite concat_app.
Qed.

Lemma flatten_outline_cons (item : json) (items : list json) :
  flatten_outline (JList (item :: items)) =
    r ← add_item [] item; r' ← flatten_outline (JList items); Ok (r ++ r').
Proof.
  rewrite !flatten_outline_list. cbn.
  destruct (add_item [] item) as [r|e]; cbn; [|done].
  destruct (mapM (add_item []) items) as [rs|e]; cbn; done.
Qed.
End flatten_facts.

Section flatten_outlines.
Import Flatten Outline.

Lemma encode_page_part (p : Page) : encode_page p !! "part" = None.
Proof. unfold encode_page. by rewrite !lookup_insert_ne, lookup_empty. Qed.

Lemma encode_page_pages (p : Page) : encode_page p !! "pages" = None.
Proof. unfold encode_page. by rewrite !lookup_insert_ne, lookup_empty. Qed.

Lemma stamp_pages (part : json) (ps : list Page) :
  mapM (stamp part) ((fun p => JDict (encode_page p)) <$> ps) =
    Ok ((fun p => JDict (<["part" := part]> (encode_page p))) <$> ps).
Proof.
  induction ps as [|p ps IH]; cbn; [done|]. rewrite IH. reflexivity.
Qed.

Lemma add_item_entry (e : OutlineEntry) :
  add_item [] (encode_entry e) = Ok (encode_flat <$> entry_pages e).
Proof.
  destruct e as [p|name ps]; cbn [encode_entry]; rewrite add_item_dict.
  - by rewrite encode_page_part.
  - rewrite lookup_insert_eq, lookup_insert_ne, lookup_insert_eq by done.
    unfold expand; cbn. rewrite stamp_pages; cbn.
    by rewrite <- list_fmap_compose.
Qed.

(** The flattener computes the traversal of a shape-valid outline. *)
Lemma flatten_encode (o : list OutlineEntry) :
  flatten_outline (encode_outline o) = Ok (encode_flat <$> traversal o).
Proof.
  unfold encode_outline, traversal. induction o as [|e o IH]; [done|].
  rewrite fmap_cons, flatten_outline_cons, add_item_entry, IH; cbn.
  by rewrite fmap_app.
Qed.

Lemma traversal_length (o : list OutlineEntry) :
  length (traversal o) = total_pages o.
Proof.
  unfold traversal. induction o as [|e o IH]; [done|].
  cbn. rewrite length_app, IH. f_equal.
  destruct e; cbn; [done|]. by rewrite length_fmap.
Qed.
End flatten_outlines.

(** C3. Flattening is index-stable: for every shape-valid outline with
    [total_pages o] pages in all, [flatten_outline] returns exactly that
    many flat pages, in traversal order (a part expanded in place, its
    pages in order), and the indices that [enumerate(pages, 1)] gives them
    are 1, 2, ..., [total_pages o]. *)
Theorem flatten_index_stable (o : list Outline.OutlineEntry) :
  exists pages : list json,
    Flatten.flatten_outline (Outline.encode_outline o) = Ok pages /\
    pages = Outline.encode_flat <$> Outline.traversal o /\
    length pages = Outline.total_pages o /\
    (enumerate 1 pages).*1 = seq 1 (Outline.total_pages o).
Proof.
  exists (Outline.encode_flat <$> Outline.traversal o).
  assert (length (Outline.encode_flat <$> Outline.traversal o) = Outline.total_pages o) as Hlen
    by (by rewrite length_fmap, traversal_length).
  split; [apply flatten_encode|]. split; [done|]. split; [done|].
  by rewrite enumerate_fst, Hlen.
Qed.

(** C4. Flattening is part-tagging-correct: for every shape-valid
    outline, the flat page made from a page inside a part is that page
    with the key [part] set to the part's name, and the flat page made
    from a standalone page is that page without a key [part]; so the key
    is present exactly when the page came from inside a part. *)
Theorem flatten_part_tagging (o : list Outline.OutlineEntry) :
  exists pages : list json,
    Flatten.flatten_outline (Outline.encode_outline o) = Ok pages /\
    Forall2 (fun (tp : option string * Outline.Page) (flat : json) =>
               exists d : gmap string json,
                 flat = JDict d /\
                 d !! "part" = JStr <$> tp.1 /\
                 (is_Some (d !! "part") <-> is_Some tp.1) /\
                 d !! "title" = Some (JStr (Outline.title tp.2)) /\
                 d !! "points" = Some (JList (JStr <$> Outline.points tp.2)))
            (Outline.traversal o) pages.
Proof.
  exists (Outline.encode_flat <$> Outline.traversal o).
  split; [apply flatten_encode|].
  apply Forall2_fmap_r, Forall_Forall2_diag, Forall_forall.
  intros [[name|] p] _; unfold Outline.encode_flat; cbn.
  - exists (<["part" := JStr name]> (Outline.encode_page p)).
    split; [done|]. rewrite lookup_insert_eq. split; [done|].
    split; [split; eauto|]. unfold Outline.encode_page.
    split; lookup_keys; done.
  - exists (Outline.encode_page p).
    split; [done|]. rewrite encode_page_part. split; [done|].
    split; [split; intros [? ?]; done|]. unfold Outline.encode_page.
    split; lookup_keys; done.
Qed.

(** C10. The classification rule of the flattener: a top-level entry
    (a [dict]) is expanded as a part exactly when it has both a key
    [part] and a key [pages]; every other entry, one with a key [part]
    and no key [pages] included, is emitted as it is, as one page, with
    all its keys, between the pages of the entries before and after it. *)
Theorem flatten_classification (m : gmap string json) (before after : list json)
    (ps1 ps2 : list json) :
  Flatten.flatten_outline (JList before) = Ok ps1 ->
  Flatten.flatten_outline (JList after) = Ok ps2 ->
  Flatten.flatten_outline (JList (before ++ JDict m :: after)) =
    match m !! "part", m !! "pages" with
    | Some part, Some pages =>
        mid ← Flatten.expand part pages; Ok (ps1 ++ mid ++ ps2)
    | _, _ => Ok (ps1 ++ JDict m :: ps2)
    end.
Proof.
  intros H1 H2.
  rewrite flatten_outline_app, H1, flatten_outline_cons, H2, add_item_dict; cbn.
  destruct (m !! "part") as [part|]; [destruct (m !! "pages") as [pages|]|]; cbn; try done.
  destruct (Flatten.expand part pages); done.
Qed.

(** ** Sorting *)

Section sort_facts.
Context {A : Type} (key : A -> nat).

Local Abbreviation key_le := (Sort.key_le key).

Lemma insert_Permutation (x : A) (l : list A) : Sort.insert key x l ≡ₚ x :: l.
Proof.
  induction l as [|y l IH]; cbn; [done|].
  destruct (key x <=? key y); [done|]. by rewrite IH, Permutation_swap.
Qed.

Lemma sort_by_Permutation (l : list A) : Sort.sort_by key l ≡ₚ l.
Proof.
  induction l as [|x l IH]; cbn; [done|]. by rewrite insert_Permutation, IH.
Qed.

Lemma insert_HdRel (a x : A) (l : list A) :
  key_le a x -> HdRel key_le a l -> HdRel key_le a (Sort.insert key x l).
Proof.
  intros Hax Hl. destruct l as [|y l]; cbn; [by constructor|].
  destruct (key x <=? key y); constructor; [done|]. by inversion Hl.
Qed.

Lemma insert_Sorted (x : A) (l : list A) :
  Sorted key_le l -> Sorted key_le (Sort.insert key x l).
Proof.
  induction 1 as [|y l Hl IH Hhd]; cbn; [by repeat constructor|].
  destruct (key x <=? key y) eqn:Hxy.
  - apply Nat.leb_le in Hxy. by repeat constructor.
  - apply Nat.leb_gt in Hxy. constructor; [done|].
    apply insert_HdRel; [unfold Sort.key_le; lia|done].
Qed.

Lemma sort_by_Sorted (l : list A) : Sorted key_le (Sort.sort_by key l).
Proof. induction l as [|x l IH]; cbn; [constructor|by apply insert_Sorted]. Qed.

Lemma sort_by_StronglySorted (l : list A) : StronglySorted key_le (Sort.sort_by key l).
Proof.
  apply Sorted_StronglySorted; [|apply sort_by_Sorted].
  intros x y z; unfold Sort.key_le; lia.
Qed.
End sort_facts.

Lemma sort_by_cons {A} (key : A -> nat) (x : A) (l : list A) :
  Sort.sort_by key (x :: l) = Sort.insert key x (Sort.sort_by key l).
Proof. reflexivity. Qed.

Lemma insert_fmap {A B} (key : B -> nat) (f : A -> B) (x : A) (s : list A) :
  Sort.insert key (f x) (f <$> s) = f <$> Sort.insert (fun x => key (f x)) x s.
Proof.
  induction s as [|y s IH]; cbn; [done|].
  destruct (key (f x) <=? key (f y)); cbn; [done|]. by rewrite <- IH.
Qed.

Lemma sort_by_fmap {A B} (key : B -> nat) (f : A -> B) (l : list A) :
  Sort.sort_by key (f <$> l) = f <$> Sort.sort_by (fun x => key (f x)) l.
Proof.
  induction l as [|x l IH]; [done|].
  by rewrite fmap_cons, !sort_by_cons, IH, insert_fmap.
Qed.

Lemma insert_ext {A} (key key' : A -> nat) (x : A) (s : list A) :
  (forall x, key x = key' x) -> Sort.insert key x s = Sort.insert key' x s.
Proof.
  intros Hk. induction s as [|y s IH]; cbn; [done|]. by rewrite !Hk, IH.
Qed.

Lemma sort_by_ext {A} (key key' : A -> nat) (l : list A) :
  (forall x, key x = key' x) -> Sort.sort_by key l = Sort.sort_by key' l.
Proof.
  intros Hk. induction l as [|x l IH]; [done|].
  by rewrite !sort_by_cons, IH, (insert_ext key key').
Qed.

Lemma seq_Sorted (start n : nat) : Sorted le (seq start n).
Proof.
  revert start; induction n as [|n IH]; intros start; cbn; [constructor|].
  constructor; [apply IH|]. destruct n; cbn; constructor. lia.
Qed.

(** Sorting any arrangement of [start, ..., start+n-1] gives that range. *)
Lemma sorted_seq (l : list nat) (start n : nat) :
  l ≡ₚ seq start n -> Sort.sorted l = seq start n.
Proof.
  intros Hl. apply (Sorted_unique le).
  - apply (sort_by_Sorted (fun n => n)).
  - apply seq_Sorted.
  - unfold Sort.sorted. by rewrite sort_by_Permutation.
Qed.

(** ** The fan-in of the thread-pool stages *)

Section pool_facts.
Context {V : Type}.

Local Abbreviation put := (@Pool.put V).

Lemma collect_values (kvs : list (nat * V)) :
  Pool.collect (Ok <$> kvs) = Ok (foldl put ∅ kvs).
Proof.
  unfold Pool.collect. generalize (∅ : gmap nat V).
  induction kvs as [|[i v] kvs IH]; intros d; cbn; [done|]. apply IH.
Qed.

Lemma foldl_put (kvs : list (nat * V)) :
  NoDup kvs.*1 -> foldl put ∅ kvs = list_to_map kvs.
Proof.
  induction kvs as [|[i v] kvs IH] using rev_ind; intros Hnd; [done|].
  rewrite foldl_app; cbn. rewrite fmap_app in Hnd.
  apply NoDup_app in Hnd as (Hnd & Hi & _).
  rewrite list_to_map_snoc, IH; [done|done|].
  intros Hin. apply (Hi i Hin). cbn. by left.
Qed.

(** An exception in a future is raised at the first failed future in
    completion order. *)
Lemma collect_raise (kvs : list (nat * V)) (e : exn)
    (later : list (result (nat * V))) :
  Pool.collect ((Ok <$> kvs) ++ Raise e :: later) = Raise e.
Proof.
  unfold Pool.collect. generalize (∅ : gmap nat V).
  induction kvs as [|[i v] kvs IH]; intros d; cbn; [done|]. apply IH.
Qed.

Lemma by_index_enumerate (vs : list V) :
  Pool.by_index (list_to_map (enumerate 1 vs)) = Ok vs.
Proof.
  assert (NoDup (enumerate 1 vs).*1) as Hnd
    by (rewrite enumerate_fst; apply NoDup_seq).
  unfold Pool.by_index, Pool.keys.
  rewrite (sorted_seq _ 1 (length vs)); last first.
  { rewrite map_to_list_to_map by done. by rewrite enumerate_fst. }
  assert (forall k v, vs !! k = Some v ->
            Pool.subscript (list_to_map (enumerate 1 vs) : gmap nat V) (1 + k) = Ok v) as Hsub.
  { intros k v Hk. unfold Pool.subscript.
    erewrite (proj1 (elem_of_list_to_map _ (1 + k) v Hnd)); [done|].
    apply list_elem_of_lookup. exists k. by rewrite enumerate_lookup, Hk. }
  revert Hsub. generalize (Pool.subscript (list_to_map (enumerate 1 vs) : gmap nat V)).
  generalize 1 as s. clear Hnd.
  induction vs as [|x vs IH]; intros s f Hf; cbn; [done|].
  rewrite <- (Nat.add_0_r s) at 1. rewrite (Hf 0 x) by done. cbn.
  rewrite (IH (S s) f); [done|].
  intros k v Hk. rewrite <- (Hf (S k) v Hk). f_equal. lia.
Qed.

(** Whatever the completion order, collecting futures that all hold a
    value and reading the dictionary by sorted key gives the values in
    the order of submission. *)
Lemma fan_in (vs : list V) (completed : list (result (nat * V))) :
  completed ≡ₚ Ok <$> enumerate 1 vs ->
  (d ← Pool.collect completed; Pool.by_index d) = Ok vs.
Proof.
  intros Hperm. apply Permutation_map_inv in Hperm as (kvs & -> & Hkvs).
  change (map Ok kvs) with (Ok <$> kvs). rewrite collect_values; cbn.
  assert (NoDup (enumerate 1 vs).*1) as Hnd
    by (rewrite enumerate_fst; apply NoDup_seq).
  rewrite foldl_put by (by rewrite <- Hkvs).
  rewrite <- (list_to_map_proper _ _ Hnd Hkvs). apply by_index_enumerate.
Qed.
End pool_facts.

(** ** Runs in the world monad *)

Lemma bind_run {A B} (m : M A) (f : A -> M B) (w : world) :
  (m ≫= f) w =
    match m w with
    | (w', Ok a) => f a w'
    | (w', Raise e) => (w', Raise e)
    end.
Proof. reflexivity. Qed.

Lemma lift_bind_run {A B} (r : result A) (f : A -> M B) (w : world) :
  (lift r ≫= f) w =
    match r with
    | Ok a => f a w
    | Raise e => (w, Raise e)
    end.
Proof. rewrite bind_run. unfold lift. by destruct r. Qed.

Section run_facts.
Context {A B : Type}.

(** Futures of tasks whose outcome does not depend on the world. *)
Lemma mapM_submit_run (task : A -> M B) (l : list A) (w : world) :
  (forall a w, (task a w).2 = outcome (task a)) ->
  exists w', mapM (fun a => submit (task a)) l w =
               (w', Ok ((fun a => outcome (task a)) <$> l)).
Proof.
  intros Hind. revert w; induction l as [|a l IH]; intros w.
  - by exists w.
  - cbn [mapM]. rewrite bind_run. unfold submit at 1.
    destruct (task a w) as [w1 r] eqn:Hrun.
    destruct (IH w1) as [w2 Hw2]. exists w2.
    rewrite bind_run. cbn [mapM] in Hw2. rewrite Hw2.
    cbn. f_equal. f_equal. f_equal. by rewrite <- (Hind a w), Hrun.
Qed.
End run_facts.

Section emits_facts.
Context (P : event -> bool).

Lemma emits_only_ret {A} (a : A) : emits_only P (mret a).
Proof. intros w. exists []. by rewrite app_nil_r. Qed.

Lemma emits_only_lift {A} (r : result A) : emits_only P (lift r).
Proof. intros w. exists []. by rewrite app_nil_r. Qed.

Lemma emits_only_emit (ev : event) : P ev = true -> emits_only P (emit ev).
Proof. intros Hev w. exists [ev]. cbn. by rewrite Hev. Qed.

Lemma emits_only_write_file (dir name : string) : emits_only P (write_file dir name).
Proof. intros w. exists []. by rewrite app_nil_r. Qed.

Lemma emits_only_scandir (dir : string) : emits_only P (scandir dir).
Proof. intros w. exists []. by rewrite app_nil_r. Qed.

Lemma emits_only_bind {A B} (m : M A) (f : A -> M B) :
  emits_only P m -> (forall a, emits_only P (f a)) -> emits_only P (m ≫= f).
Proof.
  intros Hm Hf w. rewrite bind_run. destruct (Hm w) as (t1 & Ht1 & HP1).
  destruct (m w) as [w1 [a|e]]; cbn in *; [|by exists t1].
  destruct (Hf a w1) as (t2 & Ht2 & HP2). exists (t1 ++ t2).
  rewrite Ht2, Ht1, app_assoc, forallb_app, HP1, HP2. done.
Qed.

Lemma emits_only_catch {A} (m : M A) (h : exn -> M A) :
  emits_only P m -> (forall e, emits_only P (h e)) -> emits_only P (catch m h).
Proof.
  intros Hm Hh w. unfold catch. destruct (Hm w) as (t1 & Ht1 & HP1).
  destruct (m w) as [w1 [a|e]]; cbn in *; [by exists t1|].
  destruct (Hh e w1) as (t2 & Ht2 & HP2). exists (t1 ++ t2).
  rewrite Ht2, Ht1, app_assoc, forallb_app, HP1, HP2. done.
Qed.

Lemma emits_only_submit {A} (m : M A) : emits_only P m -> emits_only P (submit m).
Proof.
  intros Hm w. unfold submit. destruct (Hm w) as (t1 & Ht1 & HP1).
  destruct (m w) as [w1 r]. by exists t1.
Qed.

Lemma emits_only_mapM {A B} (f : A -> M B) (l : list A) :
  (forall a, emits_only P (f a)) -> emits_only P (mapM f l).
Proof.
  intros Hf. induction l as [|a l IH]; cbn [mapM].
  - apply emits_only_ret.
  - apply emits_only_bind; [apply Hf|]. intros b.
    apply emits_only_bind; [apply IH|]. intros bs. apply emits_only_ret.
Qed.
End emits_facts.

Lemma emits_only_weaken {A} (P Q : event -> bool) (m : M A) :
  (forall ev, P ev = true -> Q ev = true) -> emits_only P m -> emits_only Q m.
Proof.
  intros HPQ Hm w. destruct (Hm w) as (t & Ht & HP). exists t. split; [done|].
  apply forallb_forall. intros ev Hev. apply HPQ.
  by apply (proj1 (forallb_forall P t) HP).
Qed.

Create HintDb emits discriminated.
#[local] Hint Resolve emits_only_ret emits_only_lift emits_only_write_file
  emits_only_scandir emits_only_submit : emits.
#[local] Hint Extern 2 (emits_only _ (emit _)) => apply emits_only_emit; reflexivity : emits.
#[local] Hint Extern 3 (emits_only _ (_ ≫= _)) => apply emits_only_bind; [|intros ?] : emits.
#[local] Hint Extern 3 (emits_only _ (catch _ _)) => apply emits_only_catch; [|intros ?] : emits.
#[local] Hint Extern 3 (emits_only _ (mapM _ _)) => apply emits_only_mapM; intros ? : emits.
#[local] Hint Extern 4 (emits_only _ (match ?x with _ => _ end)) => destruct x : emits.

(** ** The stages *)

Ltac run_cases :=
  repeat match goal with
         | |- context [match ?x with _ => _ end] => destruct x; cbn
         end.

Section stage_facts.
Import Pipeline.
Variable E : env.
Variable W : wording.

Lemma generate_page_desc_outcome idea outline i page w :
  (generate_page_desc E W idea outline i page w).2 =
    outcome (generate_page_desc E W idea outline i page).
Proof.
  unfold outcome, generate_page_desc, mbind, M_bind, lift, emit, mret, M_ret.
  destruct (PyObj.contains "part" page) as [[|]|e]; cbn; [| |done].
  - destruct (PyObj.getitem page "part") as [part|e]; cbn; [|done].
    by destruct (gen_text E i _).
  - by destruct (gen_text E i _).
Qed.

(** What the task of page [i] returns: the path of the saved image, or
    nothing when the backend raises, returns no image, or the image
    cannot be saved. *)
Lemma generate_single_image_returns ref_image output_dir i prompt w :
  (generate_single_image E ref_image output_dir i prompt w).2 =
    Ok (i, match gen_image E i prompt ref_image with
           | Ok (Some img) =>
               match image_save E img (Text.path_join output_dir (slide_name i)) with
               | Ok _ => Some (Text.path_join output_dir (slide_name i))
               | Raise _ => None
               end
           | _ => None
           end).
Proof.
  unfold generate_single_image, catch, mbind, M_bind, lift, emit, write_file, mret, M_ret.
  cbn. destruct (gen_image E i prompt ref_image) as [[img|]|e]; cbn; try done.
  by destruct (image_save E img (Text.path_join output_dir (slide_name i))) as [[]|e].
Qed.

Lemma gen_outline_emits idea :
  emits_only (fun ev => negb (after_description ev)) (gen_outline E W idea).
Proof. unfold gen_outline. auto 10 with emits. Qed.

Lemma gen_desc_emits idea outline :
  emits_only (fun ev => negb (after_description ev)) (gen_desc E W idea outline).
Proof. unfold gen_desc, generate_page_desc. auto 20 with emits. Qed.

Lemma gen_prompts_emits outline desc :
  emits_only (fun ev => negb (is_packaging ev)) (gen_prompts W outline desc).
Proof. unfold gen_prompts, gen_prompt. auto 20 with emits. Qed.

Lemma gen_images_parallel_emits prompts ref_image output_dir :
  emits_only (fun ev => negb (is_packaging ev))
             (gen_images_parallel E prompts ref_image output_dir).
Proof. unfold gen_images_parallel, generate_single_image. auto 20 with emits. Qed.
End stage_facts.

Lemma lift_lift_run {A B} (r : result A) (g : A -> result B) (w : world) :
  (lift r ≫= fun a => lift (g a)) w = (w, r ≫= g).
Proof. rewrite lift_bind_run. by destruct r. Qed.

Lemma enumerate_outcomes {A V} (g : nat -> A -> V) (l : list A) (start : nat) :
  (fun ip : nat * A => Ok (ip.1, g ip.1 ip.2)) <$> enumerate start l =
    Ok <$> enumerate start ((fun ip : nat * A => g ip.1 ip.2) <$> enumerate start l).
Proof.
  revert start; induction l as [|a l IH]; intros start; cbn; [done|].
  by rewrite IH.
Qed.

(** A thread-pool stage whose tasks all return a value: whatever the
    completion order, the stage returns the values in page order. *)
Lemma pool_stage_run {A V} (task : nat -> A -> M (nat * V)) (g : nat -> A -> V)
    (order : forall T : Type, list T -> list T) (inputs : list A) (w : world) :
  completes_all order ->
  (forall i a w, (task i a w).2 = outcome (task i a)) ->
  (forall k a, inputs !! k = Some a -> outcome (task (S k) a) = Ok (S k, g (S k) a)) ->
  (futures ← mapM (fun ip => submit (task ip.1 ip.2)) (enumerate 1 inputs);
   d ← lift (Pool.collect (order _ futures));
   lift (Pool.by_index d)) w =
    ((mapM (fun ip => submit (task ip.1 ip.2)) (enumerate 1 inputs) w).1,
     Ok ((fun ip : nat * A => g ip.1 ip.2) <$> enumerate 1 inputs)).
Proof.
  intros Horder Hind Hok. rewrite bind_run.
  destruct (mapM_submit_run (fun ip => task ip.1 ip.2) (enumerate 1 inputs) w) as [w' Hw'].
  { intros ip w0. apply Hind. }
  rewrite Hw'. cbn [fst]. rewrite lift_lift_run. f_equal.
  apply fan_in. rewrite (Horder _ _), <- enumerate_outcomes.
  apply eq_subrelation; [apply _|].
  apply list_eq. intros k. rewrite !list_lookup_fmap, !enumerate_lookup.
  destruct (inputs !! k) as [a|] eqn:Hk; cbn; [|done]. by rewrite (Hok k a Hk).
Qed.

Lemma first_raise {A} (l : list (result A)) :
  (exists r, r ∈ l /\ is_ok r = false) ->
  exists (oks : list A) (e : exn) (later : list (result A)),
    l = (Ok <$> oks) ++ Raise e :: later.
Proof.
  induction l as [|r l IH]; intros (r0 & Hin & Hr0).
  - by apply elem_of_nil in Hin.
  - destruct r as [a|e].
    + destruct IH as (oks & e & later & ->).
      { exists r0. apply elem_of_cons in Hin as [->|Hin]; [done|]. by split. }
      by exists (a :: oks), e, later.
    + by exists [], e, l.
Qed.

Section stage_theorems.
Import Pipeline.

Lemma generate_page_desc_index E W idea outline i page j d :
  outcome (generate_page_desc E W idea outline i page) = Ok (j, d) -> j = i.
Proof.
  unfold outcome, generate_page_desc, mbind, M_bind, lift, emit, mret, M_ret.
  destruct (PyObj.contains "part" page) as [[|]|e]; cbn; [| |done].
  - destruct (PyObj.getitem page "part") as [part|e]; cbn; [|done].
    destruct (gen_text E i _); cbn; congruence.
  - destruct (gen_text E i _); cbn; congruence.
Qed.

Lemma gen_desc_run E W idea outline pages order w :
  completes_all order ->
  Flatten.flatten_outline outline = Ok pages ->
  (forall k page, pages !! k = Some page ->
     is_ok (outcome (generate_page_desc E W idea outline (S k) page)) = true) ->
  gen_desc (with_as_completed E order) W idea outline w =
    ((mapM (fun ip => submit (generate_page_desc E W idea outline ip.1 ip.2))
           (enumerate 1 pages) w).1,
     Ok ((fun ip : nat * json =>
            match outcome (generate_page_desc E W idea outline ip.1 ip.2) with
            | Ok id => id.2
            | Raise _ => EmptyString
            end) <$> enumerate 1 pages)).
Proof.
  intros Horder Hflat Hok. unfold gen_desc. rewrite lift_bind_run, Hflat.
  change (as_completed (with_as_completed E order)) with order.
  apply (pool_stage_run
           (fun i page => generate_page_desc E W idea outline i page)
           (fun i page => match outcome (generate_page_desc E W idea outline i page) with
                          | Ok id => id.2
                          | Raise _ => EmptyString
                          end)); [done| |].
  - intros i a w0. apply generate_page_desc_outcome.
  - intros k page Hk. specialize (Hok k page Hk).
    destruct (outcome (generate_page_desc E W idea outline (S k) page))
      as [[j d]|e] eqn:Hout; [|done].
    by rewrite (generate_page_desc_index _ _ _ _ _ _ _ _ Hout).
Qed.

(** The stage raises the exception of the first failed future in
    completion order. *)
Lemma gen_desc_fails_first E W idea outline pages order w :
  completes_all order ->
  Flatten.flatten_outline outline = Ok pages ->
  (exists k page,
     pages !! k = Some page /\
     is_ok (outcome (generate_page_desc E W idea outline (S k) page)) = false) ->
  exists k page e,
    pages !! k = Some page /\
    outcome (generate_page_desc E W idea outline (S k) page) = Raise e /\
    gen_desc (with_as_completed E order) W idea outline w =
      ((mapM (fun ip => submit (generate_page_desc E W idea outline ip.1 ip.2))
             (enumerate 1 pages) w).1,
       Raise e) /\
    exists (oks : list (nat * string)) (later : list (result (nat * string))),
      order _ ((fun ip : nat * json =>
                  outcome (generate_page_desc E W idea outline ip.1 ip.2))
                 <$> enumerate 1 pages) =
        (Ok <$> oks) ++ Raise e :: later.
Proof.
  intros Horder Hflat (k0 & page0 & Hk0 & Hfail).
  destruct (mapM_submit_run
              (fun ip : nat * json => generate_page_desc E W idea outline ip.1 ip.2)
              (enumerate 1 pages) w) as [w' Hw'].
  { intros ip w0. apply generate_page_desc_outcome. }
  set (futures := _ <$> enumerate 1 pages) in Hw'.
  destruct (first_raise (order _ futures)) as (oks & e & later & Hsplit).
  { exists (outcome (generate_page_desc E W idea outline (S k0) page0)).
    split; [|done].
    rewrite (Horder _ _). apply list_elem_of_fmap. exists (S k0, page0). split; [done|].
    apply list_elem_of_lookup. exists k0. by rewrite enumerate_lookup, Hk0. }
  assert (Raise e ∈ futures) as Hin.
  { rewrite <- (Horder _ futures), Hsplit. apply elem_of_app. right. by left. }
  apply list_elem_of_fmap in Hin as ([i page] & He & Hin).
  apply list_elem_of_lookup in Hin as (k & Hk). rewrite enumerate_lookup in Hk.
  destruct (pages !! k) as [page'|] eqn:Hpage; [|done]. cbn in Hk.
  injection Hk as <- <-.
  exists k, page', e. split; [done|]. split; [done|]. split; [|by exists oks, later].
  unfold gen_desc. rewrite lift_bind_run, Hflat, bind_run.
  change (as_completed (with_as_completed E order)) with order.
  change (generate_page_desc (with_as_completed E order) W idea outline)
    with (generate_page_desc E W idea outline).
  rewrite Hw'. cbn [fst]. rewrite lift_bind_run.
  by rewrite Hsplit, collect_raise.
Qed.

Lemma gen_desc_fails E W idea outline pages order w :
  completes_all order ->
  Flatten.flatten_outline outline = Ok pages ->
  (exists k page,
     pages !! k = Some page /\
     is_ok (outcome (generate_page_desc E W idea outline (S k) page)) = false) ->
  exists k page e,
    pages !! k = Some page /\
    outcome (generate_page_desc E W idea outline (S k) page) = Raise e /\
    gen_desc (with_as_completed E order) W idea outline w =
      ((mapM (fun ip => submit (generate_page_desc E W idea outline ip.1 ip.2))
             (enumerate 1 pages) w).1,
       Raise e).
Proof.
  intros Horder Hflat Hfail.
  destruct (gen_desc_fails_first E W idea outline pages order w Horder Hflat Hfail)
    as (k & page & e & Hk & Hout & Hrun & _).
  by exists k, page, e.
Qed.

Lemma pages_ok_or_failed (f : nat -> json -> bool) (pages : list json) :
  (forall k page, pages !! k = Some page -> f (S k) page = true) \/
  (exists k page, pages !! k = Some page /\ f (S k) page = false).
Proof.
  induction pages as [|p pages IH] using rev_ind.
  - left. intros k page Hk. by rewrite lookup_nil in Hk.
  - destruct IH as [IH|(k & page & Hk & Hf)].
    + destruct (f (S (length pages)) p) eqn:Hp.
      * left. intros k page Hk. apply lookup_app_Some in Hk as [Hk|[Hge Hk]]; [by apply IH|].
        apply list_lookup_singleton_Some in Hk as [Hz <-].
        by replace k with (length pages) by lia.
      * right. exists (length pages), p. split; [|done].
        by rewrite lookup_app_r, Nat.sub_diag by lia.
    + right. exists k, page. split; [|done]. by apply lookup_app_l_Some.
Qed.
End stage_theorems.

(** C1. Render-stage failure isolation: for every list of N prompts,
    whichever pages fail to render (the backend raises, returns no image,
    or the image cannot be saved) and whatever the completion order, the
    image stage raises nothing and returns exactly N results in page
    order: the path of the saved image for a page that rendered, [None]
    for a page that failed. *)
Theorem render_failure_isolation (E : env) (prompts : list string)
    (ref_image output_dir : string) (w : world) :
  completes_all (as_completed E) ->
  mkdir E output_dir = Ok tt ->
  exists (w' : world) (results : list (option string)),
    Pipeline.gen_images_parallel E prompts ref_image output_dir w = (w', Ok results) /\
    length results = length prompts /\
    forall (k : nat) (prompt : string), prompts !! k = Some prompt ->
      results !! k =
        Some (let path := Text.path_join output_dir (Pipeline.slide_name (S k)) in
              match gen_image E (S k) prompt ref_image with
              | Ok (Some img) =>
                  match image_save E img path with
                  | Ok _ => Some path
                  | Raise _ => None
                  end
              | _ => None
              end).
Proof.
  intros Horder Hmkdir.
  set (g := fun (i : nat) (prompt : string) =>
              match gen_image E i prompt ref_image with
              | Ok (Some img) =>
                  match image_save E img (Text.path_join output_dir (Pipeline.slide_name i)) with
                  | Ok _ => Some (Text.path_join output_dir (Pipeline.slide_name i))
                  | Raise _ => None
                  end
              | _ => None
              end).
  eexists _, ((fun ip : nat * string => g ip.1 ip.2) <$> enumerate 1 prompts).
  split; [|split].
  - unfold Pipeline.gen_images_parallel. rewrite lift_bind_run, Hmkdir.
    apply (pool_stage_run (Pipeline.generate_single_image E ref_image output_dir) g);
      [done| |].
    + intros i a w0. unfold outcome. by rewrite !generate_single_image_returns.
    + intros k a _. unfold outcome. by rewrite generate_single_image_returns.
  - by rewrite length_fmap, enumerate_length.
  - intros k prompt Hk. by rewrite list_lookup_fmap, enumerate_lookup, Hk.
Qed.

(** C2, as the code has it. For any two completion orders of the pool
    the description stage does the same to the world. When the
    description of every page is generated, it returns for both orders
    the same list: exactly one description per flat page, the
    description of page k in place k. When the description of some page
    fails, it raises for both orders, each time the exception of a
    failed page; which one is left to the completion order. *)
Theorem description_order_determinism (E : env) (W : wording) (idea : string)
    (outline : json) (order1 order2 : forall T : Type, list T -> list T) (w : world) :
  completes_all order1 ->
  completes_all order2 ->
  let run1 := Pipeline.gen_desc (with_as_completed E order1) W idea outline w in
  let run2 := Pipeline.gen_desc (with_as_completed E order2) W idea outline w in
  run1.1 = run2.1 /\
  (forall descs : list string, run1.2 = Ok descs <-> run2.2 = Ok descs) /\
  forall pages : list json,
    Flatten.flatten_outline outline = Ok pages ->
    ((forall (k : nat) (page : json), pages !! k = Some page ->
        is_ok (outcome (Pipeline.generate_page_desc E W idea outline (S k) page)) = true) ->
     exists descs : list string,
       run1.2 = Ok descs /\
       run2.2 = Ok descs /\
       length descs = length pages /\
       forall (k : nat) (page : json), pages !! k = Some page ->
         exists d : string,
           descs !! k = Some d /\
           outcome (Pipeline.generate_page_desc E W idea outline (S k) page) = Ok (S k, d)) /\
    ((exists (k : nat) (page : json),
        pages !! k = Some page /\
        is_ok (outcome (Pipeline.generate_page_desc E W idea outline (S k) page)) = false) ->
     exists (k1 k2 : nat) (page1 page2 : json) (e1 e2 : exn),
       pages !! k1 = Some page1 /\
       outcome (Pipeline.generate_page_desc E W idea outline (S k1) page1) = Raise e1 /\
       run1.2 = Raise e1 /\
       pages !! k2 = Some page2 /\
       outcome (Pipeline.generate_page_desc E W idea outline (S k2) page2) = Raise e2 /\
       run2.2 = Raise e2).
Proof.
  intros Horder1 Horder2 run1 run2.
  destruct (Flatten.flatten_outline outline) as [pages|e] eqn:Hflat.
  - destruct (pages_ok_or_failed
                (fun i page => is_ok (outcome (Pipeline.generate_page_desc E W idea outline i page)))
                pages) as [Hok|Hfail].
    + pose proof (gen_desc_run E W idea outline pages order1 w Horder1 Hflat Hok) as H1.
      pose proof (gen_desc_run E W idea outline pages order2 w Horder2 Hflat Hok) as H2.
      subst run1 run2. rewrite H1, H2. cbn [fst snd].
      split; [done|]. split; [done|].
      intros pages' [= <-]. split.
      * intros _. eexists. split; [done|]. split; [done|].
        split; [by rewrite length_fmap, enumerate_length|].
        intros k page Hk. rewrite list_lookup_fmap, enumerate_lookup, Hk. cbn.
        specialize (Hok k page Hk). cbn in Hok.
        destruct (outcome (Pipeline.generate_page_desc E W idea outline (S k) page))
          as [[j d]|e] eqn:Hout; [|done].
        exists d. split; [done|].
        by rewrite (generate_page_desc_index _ _ _ _ _ _ _ _ Hout).
      * intros (k & page & Hk & Hf). exfalso. specialize (Hok k page Hk). cbn in Hok.
        by rewrite Hok in Hf.
    + destruct (gen_desc_fails E W idea outline pages order1 w Horder1 Hflat Hfail)
        as (k1 & p1 & e1 & Hk1 & Hout1 & H1).
      destruct (gen_desc_fails E W idea outline pages order2 w Horder2 Hflat Hfail)
        as (k2 & p2 & e2 & Hk2 & Hout2 & H2).
      subst run1 run2. rewrite H1, H2. cbn [fst snd].
      split; [done|]. split; [done|].
      intros pages' [= <-]. split.
      * intros Hok. exfalso.
        destruct Hfail as (k & page & Hk & Hf). by rewrite (Hok k page Hk) in Hf.
      * intros _. by exists k1, k2, p1, p2, e1, e2.
  - subst run1 run2. unfold Pipeline.gen_desc. rewrite !lift_bind_run, Hflat. cbn [fst snd].
    split; [done|]. split; [done|]. intros pages' [=].
Qed.

Lemma trace_extends_trans (P : event -> bool) (w w1 w2 : world) :
  (exists t, trace w1 = trace w ++ t /\ forallb P t = true) ->
  (exists t, trace w2 = trace w1 ++ t /\ forallb P t = true) ->
  exists t, trace w2 = trace w ++ t /\ forallb P t = true.
Proof.
  intros (t1 & Ht1 & HP1) (t2 & Ht2 & HP2). exists (t1 ++ t2).
  by rewrite Ht2, Ht1, app_assoc, forallb_app, HP1, HP2.
Qed.

(** C6, as the code has it. A description failure is fatal to the run:
    when the description task of some page fails, the description stage
    raises what a failed task raised, as it is: the exception of the
    first failed future in completion order. [gen_ppt] ends with that
    same exception, and the run has done nothing of the later stages: no
    prompt built, no image requested or saved, nothing packaged. *)
Theorem description_failure_is_fatal (E : env) (W : wording)
    (timestamp idea ref_image : string) (outline : json) (pages : list json)
    (w w1 : world) :
  completes_all (as_completed E) ->
  Pipeline.gen_outline E W idea w = (w1, Ok outline) ->
  Pipeline.show_outline outline = Ok tt ->
  Flatten.flatten_outline outline = Ok pages ->
  (exists (k : nat) (page : json),
     pages !! k = Some page /\
     is_ok (outcome (Pipeline.generate_page_desc E W idea outline (S k) page)) = false) ->
  exists (w' : world) (k : nat) (page : json) (e : exn),
    pages !! k = Some page /\
    outcome (Pipeline.generate_page_desc E W idea outline (S k) page) = Raise e /\
    (exists (oks : list (nat * string)) (later : list (result (nat * string))),
       as_completed E _ ((fun ip : nat * json =>
                            outcome (Pipeline.generate_page_desc E W idea outline ip.1 ip.2))
                           <$> enumerate 1 pages) =
         (Ok <$> oks) ++ Raise e :: later) /\
    Pipeline.gen_desc E W idea outline w1 = (w', Raise e) /\
    Pipeline.gen_ppt E W timestamp idea ref_image w = (w', Raise e) /\
    exists t : list event,
      trace w' = trace w ++ t /\ forallb (fun ev => negb (after_description ev)) t = true.
Proof.
  intros Horder Hout Hshow Hflat Hfail.
  destruct (gen_desc_fails_first E W idea outline pages (as_completed E) w1 Horder Hflat Hfail)
    as (k & page & e & Hk & Hraise & Hdesc & Hfirst).
  change (Pipeline.gen_desc (with_as_completed E (as_completed E)) W idea outline w1)
    with (Pipeline.gen_desc E W idea outline w1) in Hdesc.
  eexists _, k, page, e. split; [done|]. split; [done|]. split; [exact Hfirst|].
  split; [exact Hdesc|]. split.
  - unfold Pipeline.gen_ppt. rewrite bind_run, Hout, lift_bind_run, Hshow, bind_run.
    by rewrite Hdesc.
  - apply trace_extends_trans with (w1 := w1).
    + pose proof (gen_outline_emits E W idea w) as Hem. by rewrite Hout in Hem.
    + pose proof (gen_desc_emits E W idea outline w1) as Hem. by rewrite Hdesc in Hem.
Qed.

Lemma not_packaging_before (ev : event) :
  negb (after_description ev) = true -> negb (is_packaging ev) = true.
Proof. by destruct ev. Qed.

(** C8, as the code has it. When a run comes to the end of the image
    stage and no page was rendered, the orchestrator [gen_ppt] does not
    call the assembler: it returns, without raising, the list of results
    of the image stage, none of which holds a path, and leaves the world
    as the image stage left it; the run has added no picture to a
    presentation and saved no presentation file. *)
Theorem no_render_no_packaging (E : env) (W : wording)
    (timestamp idea ref_image : string) (w w1 w2 w3 w4 : world)
    (outline : json) (desc : list string) (pages : list json) (shown : list unit)
    (prompts : list string) (image_files : list (option string)) :
  Pipeline.gen_outline E W idea w = (w1, Ok outline) ->
  Pipeline.show_outline outline = Ok tt ->
  Pipeline.gen_desc E W idea outline w1 = (w2, Ok desc) ->
  Flatten.flatten_outline outline = Ok pages ->
  mapM (fun pd : json * string => Pipeline.show_desc pd.1) (zip pages desc) = Ok shown ->
  Pipeline.gen_prompts W outline desc w2 = (w3, Ok prompts) ->
  Pipeline.gen_images_parallel E prompts ref_image ("output_" +:+ timestamp) w3 =
    (w4, Ok image_files) ->
  Forall (fun f => f = None) image_files ->
  Pipeline.gen_ppt E W timestamp idea ref_image w = (w4, Ok image_files) /\
  exists t : list event,
    trace w4 = trace w ++ t /\ forallb (fun ev => negb (is_packaging ev)) t = true.
Proof.
  intros Hout Hshow Hdesc Hflat Hshown Hprompts Himages Hnone.
  assert (filter (fun f => Pipeline.is_not_none f = true) image_files = []) as Hfilter.
  { clear Himages. induction Hnone as [|f fs -> _ IH]; [done|].
    by rewrite filter_cons_False by done. }
  split.
  - unfold Pipeline.gen_ppt.
    rewrite bind_run, Hout, lift_bind_run, Hshow, bind_run, Hdesc.
    rewrite lift_bind_run, Hflat, lift_bind_run, Hshown.
    rewrite bind_run, Hprompts, bind_run, Himages, bind_run, Hfilter.
    reflexivity.
  - pose proof (emits_only_weaken _ _ _ not_packaging_before (gen_outline_emits E W idea) w)
      as H1.
    pose proof (emits_only_weaken _ _ _ not_packaging_before
                  (gen_desc_emits E W idea outline) w1) as H2.
    pose proof (gen_prompts_emits W outline desc w2) as H3.
    pose proof (gen_images_parallel_emits E prompts ref_image ("output_" +:+ timestamp) w3)
      as H4.
    rewrite Hout in H1. rewrite Hdesc in H2. rewrite Hprompts in H3. rewrite Himages in H4.
    cbn [fst] in *. eauto using trace_extends_trans.
Qed.

(** ** Text and file names *)

Section text_facts.
Import Text.

Lemma append_nil (t : string) : EmptyString +:+ t = t.
Proof. reflexivity. Qed.

Lemma append_cons (c : ascii) (s t : string) : String c s +:+ t = String c (s +:+ t).
Proof. reflexivity. Qed.

Lemma length_append (s t : string) :
  String.length (s +:+ t) = String.length s + String.length t.
Proof. induction s as [|c s IH]; rewrite ?append_nil, ?append_cons; cbn; [done|]. by rewrite IH. Qed.

Lemma take_append (s t : string) : take (String.length s) (s +:+ t) = s.
Proof. induction s as [|c s IH]; rewrite ?append_nil, ?append_cons; cbn; [by destruct t|]. by rewrite IH. Qed.

Lemma drop_append (s t : string) : drop (String.length s) (s +:+ t) = t.
Proof. induction s as [|c s IH]; rewrite ?append_nil, ?append_cons; cbn; [by destruct t|]. done. Qed.

Lemma rfind_dot_png (s : string) : rfind_dot (s +:+ ".png") = Some (String.length s).
Proof. induction s as [|c s IH]; rewrite ?append_nil, ?append_cons; cbn; [done|]. by rewrite IH. Qed.

Lemma stem_png (s : string) : s <> EmptyString -> stem (s +:+ ".png") = s.
Proof.
  intros Hs. unfold stem. rewrite rfind_dot_png, length_append.
  destruct s as [|c s]; [done|]. cbn [String.length].
  replace ((0 <? S (String.length s)) &&
           (S (String.length s) <? S (String.length s) + 4 - 1)) with true.
  - apply (take_append (String c s)).
  - symmetry. apply andb_true_intro. split; [done|]. apply Nat.ltb_lt. lia.
Qed.

Lemma ends_with_append (s suf : string) : ends_with suf (s +:+ suf) = true.
Proof.
  unfold ends_with. rewrite length_append.
  replace (String.length s + String.length suf - String.length suf)
    with (String.length s) by lia.
  rewrite drop_append, String.eqb_refl, andb_true_r. apply Nat.leb_le. lia.
Qed.

Lemma take_digits_all (d : string) : all_digits d = true -> take_digits d = d.
Proof.
  induction d as [|c d IH]; cbn; [done|].
  intros [Hc Hd]%andb_prop. by rewrite Hc, IH.
Qed.

Lemma all_digits_append (s t : string) :
  all_digits (s +:+ t) = all_digits s && all_digits t.
Proof. induction s as [|c s IH]; rewrite ?append_nil, ?append_cons; cbn; [done|]. by rewrite IH, andb_assoc. Qed.

Lemma all_digits_zeros (k : nat) : all_digits (zeros k) = true.
Proof. induction k; cbn; done. Qed.

Lemma all_digits_uint (d : Decimal.uint) :
  all_digits (NilEmpty.string_of_uint d) = true.
Proof. induction d; cbn; done. Qed.

Lemma all_digits_decimal (n : nat) : all_digits (decimal n) = true.
Proof.
  unfold decimal, NilZero.string_of_uint.
  destruct (Nat.to_uint n) eqn:Hd; try done; rewrite <- Hd; apply all_digits_uint.
Qed.

Lemma int_of_digits_uint (d : Decimal.uint) (acc : nat) :
  int_of_digits_acc (NilEmpty.string_of_uint d) acc = Nat.of_uint_acc d acc.
Proof.
  revert acc; induction d as [|d IH|d IH|d IH|d IH|d IH|d IH|d IH|d IH|d IH|d IH];
    intros acc; cbn [NilEmpty.string_of_uint int_of_digits_acc Nat.of_uint_acc]; [done|..];
    rewrite IH, Nat.tail_mul_spec; f_equal;
    set (v := digit_value _); vm_compute in v; subst v; lia.
Qed.

(** [int(str(n)) == n] *)
Lemma int_of_decimal (n : nat) : int_of_digits (decimal n) = n.
Proof.
  unfold int_of_digits, decimal, NilZero.string_of_uint.
  rewrite <- (Unsigned.of_to n) at 2.
  destruct (Nat.to_uint n) eqn:Hd; [done|..]; rewrite <- Hd; apply int_of_digits_uint.
Qed.

Lemma int_of_digits_zeros (k : nat) (d : string) :
  int_of_digits (zeros k +:+ d) = int_of_digits d.
Proof. induction k as [|k IH]; cbn [zeros]; rewrite ?append_nil, ?append_cons; [done|]. apply IH. Qed.

(** [int(f'{n:02d}') == n] *)
Lemma int_of_format_02d (n : nat) : int_of_digits (format_02d n) = n.
Proof. unfold format_02d. by rewrite int_of_digits_zeros, int_of_decimal. Qed.

Lemma all_digits_format_02d (n : nat) : all_digits (format_02d n) = true.
Proof.
  unfold format_02d. by rewrite all_digits_append, all_digits_zeros, all_digits_decimal.
Qed.

Lemma decimal_nonempty (n : nat) : 1 <= String.length (decimal n).
Proof.
  unfold decimal, NilZero.string_of_uint.
  destruct (Nat.to_uint n); cbn; lia.
Qed.

Lemma length_zeros (k : nat) : String.length (zeros k) = k.
Proof. induction k; cbn; [done|]. by f_equal. Qed.

(** The width is two at least. *)
Lemma length_format_02d (n : nat) : 2 <= String.length (format_02d n).
Proof. unfold format_02d. rewrite length_append, length_zeros. lia. Qed.
End text_facts.

Section slide_names.
Import Text Pipeline.

Lemma search_slide_digits (d : string) :
  d <> EmptyString -> all_digits d = true -> search_slide ("slide_" +:+ d) = Some d.
Proof.
  intros Hne Hd. rewrite !append_cons, append_nil. cbn.
  rewrite (take_digits_all d Hd). by destruct d.
Qed.

(** The assembler reads back the index the image stage wrote. *)
Lemma extract_number_slide_name (i : nat) : extract_number (slide_name i) = i.
Proof.
  unfold extract_number, slide_name.
  assert (format_02d i <> EmptyString) as Hne.
  { pose proof (length_format_02d i) as Hlen. intros Heq.
    rewrite Heq in Hlen. cbn in Hlen. lia. }
  change ("slide_" +:+ format_02d i +:+ ".png")
    with (("slide_" +:+ format_02d i) +:+ ".png").
  rewrite stem_png by done.
  rewrite search_slide_digits by auto using all_digits_format_02d.
  apply int_of_format_02d.
Qed.

Lemma glob_match_slide_name (i : nat) : glob_match (slide_name i) = true.
Proof.
  unfold glob_match, slide_name.
  apply andb_true_intro; split; [apply andb_true_intro; split|].
  - rewrite !append_cons, append_nil. cbn. by destruct (format_02d i +:+ ".png").
  - apply (ends_with_append ("slide_" +:+ format_02d i) ".png").
  - rewrite !length_append. pose proof (length_format_02d i).
    apply Nat.leb_le. cbn [String.length]. lia.
Qed.
End slide_names.

(** ** The assembler *)

Section assembler.
Import Text Pipeline.

Lemma mapM_add_slide_run (E : env) (input_dir : string) (l : list string) (w : world) :
  (forall path, add_picture E path = Ok tt) ->
  mapM (add_slide E input_dir) l w =
    (World (files w)
           (trace w ++ ((fun n => EvAddPicture (path_join input_dir n)) <$> l)),
     Ok ((fun _ => tt) <$> l)).
Proof.
  intros Hadd. revert w; induction l as [|n l IH]; intros w.
  - cbn. rewrite app_nil_r. by destruct w.
  - cbn [mapM]. rewrite bind_run. unfold add_slide at 1.
    rewrite lift_bind_run, Hadd. unfold emit at 1. rewrite bind_run, IH. cbn.
    by rewrite <- app_assoc.
Qed.
End assembler.

(** C7. The assembler orders by number: whatever the order in which the
    directory lists its files, [create_pptx_from_images] adds the slide
    files to the presentation sorted by the number read from the file
    name (a file of a smaller number before one of a greater number), not
    by the text of the name; for the names the image stage writes, the
    order is that of the page indices. *)
Theorem assembler_numeric_order (E : env) (input_dir output_file : string)
    (w : world) (names : list string) :
  (forall path : string, add_picture E path = Ok tt) ->
  pptx_save E output_file = Ok tt ->
  (scandir input_dir w).2 = Ok names ->
  exists ordered : list string,
    Pipeline.create_pptx_from_images E input_dir output_file w =
      (World (files w)
             (trace w ++
              ((fun n => EvAddPicture (Text.path_join input_dir n)) <$> ordered) ++
              [EvPptxSaved output_file]),
       Ok true) /\
    ordered ≡ₚ filter (fun n => Pipeline.glob_match n = true) names /\
    StronglySorted (Sort.key_le Pipeline.extract_number) ordered /\
    forall idxs : list nat,
      names = Pipeline.slide_name <$> idxs ->
      ordered = Pipeline.slide_name <$> Sort.sorted idxs.
Proof.
  intros Hadd Hsave Hscan.
  exists (Sort.sort_by Pipeline.extract_number
            (filter (fun n => Pipeline.glob_match n = true) names)).
  split; [|split; [|split]].
  - unfold Pipeline.create_pptx_from_images. rewrite bind_run.
    unfold scandir in *. cbn in Hscan. injection Hscan as Hnames. rewrite Hnames.
    rewrite bind_run, mapM_add_slide_run by done.
    rewrite lift_bind_run, Hsave. unfold emit. rewrite bind_run. cbn.
    by rewrite <- app_assoc.
  - apply sort_by_Permutation.
  - apply sort_by_StronglySorted.
  - intros idxs ->.
    assert (filter (fun n => Pipeline.glob_match n = true) (Pipeline.slide_name <$> idxs)
            = Pipeline.slide_name <$> idxs) as ->.
    { clear. induction idxs as [|i idxs IH]; [done|].
      rewrite fmap_cons, filter_cons_True by apply glob_match_slide_name. by rewrite IH. }
    rewrite sort_by_fmap. unfold Sort.sorted. f_equal.
    apply sort_by_ext, extract_number_slide_name.
Qed.

(** ** File names and lexical order *)

Section lexical.
Import Text Pipeline.

Lemma names_below_100 :
  forallb (fun i =>
             (String.length (slide_name i) =? 12) &&
             forallb (fun j => Bool.eqb (lex_lt (slide_name i) (slide_name j)) (i <? j))
                     (seq 0 100))
          (seq 0 100) = true.
Proof. vm_compute. reflexivity. Qed.
End lexical.

(** Writing a file adds that file and no other. *)
Lemma has_file_write (dir name d n : string) (fs : list (string * string)) :
  has_file d n (if has_file dir name fs then fs else fs ++ [(dir, name)]) =
    has_file d n fs || (String.eqb d dir && String.eqb n name).
Proof.
  destruct (String.eqb d dir && String.eqb n name) eqn:Hsame.
  - apply andb_prop in Hsame as [->%String.eqb_eq ->%String.eqb_eq].
    rewrite orb_true_r.
    destruct (has_file dir name fs) eqn:Hthere; [done|].
    unfold has_file. rewrite existsb_app. cbn. rewrite !String.eqb_refl.
    by rewrite orb_true_r.
  - rewrite orb_false_r.
    destruct (has_file dir name fs); [done|].
    unfold has_file. rewrite existsb_app. cbn.
    rewrite (String.eqb_sym dir d), (String.eqb_sym name n).
    by rewrite Hsame, !orb_false_r.
Qed.

(** C9, as the code has it. Every page i that renders is saved in the
    output directory under the name [slide_] + i in decimal, padded with
    zeros on the left to two digits at least, + [.png]: after the task
    of page i that file exists and no other file has come or gone. The
    number in the name is i. For a deck of at most 99 pages all names
    have the same width and the lexical order of the names agrees with
    the numeric order of the indices. *)
Theorem slide_names_order_up_to_99 (E : env) (ref_image output_dir prompt : string)
    (w : world) (i : nat) (img : image) :
  gen_image E i prompt ref_image = Ok (Some img) ->
  image_save E img (Text.path_join output_dir (Pipeline.slide_name i)) = Ok tt ->
  let w' := (Pipeline.generate_single_image E ref_image output_dir i prompt w).1 in
  (forall dir name : string,
     has_file dir name (files w') =
       has_file dir name (files w) ||
       (String.eqb dir output_dir && String.eqb name (Pipeline.slide_name i))) /\
  Pipeline.slide_name i =
    "slide_" +:+ Text.zeros (2 - String.length (Text.decimal i)) +:+ Text.decimal i +:+ ".png" /\
  String.length (Pipeline.slide_name i) = 10 + Nat.max 2 (String.length (Text.decimal i)) /\
  Pipeline.extract_number (Pipeline.slide_name i) = i /\
  forall N j k : nat, N <= 99 -> 1 <= j <= N -> 1 <= k <= N ->
    String.length (Pipeline.slide_name j) = String.length (Pipeline.slide_name k) /\
    (Text.lex_lt (Pipeline.slide_name j) (Pipeline.slide_name k) = true <-> j < k).
Proof.
  intros Himage Hsave w'. split; [|split; [|split; [|split]]].
  - intros dir name. subst w'.
    unfold Pipeline.generate_single_image, catch, mbind, M_bind, lift, emit, write_file,
      mret, M_ret.
    cbn. rewrite Himage. cbn. rewrite Hsave. cbn.
    exact (has_file_write output_dir (Pipeline.slide_name i) dir name (files w)).
  - unfold Pipeline.slide_name, Text.format_02d.
    set (z := Text.zeros _). set (d := Text.decimal i).
    repeat (rewrite append_cons || rewrite append_nil). do 6 f_equal.
    clearbody z. induction z as [|c z IH];
      repeat (rewrite append_cons || rewrite append_nil); [done|]. by rewrite IH.
  - unfold Pipeline.slide_name, Text.format_02d.
    rewrite !length_append, length_zeros. cbn [String.length]. lia.
  - apply extract_number_slide_name.
  - intros N j k HN Hj Hk.
    pose proof names_below_100 as Hall. rewrite forallb_forall in Hall.
    pose proof (Hall j ltac:(apply in_seq; lia)) as [Hlj Hrow]%andb_prop.
    pose proof (Hall k ltac:(apply in_seq; lia)) as [Hlk _]%andb_prop.
    apply Nat.eqb_eq in Hlj, Hlk. split; [congruence|].
    rewrite forallb_forall in Hrow.
    pose proof (Hrow k ltac:(apply in_seq; lia)) as Hjk.
    apply Bool.eqb_prop in Hjk. rewrite Hjk. apply Nat.ltb_lt.
Qed.

Section strip_facts.
Import Text.
Context (p : ascii -> bool).

Lemma rstrip_by_cons (c : ascii) (s : string) :
  rstrip_by p s <> EmptyString \/ p c = false ->
  rstrip_by p (String c s) = String c (rstrip_by p s).
Proof.
  intros H. cbn. destruct (rstrip_by p s) eqn:Hr; [|done].
  destruct H as [H|H]; [done|]. by rewrite H.
Qed.

Lemma rstrip_by_append (s t : string) :
  rstrip_by p t <> EmptyString -> rstrip_by p (s +:+ t) = s +:+ rstrip_by p t.
Proof.
  intros Ht. induction s as [|c s IH]; rewrite ?append_nil, ?append_cons; [done|].
  rewrite rstrip_by_cons; [by rewrite IH|]. left. rewrite IH.
  destruct s; rewrite ?append_nil, ?append_cons; done.
Qed.

Lemma lstrip_by_all (pre s : string) :
  all_chars p pre = true -> lstrip_by p (pre +:+ s) = lstrip_by p s.
Proof.
  induction pre as [|c pre IH]; rewrite ?append_nil, ?append_cons; [done|].
  cbn. intros [Hc Hpre]%andb_prop. rewrite Hc. by apply IH.
Qed.

(** Stripping takes away a prefix made of characters to strip and
    what of the tail it strips, and keeps what lies between, whatever
    it is, when that starts with a character to keep. *)
Lemma strip_by_around (pre body tail kept : string) (a : ascii) :
  all_chars p pre = true ->
  p a = false ->
  rstrip_by p tail = kept ->
  kept <> EmptyString ->
  strip_by p (pre +:+ String a (body +:+ tail)) = String a (body +:+ kept).
Proof.
  intros Hpre Ha Htail Hkept. unfold strip_by.
  rewrite lstrip_by_all by done. cbn [lstrip_by]. rewrite Ha.
  rewrite rstrip_by_cons by (by right).
  by rewrite rstrip_by_append, Htail by (by rewrite Htail).
Qed.

Lemma rstrip_by_all (suf : string) : all_chars p suf = true -> rstrip_by p suf = EmptyString.
Proof.
  induction suf as [|c suf IH]; [done|]. cbn. intros [Hc Hsuf]%andb_prop.
  by rewrite IH, Hc.
Qed.

(** Stripping keeps what lies between a first and a last character to
    keep, and nothing else. *)
Lemma strip_by_sandwich (pre body suf : string) (a b : ascii) :
  all_chars p pre = true ->
  all_chars p suf = true ->
  p a = false ->
  p b = false ->
  strip_by p (pre +:+ String a (body +:+ String b suf)) =
    String a (body +:+ String b EmptyString).
Proof.
  intros Hpre Hsuf Ha Hb.
  apply strip_by_around; [done|done| |done].
  cbn. by rewrite rstrip_by_all, Hb.
Qed.

Lemma append_assoc (s t u : string) : (s +:+ t) +:+ u = s +:+ (t +:+ u).
Proof.
  induction s as [|c s IH]; repeat (rewrite append_cons || rewrite append_nil); [done|].
  by rewrite IH.
Qed.

Lemma append_empty_r (s : string) : s +:+ EmptyString = s.
Proof.
  induction s as [|c s IH]; repeat (rewrite append_cons || rewrite append_nil); [done|].
  by rewrite IH.
Qed.

Lemma all_chars_append (s t : string) :
  all_chars p (s +:+ t) = all_chars p s && all_chars p t.
Proof.
  induction s as [|c s IH]; repeat (rewrite append_cons || rewrite append_nil); [done|].
  cbn. by rewrite IH, andb_assoc.
Qed.

Lemma all_chars_impl (q : ascii -> bool) (s : string) :
  (forall c, p c = true -> q c = true) -> all_chars p s = true -> all_chars q s = true.
Proof.
  intros Hpq. induction s as [|c s IH]; [done|]. cbn. intros [Hc Hs]%andb_prop.
  by rewrite (Hpq c Hc), IH.
Qed.

(** What [lstrip] and [rstrip] take off is made of characters to
    strip. *)
Lemma lstrip_by_split (s : string) :
  exists pre, s = pre +:+ lstrip_by p s /\ all_chars p pre = true.
Proof.
  induction s as [|c s (pre & Hs & Hpre)]; [by exists EmptyString|].
  cbn. destruct (p c) eqn:Hc.
  - exists (String c pre). rewrite append_cons, <- Hs. split; [done|]. cbn.
    by rewrite Hc, Hpre.
  - by exists EmptyString.
Qed.

Lemma rstrip_by_split (s : string) :
  exists post, s = rstrip_by p s +:+ post /\ all_chars p post = true.
Proof.
  induction s as [|c s (post & Hs & Hpost)]; [by exists EmptyString|].
  cbn. destruct (rstrip_by p s) as [|d r] eqn:Hr.
  - rewrite append_nil in Hs. subst post. destruct (p c) eqn:Hc.
    + exists (String c s). split; [done|]. cbn. by rewrite Hc, Hpost.
    + exists s. by split.
  - exists post. rewrite append_cons, <- Hs. by split.
Qed.

Lemma strip_by_trimmed (s : string) : ReplyView.trimmed_by p s (strip_by p s).
Proof.
  destruct (lstrip_by_split s) as (pre & Hs & Hpre).
  destruct (rstrip_by_split (lstrip_by p s)) as (post & Hl & Hpost).
  exists pre, post. unfold strip_by. by rewrite <- Hl, <- Hs.
Qed.

Lemma trimmed_by_trans (s t u : string) :
  ReplyView.trimmed_by p s t -> ReplyView.trimmed_by p t u -> ReplyView.trimmed_by p s u.
Proof.
  intros (pre1 & post1 & -> & Hpre1 & Hpost1) (pre2 & post2 & -> & Hpre2 & Hpost2).
  exists (pre1 +:+ pre2), (post2 +:+ post1).
  rewrite !all_chars_append, Hpre1, Hpre2, Hpost1, Hpost2.
  split; [|done]. by rewrite !append_assoc.
Qed.

(** Stripping stops at a character to keep, on either side. *)
Lemma lstrip_by_stop (pre rest : string) (a : ascii) :
  p a = false ->
  lstrip_by p (pre +:+ String a rest) = lstrip_by p pre +:+ String a rest.
Proof.
  intros Ha. induction pre as [|c pre IH];
    repeat (rewrite append_cons || rewrite append_nil).
  - cbn. by rewrite Ha.
  - cbn. destruct (p c); [done|]. by rewrite append_cons.
Qed.

Lemma rstrip_by_stop (s post : string) (b : ascii) :
  p b = false ->
  rstrip_by p (s +:+ String b post) = s +:+ String b (rstrip_by p post).
Proof.
  intros Hb. rewrite rstrip_by_append; rewrite rstrip_by_cons by (by right); done.
Qed.

Lemma strip_by_core (pre inner post : string) (a b : ascii) :
  p a = false ->
  p b = false ->
  strip_by p (pre +:+ String a (inner +:+ String b post)) =
    lstrip_by p pre +:+ String a (inner +:+ String b (rstrip_by p post)).
Proof.
  intros Ha Hb. unfold strip_by. rewrite lstrip_by_stop by done.
  rewrite <- append_cons, <- append_assoc, rstrip_by_stop by done.
  by rewrite append_assoc, append_cons.
Qed.

(** Characters of another kind are left where they are. *)
Lemma lstrip_by_other (q : ascii -> bool) (s : string) :
  (forall c, q c = true -> p c = false) ->
  all_chars q s = true -> lstrip_by p s = s.
Proof.
  intros Hqp. destruct s as [|c s]; [done|]. cbn. intros [Hc _]%andb_prop.
  by rewrite (Hqp c Hc).
Qed.

Lemma rstrip_by_other (q : ascii -> bool) (s : string) :
  (forall c, q c = true -> p c = false) ->
  all_chars q s = true -> rstrip_by p s = s.
Proof.
  intros Hqp. induction s as [|c s IH]; [done|]. cbn. intros [Hc Hs]%andb_prop.
  rewrite IH by done. destruct s; [|done]. by rewrite (Hqp c Hc).
Qed.

Lemma lstrip_by_nothing (s : string) : all_chars p s = true -> lstrip_by p s = EmptyString.
Proof.
  induction s as [|c s IH]; [done|]. cbn. intros [Hc Hs]%andb_prop. rewrite Hc. by apply IH.
Qed.

Lemma rstrip_by_suffix (s post : string) :
  all_chars p post = true -> rstrip_by p (s +:+ post) = rstrip_by p s.
Proof.
  intros Hpost. induction s as [|c s IH];
    repeat (rewrite append_cons || rewrite append_nil); [by apply rstrip_by_all|].
  cbn. by rewrite IH.
Qed.
End strip_facts.

(** One [strip] call on a text given as prefix, first kept character,
    body and tail. *)
Ltac strip_step p pre body tail kept a :=
  let H := fresh "H" in
  assert (Text.strip_by p (pre +:+ String a (body +:+ tail)) = String a (body +:+ kept)) as H
    by (apply strip_by_around;
        [reflexivity | reflexivity | reflexivity
        | let Hx := fresh in intros Hx; vm_compute in Hx; discriminate]);
  unfold Pipeline.newline in H;
  repeat (rewrite append_cons in H || rewrite append_nil in H);
  rewrite H; clear H.

Section fences.
Import Text Pipeline.

(** A reply fenced as a [json] code block comes out of the chain of
    [strip] calls without its fences. *)
Lemma strip_fences_json (inner : string) :
  strip_fences ("```json" +:+ newline +:+ "[" +:+ inner +:+ "]" +:+ newline +:+ "```")
    = "[" +:+ inner +:+ "]".
Proof.
  unfold strip_fences, strip, strip_chars, newline.
  repeat (rewrite append_cons || rewrite append_nil).
  strip_step is_space EmptyString ("``json" +:+ newline +:+ "[" +:+ inner)
             ("]" +:+ newline +:+ "```") ("]" +:+ newline +:+ "```") "`"%char.
  strip_step (fun c => mem_char c "```json") "```json" ("[" +:+ inner)
             ("]" +:+ newline +:+ "```") ("]" +:+ newline) (ascii_of_nat 10).
  strip_step (fun c => mem_char c "```") EmptyString ("[" +:+ inner)
             ("]" +:+ newline) ("]" +:+ newline) (ascii_of_nat 10).
  strip_step is_space newline inner ("]" +:+ newline) "]" "["%char.
  reflexivity.
Qed.

(** The same for a plain code block. *)
Lemma strip_fences_plain (inner : string) :
  strip_fences ("```" +:+ newline +:+ "[" +:+ inner +:+ "]" +:+ newline +:+ "```")
    = "[" +:+ inner +:+ "]".
Proof.
  unfold strip_fences, strip, strip_chars, newline.
  repeat (rewrite append_cons || rewrite append_nil).
  strip_step is_space EmptyString ("``" +:+ newline +:+ "[" +:+ inner)
             ("]" +:+ newline +:+ "```") ("]" +:+ newline +:+ "```") "`"%char.
  strip_step (fun c => mem_char c "```json") "```" ("[" +:+ inner)
             ("]" +:+ newline +:+ "```") ("]" +:+ newline) (ascii_of_nat 10).
  strip_step (fun c => mem_char c "```") EmptyString ("[" +:+ inner)
             ("]" +:+ newline) ("]" +:+ newline) (ascii_of_nat 10).
  strip_step is_space newline inner ("]" +:+ newline) "]" "["%char.
  reflexivity.
Qed.
Lemma marker_not_space (c : ascii) : ReplyView.marker_char c = true -> is_space c = false.
Proof.
  unfold ReplyView.marker_char. cbn [mem_char]. intros H.
  repeat (apply orb_prop in H as [H|H]); try discriminate;
    apply Ascii.eqb_eq in H; subst c; reflexivity.
Qed.

Lemma space_not_marker (c : ascii) : is_space c = true -> ReplyView.marker_char c = false.
Proof.
  intros Hc. destruct (ReplyView.marker_char c) eqn:Hm; [|done].
  apply marker_not_space in Hm. congruence.
Qed.

Lemma backtick_marker (c : ascii) : mem_char c "```" = true -> ReplyView.marker_char c = true.
Proof.
  unfold ReplyView.marker_char. cbn [mem_char]. intros H.
  repeat (apply orb_prop in H as [H|H]); try discriminate; by rewrite H.
Qed.

Lemma space_not_backtick (c : ascii) : is_space c = true -> mem_char c "```" = false.
Proof.
  intros Hc. destruct (mem_char c "```") eqn:Hb; [|done].
  apply backtick_marker, marker_not_space in Hb. congruence.
Qed.

Lemma trimmed_by_weaken (p q : ascii -> bool) (s t : string) :
  (forall c, p c = true -> q c = true) ->
  ReplyView.trimmed_by p s t -> ReplyView.trimmed_by q s t.
Proof.
  intros Hpq (pre & post & Hs & Hpre & Hpost). exists pre, post.
  split; [done|]. split; by apply (all_chars_impl p q).
Qed.

(** The chain of [strip] calls takes off the ends of any reply only
    whitespace and characters of the marker. *)
Lemma strip_fences_trimmed (reply : string) :
  ReplyView.trimmed_by ReplyView.strippable reply (strip_fences reply).
Proof.
  unfold strip_fences, strip, strip_chars.
  assert (forall c, is_space c = true -> ReplyView.strippable c = true) as Hsp
    by (intros c Hc; unfold ReplyView.strippable; by rewrite Hc).
  assert (forall c, mem_char c "```json" = true -> ReplyView.strippable c = true) as Hmk.
  { intros c Hc. unfold ReplyView.strippable, ReplyView.marker_char. rewrite Hc.
    apply orb_true_r. }
  assert (forall c, mem_char c "```" = true -> ReplyView.strippable c = true) as Hbt.
  { intros c Hc. unfold ReplyView.strippable. rewrite (backtick_marker c Hc).
    apply orb_true_r. }
  eapply trimmed_by_trans;
    [eapply trimmed_by_weaken; [exact Hsp|apply strip_by_trimmed]|].
  eapply trimmed_by_trans;
    [eapply trimmed_by_weaken; [exact Hmk|apply strip_by_trimmed]|].
  eapply trimmed_by_trans;
    [eapply trimmed_by_weaken; [exact Hbt|apply strip_by_trimmed]|].
  eapply trimmed_by_weaken; [exact Hsp|apply strip_by_trimmed].
Qed.

(** What stands before the body of a fenced reply is taken off, ... *)
Lemma strip_chain_left (ws1 s1 ws2 : string) :
  all_chars is_space ws1 = true ->
  all_chars ReplyView.marker_char s1 = true ->
  all_chars is_space ws2 = true ->
  lstrip_by is_space
    (lstrip_by (fun c => mem_char c "```")
       (lstrip_by (fun c => mem_char c "```json")
          (lstrip_by is_space (ws1 +:+ s1 +:+ ws2)))) = EmptyString.
Proof.
  intros Hws1 Hs1 Hws2. rewrite lstrip_by_all by done.
  destruct s1 as [|c s1].
  - rewrite append_nil, (lstrip_by_nothing is_space ws2) by done. reflexivity.
  - assert (is_space c = false) as Hc.
    { apply marker_not_space. cbn in Hs1. by apply andb_prop in Hs1 as [? _]. }
    rewrite append_cons. cbn [lstrip_by]. rewrite Hc. rewrite <- append_cons.
    rewrite (lstrip_by_all (fun c => mem_char c "```json")) by exact Hs1.
    rewrite (lstrip_by_other (fun c => mem_char c "```json") is_space ws2)
      by (exact space_not_marker || done).
    rewrite (lstrip_by_other (fun c => mem_char c "```") is_space ws2)
      by (exact space_not_backtick || done).
    by apply lstrip_by_nothing.
Qed.

(** ... and so is what stands after it. *)
Lemma strip_chain_right (ws3 s2 ws4 : string) :
  all_chars is_space ws3 = true ->
  all_chars ReplyView.marker_char s2 = true ->
  all_chars is_space ws4 = true ->
  rstrip_by is_space
    (rstrip_by (fun c => mem_char c "```")
       (rstrip_by (fun c => mem_char c "```json")
          (rstrip_by is_space (ws3 +:+ s2 +:+ ws4)))) = EmptyString.
Proof.
  intros Hws3 Hs2 Hws4. rewrite <- append_assoc, rstrip_by_suffix by done.
  destruct s2 as [|c s2].
  - rewrite append_empty_r, (rstrip_by_all is_space ws3) by done. reflexivity.
  - assert (rstrip_by is_space (String c s2) = String c s2) as Hkeep
      by (apply (rstrip_by_other is_space ReplyView.marker_char);
          [exact marker_not_space|done]).
    rewrite rstrip_by_append by (by rewrite Hkeep). rewrite Hkeep.
    rewrite (rstrip_by_suffix (fun c => mem_char c "```json")) by exact Hs2.
    rewrite (rstrip_by_other (fun c => mem_char c "```json") is_space ws3)
      by (exact space_not_marker || done).
    rewrite (rstrip_by_other (fun c => mem_char c "```") is_space ws3)
      by (exact space_not_backtick || done).
    by apply rstrip_by_all.
Qed.

(** A body that begins and ends with a character the chain does not
    strip comes out of a fenced reply as it is. *)
Lemma strip_fences_body (ws1 s1 ws2 inner ws3 s2 ws4 : string) (a b : ascii) :
  all_chars is_space ws1 = true ->
  all_chars ReplyView.marker_char s1 = true ->
  all_chars is_space ws2 = true ->
  all_chars is_space ws3 = true ->
  all_chars ReplyView.marker_char s2 = true ->
  all_chars is_space ws4 = true ->
  ReplyView.strippable a = false ->
  ReplyView.strippable b = false ->
  strip_fences ((ws1 +:+ s1 +:+ ws2) +:+ String a (inner +:+ String b (ws3 +:+ s2 +:+ ws4)))
    = String a (inner +:+ String b EmptyString).
Proof.
  intros Hws1 Hs1 Hws2 Hws3 Hs2 Hws4 Ha Hb.
  apply orb_false_elim in Ha as [Hasp Hamk]. apply orb_false_elim in Hb as [Hbsp Hbmk].
  assert (mem_char a "```" = false) as Habt.
  { destruct (mem_char a "```") eqn:H; [|done]. apply backtick_marker in H. congruence. }
  assert (mem_char b "```" = false) as Hbbt.
  { destruct (mem_char b "```") eqn:H; [|done]. apply backtick_marker in H. congruence. }
  unfold strip_fences, strip, strip_chars.
  rewrite (strip_by_core is_space) by done.
  rewrite (strip_by_core (fun c => mem_char c "```json")) by done.
  rewrite (strip_by_core (fun c => mem_char c "```")) by done.
  rewrite (strip_by_core is_space) by done.
  by rewrite strip_chain_left, strip_chain_right.
Qed.

(** A body that begins with a character of the marker is not spared. *)
Example strip_fences_eats_marker_characters :
  strip_fences "null" = "ull" /\
  strip_fences ("```JSON" +:+ newline +:+ "[]" +:+ newline +:+ "```")
    = "JSON" +:+ newline +:+ "[]".
Proof. vm_compute. split; reflexivity. Qed.
End fences.

(** C5, as the code has it. [AIService.generate_outline] sends one
    request and no other, passes the reply through its chain of [strip]
    calls, and returns what [json.loads] returns for the stripped text:
    the decoder's error when the text is not valid JSON, and otherwise
    the decoded value as it is, whatever its shape. [demo.gen_outline]
    does the same with the text [gen_json_text] returns, which it does
    not strip. The chain takes off the two ends of any reply only
    whitespace and characters of the marker, a character set and not a
    word. A reply made of whitespace, characters of the marker,
    whitespace, a body, and the same again after the body, reaches the
    decoder as the body alone, when the body begins and ends with a
    character that is neither whitespace nor of the marker, as the
    brackets and braces of JSON are. *)
Theorem generate_outline_contract (E : env) (W : wording) (idea : string) (w : world) :
  Pipeline.generate_outline E W idea w =
    (World (files w) (trace w ++ [EvOutlineRequest]),
     reply ← generate_content E (outline_prompt W idea);
     json_loads E (Pipeline.strip_fences reply)) /\
  Pipeline.gen_outline E W idea w =
    (World (files w) (trace w ++ [EvOutlineRequest]),
     reply ← gen_json_text E (outline_prompt W idea);
     json_loads E reply) /\
  (forall reply : string,
     ReplyView.trimmed_by ReplyView.strippable reply (Pipeline.strip_fences reply)) /\
  (forall (ws1 s1 ws2 inner ws3 s2 ws4 : string) (a b : ascii),
     Text.all_chars Text.is_space ws1 = true ->
     Text.all_chars ReplyView.marker_char s1 = true ->
     Text.all_chars Text.is_space ws2 = true ->
     Text.all_chars Text.is_space ws3 = true ->
     Text.all_chars ReplyView.marker_char s2 = true ->
     Text.all_chars Text.is_space ws4 = true ->
     ReplyView.strippable a = false ->
     ReplyView.strippable b = false ->
     generate_content E (outline_prompt W idea) =
       Ok ((ws1 +:+ s1 +:+ ws2) +:+ String a (inner +:+ String b (ws3 +:+ s2 +:+ ws4))) ->
     Pipeline.generate_outline E W idea w =
       (World (files w) (trace w ++ [EvOutlineRequest]),
        json_loads E (String a (inner +:+ String b EmptyString)))).
Proof.
  assert (Pipeline.generate_outline E W idea w =
            (World (files w) (trace w ++ [EvOutlineRequest]),
             reply ← generate_content E (outline_prompt W idea);
             json_loads E (Pipeline.strip_fences reply))) as Hrun.
  { unfold Pipeline.generate_outline, emit. rewrite bind_run, lift_bind_run. cbn.
    by destruct (generate_content E (outline_prompt W idea)). }
  split; [exact Hrun|]. split; [|split].
  - unfold Pipeline.gen_outline, emit. rewrite bind_run, lift_bind_run. cbn.
    by destruct (gen_json_text E (outline_prompt W idea)).
  - apply strip_fences_trimmed.
  - intros ws1 s1 ws2 inner ws3 s2 ws4 a b Hws1 Hs1 Hws2 Hws3 Hs2 Hws4 Ha Hb Hreply.
    rewrite Hrun, Hreply. cbn. by rewrite strip_fences_body.
Qed.

(** ** The scenarios *)

Section scenarios.
Import Scenario Pipeline.

Lemma last_first_completes : completes_all last_first.
Proof. intros A l. apply reverse_Permutation. Qed.

Lemma first_first_completes : completes_all first_first.
Proof. intros A l. done. Qed.

Example outline0_decoded : Decoder.json_loads outline_text = Ok outline0.
Proof. vm_compute. reflexivity. Qed.

Example pages0_flattened : Flatten.flatten_outline outline0 = Ok pages0.
Proof. vm_compute. reflexivity. Qed.

Example pages0_count : length pages0 = 6.
Proof. vm_compute. reflexivity. Qed.

(** The render stage with holes at pages 2 and 5. *)
Example render_holes_2_5 :
  (gen_images_parallel env_holes six_prompts "ref.png" "out" empty_world).2 =
    Ok [Some "out/slide_01.png"; None; Some "out/slide_03.png";
        Some "out/slide_04.png"; None; Some "out/slide_06.png"].
Proof. vm_compute. reflexivity. Qed.

(** A whole run with those holes packages the four images there are. *)
Example run_with_holes :
  filter (fun ev => is_packaging ev = true)
         (trace (gen_ppt env_holes wording0 "t" "idea" "ref.png" empty_world).1) =
    [EvAddPicture "output_t/slide_01.png"; EvAddPicture "output_t/slide_03.png";
     EvAddPicture "output_t/slide_04.png"; EvAddPicture "output_t/slide_06.png";
     EvPptxSaved "presentation_t.pptx"].
Proof. vm_compute. reflexivity. Qed.

(** Names without padding are ordered by number too. *)
Example unpadded_names_by_number :
  Sort.sort_by extract_number ["slide_10.png"; "slide_2.png"; "slide_11.png"; "slide_1.png"] =
    ["slide_1.png"; "slide_2.png"; "slide_10.png"; "slide_11.png"].
Proof. vm_compute. reflexivity. Qed.
End scenarios.

(** C5, the claim as written fails: the reply [[{}]], fenced, is a list
    whose one entry has neither a title nor a part; the outline
    generator raises nothing and returns it. *)
Lemma generate_outline_accepts_any_shape :
  Pipeline.generate_outline Scenario.env_shapeless Scenario.wording0 "idea"
                            Scenario.empty_world =
    (World [] [EvOutlineRequest], Ok (JList [JDict ∅])) /\
  (∅ : gmap string json) !! "title" = None /\
  (∅ : gmap string json) !! "part" = None.
Proof. split; [vm_compute; reflexivity|]. split; reflexivity. Qed.

(** C2, the claim as written fails: with the descriptions of pages 3
    and 5 failing, the stage returns no description, and two completion
    orders of the same six pages end it with two different exceptions:
    the one of the first failed future. *)
Example failure_named_by_completion_order :
  (Pipeline.gen_desc (with_as_completed Scenario.env_desc_fails Scenario.first_first)
                     Scenario.wording0 "idea" Scenario.outline0 Scenario.empty_world).2
    = Raise (BackendError "page 3") /\
  (Pipeline.gen_desc (with_as_completed Scenario.env_desc_fails Scenario.last_first)
                     Scenario.wording0 "idea" Scenario.outline0 Scenario.empty_world).2
    = Raise (BackendError "page 5").
Proof. vm_compute. split; reflexivity. Qed.

(** C6, the claim as written fails: the stage raises what the text
    backend raised for the page, be it a bare [KeyError] or the
    backend's own error, and so does the run; no error of the stage's
    own names the page. *)
Lemma description_error_is_the_backend_error :
  Pipeline.gen_desc (Scenario.env_desc_fails_4 KeyError) Scenario.wording0 "idea"
                    Scenario.outline0 Scenario.empty_world =
    (World [] (EvTextRequest <$> seq 1 6), Raise KeyError) /\
  (Pipeline.gen_ppt (Scenario.env_desc_fails_4 KeyError) Scenario.wording0 "t" "idea"
                    "ref.png" Scenario.empty_world).2 = Raise KeyError /\
  (Pipeline.gen_desc (Scenario.env_desc_fails_4 (BackendError "quota exceeded"))
                     Scenario.wording0 "idea" Scenario.outline0 Scenario.empty_world).2 =
    Raise (BackendError "quota exceeded") /\
  (Pipeline.gen_ppt (Scenario.env_desc_fails_4 (BackendError "quota exceeded"))
                    Scenario.wording0 "t" "idea" "ref.png" Scenario.empty_world).2 =
    Raise (BackendError "quota exceeded").
Proof. vm_compute. repeat split; reflexivity. Qed.

(** C8, the claim as written fails: called on a directory without a
    slide file, the assembler does package: it saves a presentation of
    no slide and returns [True]. *)
Lemma assembler_packages_empty_set :
  Pipeline.create_pptx_from_images Scenario.env0 "output_t" "presentation_t.pptx"
                                   Scenario.empty_world =
    (World [] [EvPptxSaved "presentation_t.pptx"], Ok true).
Proof. vm_compute. reflexivity. Qed.

(** C9, the claim as written fails: in a deck of 100 pages the name of
    page 100 comes before the name of page 99 in lexical order. *)
Lemma lexical_order_breaks_at_100 :
  Pipeline.slide_name 99 = "slide_99.png" /\
  Pipeline.slide_name 100 = "slide_100.png" /\
  Text.lex_lt (Pipeline.slide_name 100) (Pipeline.slide_name 99) = true /\
  Text.lex_lt (Pipeline.slide_name 99) (Pipeline.slide_name 100) = false.
Proof. vm_compute. repeat split; reflexivity. Qed.

(** ** The theorems at work on the scenarios *)

(** C1 on six prompts, the renders of pages 2 and 5 failing, the futures
    completing last first. *)
Lemma render_failure_isolation_witness :
  completes_all (as_completed Scenario.env_holes) /\
  mkdir Scenario.env_holes "out" = Ok tt /\
  exists (w' : world) (results : list (option string)),
    Pipeline.gen_images_parallel Scenario.env_holes Scenario.six_prompts "ref.png" "out"
                                 Scenario.empty_world = (w', Ok results) /\
    length results = length Scenario.six_prompts /\
    forall (k : nat) (prompt : string), Scenario.six_prompts !! k = Some prompt ->
      results !! k =
        Some (let path := Text.path_join "out" (Pipeline.slide_name (S k)) in
              match gen_image Scenario.env_holes (S k) prompt "ref.png" with
              | Ok (Some img) =>
                  match image_save Scenario.env_holes img path with
                  | Ok _ => Some path
                  | Raise _ => None
                  end
              | _ => None
              end).
Proof.
  split; [apply last_first_completes|]. split; [reflexivity|].
  apply (render_failure_isolation Scenario.env_holes Scenario.six_prompts "ref.png" "out"
           Scenario.empty_world last_first_completes eq_refl).
Defined.

Lemma scenario_pages_described (k : nat) (page : json) :
  Scenario.pages0 !! k = Some page ->
  is_ok (outcome (Pipeline.generate_page_desc Scenario.env0 Scenario.wording0 "idea"
                    Scenario.outline0 (S k) page)) = true.
Proof.
  intros Hk.
  do 6 (destruct k as [|k]; [vm_compute in Hk; injection Hk as <-; vm_compute; reflexivity|]).
  vm_compute in Hk. discriminate.
Qed.

(** C2 on the six pages, the futures completing in order and last
    first. *)
Lemma description_order_determinism_witness :
  let run1 := Pipeline.gen_desc (with_as_completed Scenario.env0 Scenario.first_first)
                                Scenario.wording0 "idea" Scenario.outline0
                                Scenario.empty_world in
  let run2 := Pipeline.gen_desc (with_as_completed Scenario.env0 Scenario.last_first)
                                Scenario.wording0 "idea" Scenario.outline0
                                Scenario.empty_world in
  run1.1 = run2.1 /\
  (forall descs : list string, run1.2 = Ok descs <-> run2.2 = Ok descs) /\
  exists descs : list string,
    run1.2 = Ok descs /\
    run2.2 = Ok descs /\
    length descs = length Scenario.pages0 /\
    forall (k : nat) (page : json), Scenario.pages0 !! k = Some page ->
      exists d : string,
        descs !! k = Some d /\
        outcome (Pipeline.generate_page_desc Scenario.env0 Scenario.wording0 "idea"
                   Scenario.outline0 (S k) page) = Ok (S k, d).
Proof.
  intros run1 run2.
  destruct (description_order_determinism Scenario.env0 Scenario.wording0 "idea"
              Scenario.outline0 Scenario.first_first Scenario.last_first
              Scenario.empty_world first_first_completes last_first_completes)
    as (Hworld & Hsame & Hall).
  split; [exact Hworld|]. split; [exact Hsame|].
  exact (proj1 (Hall Scenario.pages0 pages0_flattened) scenario_pages_described).
Defined.

(** C5 on a reply fenced loosely: the decoder is given the list, and
    the outline of one page is returned. *)
Lemma generate_outline_contract_witness :
  Pipeline.generate_outline Scenario.env_loose_fence Scenario.wording0 "idea"
                            Scenario.empty_world =
    (World (files Scenario.empty_world) (trace Scenario.empty_world ++ [EvOutlineRequest]),
     json_loads Scenario.env_loose_fence
                (String "["%char (Scenario.page_text "A" +:+ String "]"%char EmptyString))) /\
  json_loads Scenario.env_loose_fence
             (String "["%char (Scenario.page_text "A" +:+ String "]"%char EmptyString)) =
    Ok (JList [JDict (<["title" := JStr "A"]> (<["points" := JList [JStr "point"]]> ∅))]).
Proof.
  split; [|vm_compute; reflexivity].
  apply (proj2 (proj2 (proj2 (generate_outline_contract
                                Scenario.env_loose_fence Scenario.wording0 "idea"
                                Scenario.empty_world)))
           " " "```json" (" " +:+ Pipeline.newline) (Scenario.page_text "A")
           Pipeline.newline "```" Pipeline.newline "["%char "]"%char);
    reflexivity.
Defined.

(** C6 on the six pages, the descriptions of pages 3 and 5 failing. *)
Lemma description_failure_is_fatal_witness :
  exists (w' : world) (k : nat) (page : json) (e : exn),
    Scenario.pages0 !! k = Some page /\
    outcome (Pipeline.generate_page_desc Scenario.env_desc_fails Scenario.wording0 "idea"
               Scenario.outline0 (S k) page) = Raise e /\
    (exists (oks : list (nat * string)) (later : list (result (nat * string))),
       as_completed Scenario.env_desc_fails _
         ((fun ip : nat * json =>
             outcome (Pipeline.generate_page_desc Scenario.env_desc_fails Scenario.wording0
                        "idea" Scenario.outline0 ip.1 ip.2))
            <$> enumerate 1 Scenario.pages0) =
         (Ok <$> oks) ++ Raise e :: later) /\
    Pipeline.gen_desc Scenario.env_desc_fails Scenario.wording0 "idea" Scenario.outline0
                      (World [] [EvOutlineRequest]) = (w', Raise e) /\
    Pipeline.gen_ppt Scenario.env_desc_fails Scenario.wording0 "t" "idea" "ref.png"
                     Scenario.empty_world = (w', Raise e) /\
    exists t : list event,
      trace w' = trace Scenario.empty_world ++ t /\
      forallb (fun ev => negb (after_description ev)) t = true.
Proof.
  apply (description_failure_is_fatal Scenario.env_desc_fails Scenario.wording0
           "t" "idea" "ref.png" Scenario.outline0 Scenario.pages0
           Scenario.empty_world (World [] [EvOutlineRequest])).
  - apply last_first_completes.
  - vm_compute. reflexivity.
  - vm_compute. reflexivity.
  - apply pages0_flattened.
  - exists 2. eexists. split; vm_compute; reflexivity.
Defined.

(** C7 on a directory listed out of order. *)
Lemma assembler_numeric_order_witness :
  exists ordered : list string,
    Pipeline.create_pptx_from_images Scenario.env0 "out" "deck.pptx" Scenario.shuffled_world =
      (World (files Scenario.shuffled_world)
             (trace Scenario.shuffled_world ++
              ((fun n => EvAddPicture (Text.path_join "out" n)) <$> ordered) ++
              [EvPptxSaved "deck.pptx"]),
       Ok true) /\
    ordered ≡ₚ filter (fun n => Pipeline.glob_match n = true)
                      ["slide_10.png"; "slide_02.png"; "slide_11.png"; "slide_01.png";
                       "notes.txt"] /\
    StronglySorted (Sort.key_le Pipeline.extract_number) ordered /\
    forall idxs : list nat,
      ["slide_10.png"; "slide_02.png"; "slide_11.png"; "slide_01.png"; "notes.txt"]
        = Pipeline.slide_name <$> idxs ->
      ordered = Pipeline.slide_name <$> Sort.sorted idxs.
Proof.
  apply (assembler_numeric_order Scenario.env0 "out" "deck.pptx" Scenario.shuffled_world
           ["slide_10.png"; "slide_02.png"; "slide_11.png"; "slide_01.png"; "notes.txt"]
           (fun _ => eq_refl) eq_refl eq_refl).
Defined.

(** C8 on a run in which no page renders. *)
Lemma no_render_no_packaging_witness :
  Pipeline.gen_ppt Scenario.env_no_render Scenario.wording0 "t" "idea" "ref.png"
                   Scenario.empty_world =
    (World [] (EvOutlineRequest :: (EvTextRequest <$> seq 1 6) ++
               (EvPromptBuilt <$> seq 1 6) ++ (EvImageRequest <$> seq 1 6)),
     Ok [None; None; None; None; None; None]) /\
  exists t : list event,
    trace (World [] (EvOutlineRequest :: (EvTextRequest <$> seq 1 6) ++
                     (EvPromptBuilt <$> seq 1 6) ++ (EvImageRequest <$> seq 1 6)))
      = trace Scenario.empty_world ++ t /\
    forallb (fun ev => negb (is_packaging ev)) t = true.
Proof.
  apply (no_render_no_packaging Scenario.env_no_render Scenario.wording0 "t" "idea" "ref.png"
           Scenario.empty_world
           (World [] [EvOutlineRequest])
           (World [] (EvOutlineRequest :: (EvTextRequest <$> seq 1 6)))
           (World [] (EvOutlineRequest :: (EvTextRequest <$> seq 1 6) ++
                      (EvPromptBuilt <$> seq 1 6)))
           (World [] (EvOutlineRequest :: (EvTextRequest <$> seq 1 6) ++
                      (EvPromptBuilt <$> seq 1 6) ++ (EvImageRequest <$> seq 1 6)))
           Scenario.outline0 Scenario.descs0 Scenario.pages0 (replicate 6 tt)
           Scenario.prompts0 [None; None; None; None; None; None]);
    try (vm_compute; reflexivity).
  repeat constructor.
Defined.

(** C9 on page 3 of a deck of 20 pages, saved beside a file of another
    directory. *)
Lemma slide_names_order_witness :
  (Pipeline.generate_single_image Scenario.env0 "ref.png" "out" 3 "p3"
                                  (World [("other", "slide_03.png")] [])).1 =
    World [("other", "slide_03.png"); ("out", "slide_03.png")]
          [EvImageRequest 3; EvImageSaved "out/slide_03.png"] /\
  (forall dir name : string,
     has_file dir name [("other", "slide_03.png"); ("out", "slide_03.png")] =
       has_file dir name [("other", "slide_03.png")] ||
       (String.eqb dir "out" && String.eqb name (Pipeline.slide_name 3))) /\
  Pipeline.slide_name 3 = "slide_03.png" /\
  Pipeline.extract_number (Pipeline.slide_name 3) = 3 /\
  String.length (Pipeline.slide_name 3) = String.length (Pipeline.slide_name 20) /\
  (Text.lex_lt (Pipeline.slide_name 3) (Pipeline.slide_name 20) = true <-> 3 < 20).
Proof.
  destruct (slide_names_order_up_to_99 Scenario.env0 "ref.png" "out" "p3"
              (World [("other", "slide_03.png")] []) 3 (Image 3) eq_refl eq_refl)
    as (Hfiles & Hname & _ & Hnumber & Horder).
  split; [reflexivity|]. split; [exact Hfiles|]. split; [exact Hname|].
  split; [exact Hnumber|].
  apply (Horder 20 3 20); lia.
Defined.

(** C10 on an entry with a part and no pages, between two pages. *)
Lemma flatten_classification_witness :
  Flatten.flatten_outline
    (JList ([Scenario.page_A] ++ JDict Scenario.lone_part :: [Scenario.page_B])) =
    Ok ([Scenario.page_A] ++ JDict Scenario.lone_part :: [Scenario.page_B]).
Proof.
  exact (flatten_classification Scenario.lone_part [Scenario.page_A] [Scenario.page_B]
           [Scenario.page_A] [Scenario.page_B] eq_refl eq_refl).
Defined.


(** ** More on the flattener *)

Section flatten_more.
Import Flatten.

Lemma stamp_dicts (part : json) (ds : list (gmap string json)) :
  mapM (stamp part) (JDict <$> ds) = Ok ((fun d => JDict (<["part" := part]> d)) <$> ds).
Proof. induction ds as [|d ds IH]; cbn; [done|]. rewrite IH. reflexivity. Qed.

Lemma add_item_flat_page (d : gmap string json) :
  d !! "pages" = None -> add_item [] (JDict d) = Ok [JDict d].
Proof. intros Hd. rewrite add_item_dict, Hd. by destruct (d !! "part"). Qed.
End flatten_more.

(** X1. The pages of a part keep all they hold: when the pages of a part
    are dicts, whatever their keys, [flatten_outline] emits each of them
    with the key [part] set to the part's name (replacing a key [part]
    the page had) and every other key as it was; the part's own other
    keys are not carried over. *)
Theorem flatten_part_keeps_page_keys (m : gmap string json) (part : json)
    (ds : list (gmap string json)) (before after ps1 ps2 : list json) :
  Flatten.flatten_outline (JList before) = Ok ps1 ->
  Flatten.flatten_outline (JList after) = Ok ps2 ->
  m !! "part" = Some part ->
  m !! "pages" = Some (JList (JDict <$> ds)) ->
  exists flat : list (gmap string json),
    Flatten.flatten_outline (JList (before ++ JDict m :: after)) =
      Ok (ps1 ++ (JDict <$> flat) ++ ps2) /\
    Forall2 (fun d d' => d' !! "part" = Some part /\
                         forall key : string, key <> "part" -> d' !! key = d !! key)
            ds flat.
Proof.
  intros H1 H2 Hpart Hpages. exists ((fun d => <["part" := part]> d) <$> ds). split.
  - rewrite flatten_outline_app, H1, flatten_outline_cons, H2, add_item_dict, Hpart, Hpages.
    unfold Flatten.expand. cbn. rewrite stamp_dicts. cbn.
    by rewrite <- list_fmap_compose.
  - apply Forall2_fmap_r, Forall_Forall2_diag, Forall_forall. intros d _. split.
    + apply lookup_insert_eq.
    + intros key Hkey. by apply lookup_insert_ne.
Qed.

(** X2. A part whose [pages] is not iterable (null, a boolean, a
    number) makes [flatten_outline] raise [TypeError], whatever comes
    after it in the outline: no page list is returned. *)
Theorem flatten_part_pages_not_iterable (m : gmap string json) (part pages : json)
    (before after ps1 : list json) :
  Flatten.flatten_outline (JList before) = Ok ps1 ->
  m !! "part" = Some part ->
  m !! "pages" = Some pages ->
  match pages with
  | JNull | JBool _ | JInt _ | JFloat _ => True
  | _ => False
  end ->
  Flatten.flatten_outline (JList (before ++ JDict m :: after)) = Raise TypeError.
Proof.
  intros H1 Hpart Hpages Hbad.
  rewrite flatten_outline_app, H1, flatten_outline_cons, add_item_dict, Hpart, Hpages.
  by destruct pages.
Qed.

(** X3. A page of a part that is no dict makes [flatten_outline] raise,
    whatever the pages before it and whatever comes after:
    [AttributeError] for a page without a [copy] method (a string, a
    number, a boolean, null), [TypeError] for a list, which has [copy]
    and takes no string key. *)
Theorem flatten_part_page_not_dict (m : gmap string json) (part bad : json)
    (ds : list (gmap string json)) (rest before after ps1 : list json) :
  Flatten.flatten_outline (JList before) = Ok ps1 ->
  m !! "part" = Some part ->
  m !! "pages" = Some (JList ((JDict <$> ds) ++ bad :: rest)) ->
  (forall d : gmap string json, bad <> JDict d) ->
  Flatten.flatten_outline (JList (before ++ JDict m :: after)) =
    Raise (match bad with
           | JList _ => TypeError
           | _ => AttributeError
           end).
Proof.
  intros H1 Hpart Hpages Hbad.
  rewrite flatten_outline_app, H1, flatten_outline_cons, add_item_dict, Hpart, Hpages.
  unfold Flatten.expand. cbn. rewrite mapM_result_app, stamp_dicts. cbn.
  destruct bad; try done. by destruct (Hbad m0).
Qed.

Section flatten_again.
Import Flatten Outline.

Lemma encode_flat_no_pages (tp : option string * Page) :
  exists d : gmap string json, encode_flat tp = JDict d /\ d !! "pages" = None.
Proof.
  destruct tp as [[name|] p]; unfold encode_flat; cbn; eexists; (split; [done|]).
  - rewrite lookup_insert_ne by done. apply encode_page_pages.
  - apply encode_page_pages.
Qed.

Lemma flatten_flat_pages (tps : list (option string * Page)) :
  flatten_outline (JList (encode_flat <$> tps)) = Ok (encode_flat <$> tps).
Proof.
  induction tps as [|tp tps IH]; [done|].
  rewrite fmap_cons, flatten_outline_cons, IH.
  destruct (encode_flat_no_pages tp) as (d & -> & Hd).
  by rewrite add_item_flat_page.
Qed.
End flatten_again.

(** X4. Flattening is idempotent on shape-valid outlines: the flat pages
    of an outline, taken as an outline, flatten to themselves (a flat
    page has no key [pages], so it is a direct page, its part tag kept). *)
Theorem flatten_idempotent (o : list Outline.OutlineEntry) (pages : list json) :
  Flatten.flatten_outline (Outline.encode_outline o) = Ok pages ->
  Flatten.flatten_outline (JList pages) = Ok pages.
Proof.
  rewrite flatten_encode. intros [= <-]. apply flatten_flat_pages.
Qed.

(** ** The outline text and the prompt builder *)

Section prompt_facts.
Import Flatten Outline OutlineView Pipeline.
Variable W : wording.

Lemma mapM_enumerate_fmap {A B C} (f : nat -> B -> result C) (g : A -> B)
    (h : nat -> A -> C) (l : list A) (start : nat) :
  (forall i x, f i (g x) = Ok (h i x)) ->
  mapM (fun ii : nat * B => f ii.1 ii.2) (enumerate start (g <$> l)) =
    Ok ((fun ii : nat * A => h ii.1 ii.2) <$> enumerate start l).
Proof.
  intros Hf. revert start; induction l as [|x l IH]; intros start; cbn; [done|].
  rewrite Hf, IH. reflexivity.
Qed.

Lemma outline_line_entry (i : nat) (e : OutlineEntry) :
  outline_line W i (encode_entry e) =
    Ok (Text.decimal i +:+ ". " +:+ py_str W (JStr (entry_label e))).
Proof.
  unfold outline_line. destruct e as [p|name ps]; cbn [encode_entry]; rewrite is_part_dict.
  - rewrite encode_page_part.
    rewrite bool_decide_eq_false_2 by (intros [? ?]; done). cbn.
    unfold encode_page. by rewrite lookup_insert_eq.
  - rewrite !bool_decide_eq_true_2 by (lookup_keys; eauto). cbn.
    by rewrite lookup_insert_eq.
Qed.

(** What [gen_prompt] returns does not depend on the world, and it
    logs the page when it returns. *)
Lemma gen_prompt_run (outline_text : string) (i : nat) (page : json) (d : string)
    (w : world) :
  gen_prompt W outline_text i page d w =
    match (has_part ← PyObj.contains "part" page;
           if has_part : bool then PyObj.getitem page "part"
           else get_default page "title" (JStr "Untitled")) with
    | Ok section =>
        (World (files w) (trace w ++ [EvPromptBuilt i]),
         Ok (image_prompt W d outline_text (py_str W section)))
    | Raise e => (w, Raise e)
    end.
Proof.
  unfold gen_prompt. rewrite lift_bind_run.
  destruct (PyObj.contains "part" page) as [[|]|e]; cbn; [| |done];
    rewrite lift_bind_run; by destruct (_ : result json).
Qed.
End prompt_facts.

Lemma mapM_run_result {A B} (f : A -> M B) (g : A -> result B) (l : list A) (w : world) :
  (forall x w, (f x w).2 = g x) -> (mapM f l w).2 = mapM g l.
Proof.
  intros Hfg. revert w; induction l as [|x l IH]; intros w; [done|].
  cbn [mapM]. rewrite bind_run. specialize (Hfg x w).
  destruct (f x w) as [w1 [y|e]]; cbn in Hfg; rewrite <- Hfg; [|done].
  rewrite bind_run. specialize (IH w1).
  destruct (mapM f l w1) as [w2 [ys|e]]; cbn in IH; rewrite <- IH; done.
Qed.

Lemma gen_outline_text_encode (W : wording) (o : list Outline.OutlineEntry) :
  Pipeline.gen_outline_text W (Outline.encode_outline o) =
    Ok (dedent W
          (String.concat Pipeline.newline
             ((fun ie : nat * Outline.OutlineEntry =>
                 Text.decimal ie.1 +:+ ". " +:+ py_str W (JStr (OutlineView.entry_label ie.2)))
                <$> enumerate 1 o))).
Proof.
  unfold Pipeline.gen_outline_text, Outline.encode_outline. cbn.
  rewrite (mapM_enumerate_fmap (Pipeline.outline_line W) Outline.encode_entry
             (fun i e => Text.decimal i +:+ ". " +:+ py_str W (JStr (OutlineView.entry_label e))))
    by apply outline_line_entry.
  reflexivity.
Qed.

(** X5. The outline text has one line per top-level entry, not per
    page: for a shape-valid outline the lines are numbered from 1 in
    outline order, a part shown by its name and a page by its title,
    joined by newlines and passed through [dedent]. *)
Theorem gen_outline_text_lines (W : wording) (o : list Outline.OutlineEntry) :
  Pipeline.gen_outline_text W (Outline.encode_outline o) =
    Ok (dedent W
          (String.concat Pipeline.newline
             ((fun ie : nat * Outline.OutlineEntry =>
                 Text.decimal ie.1 +:+ ". " +:+ py_str W (JStr (OutlineView.entry_label ie.2)))
                <$> enumerate 1 o))).
Proof. apply gen_outline_text_encode. Qed.

(** X6. An entry with a key [part] and neither [pages] nor [title] is
    named in two ways: the outline text lists it as [Untitled], while
    the prompt of that page gives its part as the current section. *)
Theorem part_without_pages_is_untitled (W : wording) (m : gmap string json)
    (part : json) (outline_text page_desc : string) (i : nat) (w : world) :
  m !! "part" = Some part ->
  m !! "pages" = None ->
  m !! "title" = None ->
  Pipeline.outline_line W i (JDict m) =
    Ok (Text.decimal i +:+ ". " +:+ py_str W (JStr "Untitled")) /\
  (Pipeline.gen_prompt W outline_text i (JDict m) page_desc w).2 =
    Ok (image_prompt W page_desc outline_text (py_str W part)).
Proof.
  intros Hpart Hpages Htitle. split.
  - unfold Pipeline.outline_line. rewrite is_part_dict, Hpart, Hpages.
    rewrite bool_decide_eq_true_2 by eauto.
    rewrite bool_decide_eq_false_2 by (intros [? ?]; done). cbn. by rewrite Htitle.
  - rewrite gen_prompt_run. cbn. rewrite Hpart.
    by rewrite bool_decide_eq_true_2 by eauto.
Qed.

(** X7. The batch prompt builder of [demo.py] and the per-page one of
    [AIService] agree: when the outline flattens, [gen_prompts] returns,
    page by page, the prompt [generate_image_prompt] returns for that
    page, its description and its index, and it raises when the outline
    text cannot be built, pages or no pages. *)
Theorem gen_prompts_agrees_with_service (W : wording) (outline : json)
    (desc : list string) (pages : list json) (w : world) :
  Flatten.flatten_outline outline = Ok pages ->
  (Pipeline.gen_prompts W outline desc w).2 =
    (_ ← Pipeline.gen_outline_text W outline;
     mapM (fun ipd : nat * (json * string) =>
             Service.generate_image_prompt W outline ipd.2.1 ipd.2.2 ipd.1)
          (enumerate 1 (zip pages desc))).
Proof.
  intros Hflat. unfold Pipeline.gen_prompts. rewrite lift_bind_run, Hflat, lift_bind_run.
  destruct (Pipeline.gen_outline_text W outline) as [outline_text|e] eqn:Htext; [|done].
  cbn. apply mapM_run_result. intros [i [page d]] w0. cbn.
  rewrite gen_prompt_run. unfold Service.generate_image_prompt. rewrite Htext. cbn.
  destruct (PyObj.contains "part" page) as [[|]|e]; cbn; [| |done];
    by destruct (_ : result json).
Qed.

Lemma zip_fmap_l_pairs {A B C} (f : A -> B) (l : list A) (k : list C) :
  zip (f <$> l) k = (fun td : A * C => (f td.1, td.2)) <$> zip l k.
Proof.
  revert k; induction l as [|x l IH]; intros [|y k]; cbn; try done. by rewrite IH.
Qed.

(** X8. The prompts of a shape-valid outline: [gen_prompts] builds one
    prompt for each pair of a flat page and a description, as many as
    the shorter of the two lists has, in page order; the prompt of a page
    holds its description, the outline text and, as current section, the
    name of the part the page is in, or else the page's own title. *)
Theorem gen_prompts_shape_valid (W : wording) (o : list Outline.OutlineEntry)
    (descs : list string) (w : world) :
  exists outline_text : string,
    Pipeline.gen_outline_text W (Outline.encode_outline o) = Ok outline_text /\
    Pipeline.gen_prompts W (Outline.encode_outline o) descs w =
      (World (files w)
             (trace w ++
              (EvPromptBuilt <$> seq 1 (Nat.min (Outline.total_pages o) (length descs)))),
       Ok ((fun td : (option string * Outline.Page) * string =>
              image_prompt W td.2 outline_text
                           (py_str W (JStr (OutlineView.section_label td.1))))
             <$> zip (Outline.traversal o) descs)).
Proof.
  eexists. split; [apply gen_outline_text_encode|].
  unfold Pipeline.gen_prompts.
  rewrite lift_bind_run, flatten_encode, lift_bind_run, gen_outline_text_encode.
  set (outline_text := dedent W _).
  rewrite zip_fmap_l_pairs.
  set (l := zip (Outline.traversal o) descs).
  assert (length l = Nat.min (Outline.total_pages o) (length descs)) as <-.
  { unfold l. by rewrite length_zip_with, traversal_length. }
  generalize 1 at 1 2 as start. revert w. clearbody l.
  induction l as [|[tp d] l IH]; intros w start.
  - cbn. rewrite app_nil_r. by destruct w.
  - cbn [fmap list_fmap enumerate mapM length seq]. rewrite bind_run. cbn [fst snd].
    rewrite gen_prompt_run.
    assert ((has_part ← PyObj.contains "part" (Outline.encode_flat tp);
             if has_part : bool then PyObj.getitem (Outline.encode_flat tp) "part"
             else Pipeline.get_default (Outline.encode_flat tp) "title" (JStr "Untitled"))
            = Ok (JStr (OutlineView.section_label (tp, d).1))) as ->.
    { destruct tp as [[name|] p]; unfold Outline.encode_flat, OutlineView.section_label; cbn.
      - rewrite bool_decide_eq_true_2 by (rewrite lookup_insert_eq; eauto). cbn.
        by rewrite lookup_insert_eq.
      - rewrite encode_page_part.
        rewrite bool_decide_eq_false_2 by (intros [? ?]; done). cbn.
        unfold Outline.encode_page. by rewrite lookup_insert_eq. }
    rewrite bind_run, IH. cbn. by rewrite <- app_assoc.
Qed.

(** ** What the thread-pool stages do to the world *)

Section stage_effects.
Import Pipeline StageView.
Variable E : env.

Lemma slide_name_inj (i j : nat) : slide_name i = slide_name j -> i = j.
Proof.
  intros Heq. by rewrite <- (extract_number_slide_name i), Heq, extract_number_slide_name.
Qed.

Lemma has_file_app (dir name : string) (fs gs : list (string * string)) :
  has_file dir name (fs ++ gs) = has_file dir name fs || has_file dir name gs.
Proof. unfold has_file. apply existsb_app. Qed.

Lemma generate_single_image_run ref_image output_dir i prompt w :
  generate_single_image E ref_image output_dir i prompt w =
    (match render_path E ref_image output_dir i prompt with
     | Some path =>
         World (if has_file output_dir (slide_name i) (files w) then files w
                else files w ++ [(output_dir, slide_name i)])
               (trace w ++ [EvImageRequest i; EvImageSaved path])
     | None => World (files w) (trace w ++ [EvImageRequest i])
     end,
     Ok (i, render_path E ref_image output_dir i prompt)).
Proof.
  unfold generate_single_image, render_path, catch, mbind, M_bind, lift, emit,
    write_file, mret, M_ret.
  cbn. destruct (gen_image E i prompt ref_image) as [[img|]|e]; cbn; try done.
  destruct (image_save E img (Text.path_join output_dir (slide_name i))) as [[]|e]; cbn;
    [|done].
  by rewrite <- app_assoc.
Qed.

(** The world after the tasks of the image stage, from a world in
    which none of their files exists yet. *)
Lemma image_tasks_run ref_image output_dir (prompts : list string) (start : nat)
    (w : world) :
  (forall j, start <= j -> has_file output_dir (slide_name j) (files w) = false) ->
  let results := (fun ip : nat * string => render_path E ref_image output_dir ip.1 ip.2)
                   <$> enumerate start prompts in
  mapM (fun ip => submit (generate_single_image E ref_image output_dir ip.1 ip.2))
       (enumerate start prompts) w =
    (World (files w ++ ((fun i => (output_dir, slide_name i)) <$> rendered_from start results))
           (trace w ++ (enumerate start results ≫= render_events)),
     Ok ((fun ip : nat * string =>
            Ok (ip.1, render_path E ref_image output_dir ip.1 ip.2))
           <$> enumerate start prompts)).
Proof.
  revert start w; induction prompts as [|p prompts IH]; intros start w Hfresh.
  - cbn. rewrite !app_nil_r. by destruct w.
  - cbn zeta. cbn [enumerate mapM fmap list_fmap]. rewrite bind_run.
    unfold submit at 1. cbn [fst snd]. rewrite generate_single_image_run.
    rewrite bind_run.
    unfold rendered_from. cbn [enumerate omap list_omap mbind list_bind fst snd].
    destruct (render_path E ref_image output_dir start p) as [path|] eqn:Hp.
    + rewrite (Hfresh start) by lia.
      cbn zeta in IH. rewrite IH.
      * cbn. unfold rendered_from. by rewrite <- !app_assoc.
      * intros j Hj. cbn [files]. rewrite has_file_app, (Hfresh j) by lia. cbn.
        destruct (String.eqb_spec output_dir output_dir); [|done]. cbn.
        destruct (String.eqb_spec (slide_name start) (slide_name j)) as [Heq|]; [|done].
        apply slide_name_inj in Heq. lia.
    + cbn zeta in IH. rewrite IH.
      * cbn. unfold rendered_from. by rewrite <- !app_assoc.
      * intros j Hj. cbn [files]. apply Hfresh. lia.
Qed.

Lemma render_path_Some ref_image output_dir i prompt path :
  render_path E ref_image output_dir i prompt = Some path ->
  path = Text.path_join output_dir (slide_name i).
Proof.
  unfold render_path. destruct (gen_image E i prompt ref_image) as [[img|]|e]; [|done..].
  destruct (image_save E img _); [|done]. by intros [= <-].
Qed.

Lemma rendered_paths_of ref_image output_dir (prompts : list string) (start : nat) :
  let results := (fun ip : nat * string => render_path E ref_image output_dir ip.1 ip.2)
                   <$> enumerate start prompts in
  rendered_paths results =
    (fun i => Text.path_join output_dir (slide_name i)) <$> rendered_from start results.
Proof.
  cbn zeta. revert start; induction prompts as [|p prompts IH]; intros start; [done|].
  specialize (IH (S start)). unfold rendered_paths, rendered_from in *.
  cbn [enumerate fmap list_fmap]. cbn [enumerate omap list_omap fst snd].
  destruct (render_path E ref_image output_dir start p) as [path|] eqn:Hp; [|exact IH].
  apply render_path_Some in Hp as ->. cbn [fmap list_fmap]. by rewrite IH.
Qed.

Lemma gen_images_parallel_run prompts ref_image output_dir w :
  completes_all (as_completed E) ->
  mkdir E output_dir = Ok tt ->
  (forall j, has_file output_dir (slide_name j) (files w) = false) ->
  let results := (fun ip : nat * string => render_path E ref_image output_dir ip.1 ip.2)
                   <$> enumerate 1 prompts in
  gen_images_parallel E prompts ref_image output_dir w =
    (World (files w ++ ((fun i => (output_dir, slide_name i)) <$> rendered results))
           (trace w ++ (enumerate 1 results ≫= render_events)),
     Ok results).
Proof.
  intros Horder Hmkdir Hfresh results. unfold gen_images_parallel.
  rewrite lift_bind_run, Hmkdir, bind_run.
  rewrite image_tasks_run by (intros; apply Hfresh).
  rewrite lift_lift_run. fold results. unfold rendered. f_equal.
  apply fan_in. rewrite (Horder _ _). by rewrite enumerate_outcomes.
Qed.
End stage_effects.

(** X9. What the image stage leaves behind: from a directory that holds
    none of its files yet, the stage requests every prompt once, saves
    one file per page that rendered, named after the page, and none for
    a page that failed; the paths in its results are the paths of those
    files. *)
Theorem image_stage_effects (E : env) (prompts : list string)
    (ref_image output_dir : string) (w : world) :
  completes_all (as_completed E) ->
  mkdir E output_dir = Ok tt ->
  (forall j : nat, has_file output_dir (Pipeline.slide_name j) (files w) = false) ->
  exists results : list (option string),
    Pipeline.gen_images_parallel E prompts ref_image output_dir w =
      (World (files w ++
              ((fun i => (output_dir, Pipeline.slide_name i)) <$> StageView.rendered results))
             (trace w ++ (enumerate 1 results ≫= StageView.render_events)),
       Ok results) /\
    length results = length prompts /\
    StageView.rendered_paths results =
      (fun i => Text.path_join output_dir (Pipeline.slide_name i))
        <$> StageView.rendered results.
Proof.
  intros Horder Hmkdir Hfresh. eexists. split; [|split].
  - by apply gen_images_parallel_run.
  - by rewrite length_fmap, enumerate_length.
  - apply rendered_paths_of.
Qed.

Section render_then_assemble.
Import Pipeline StageView.

Lemma sort_by_sorted {A} (key : A -> nat) (l : list A) :
  Sorted (Sort.key_le key) l -> Sort.sort_by key l = l.
Proof.
  induction 1 as [|x l Hl IH Hhd]; [done|].
  rewrite sort_by_cons, IH. destruct Hhd as [|y l' Hxy]; [done|].
  cbn. unfold Sort.key_le in Hxy. by rewrite (proj2 (Nat.leb_le _ _) Hxy).
Qed.

Lemma rendered_from_ge (start : nat) (results : list (option string)) (i : nat) :
  i ∈ rendered_from start results -> start <= i.
Proof.
  revert start; induction results as [|r results IH]; intros start.
  - unfold rendered_from. cbn. by intros ?%elem_of_nil.
  - unfold rendered_from. cbn [enumerate omap list_omap fst snd].
    destruct r; [intros [->|Hin]%elem_of_cons; [lia|]|intros Hin];
      apply (IH (S start)) in Hin; lia.
Qed.

Lemma rendered_from_Sorted (start : nat) (results : list (option string)) :
  Sorted (Sort.key_le (fun n => n)) (rendered_from start results).
Proof.
  revert start; induction results as [|r results IH]; intros start.
  - constructor.
  - unfold rendered_from. cbn [enumerate omap list_omap fst snd].
    destruct r; [|apply IH]. constructor; [apply IH|].
    pose proof (rendered_from_ge (S start) results) as Hge.
    unfold rendered_from in Hge. destruct (omap _ (enumerate (S start) results)) as [|j js];
      constructor. unfold Sort.key_le. specialize (Hge j ltac:(by left)). lia.
Qed.

Lemma filter_glob_slide_names (idxs : list nat) :
  filter (fun n => glob_match n = true) (slide_name <$> idxs) = slide_name <$> idxs.
Proof.
  induction idxs as [|i idxs IH]; [done|].
  rewrite fmap_cons, filter_cons_True by apply glob_match_slide_name. by rewrite IH.
Qed.

Lemma sort_slide_names (idxs : list nat) :
  Sorted (Sort.key_le (fun n => n)) idxs ->
  Sort.sort_by extract_number (slide_name <$> idxs) = slide_name <$> idxs.
Proof.
  intros Hs. rewrite sort_by_fmap.
  rewrite (sort_by_ext _ (fun n => n)) by apply extract_number_slide_name.
  by rewrite sort_by_sorted.
Qed.

Lemma scandir_fresh (dir : string) (fs : list (string * string)) (names : list string) :
  (forall f, f ∈ fs -> f.1 <> dir) ->
  snd <$> filter (fun f => String.eqb f.1 dir = true)
                 (fs ++ ((fun n => (dir, n)) <$> names)) = names.
Proof.
  intros Hfs. rewrite filter_app.
  assert (filter (fun f : string * string => String.eqb f.1 dir = true) fs = []) as ->.
  { induction fs as [|f fs IH]; [done|].
    rewrite filter_cons_False.
    - apply IH. intros g Hg. apply Hfs. by right.
    - intros Heq%String.eqb_eq. apply (Hfs f); [by left|done]. }
  cbn. induction names as [|n names IH]; [done|].
  rewrite fmap_cons, filter_cons_True by apply String.eqb_refl. cbn. by rewrite IH.
Qed.
End render_then_assemble.

(** X10. The deck holds the pages that rendered, in page order: when the
    output directory holds no file before the image stage, the assembler
    run after the stage adds exactly the images of the results that hold
    a path, in the order of the results, and then saves the deck. *)
Theorem deck_holds_rendered_pages (E : env) (prompts : list string)
    (ref_image output_dir output_file : string) (w : world) :
  completes_all (as_completed E) ->
  mkdir E output_dir = Ok tt ->
  (forall f : string * string, f ∈ files w -> f.1 <> output_dir) ->
  (forall path : string, add_picture E path = Ok tt) ->
  pptx_save E output_file = Ok tt ->
  exists (w1 : world) (results : list (option string)),
    Pipeline.gen_images_parallel E prompts ref_image output_dir w = (w1, Ok results) /\
    Pipeline.create_pptx_from_images E output_dir output_file w1 =
      (World (files w1)
             (trace w1 ++ (EvAddPicture <$> StageView.rendered_paths results) ++
              [EvPptxSaved output_file]),
       Ok true).
Proof.
  intros Horder Hmkdir Hfresh Hadd Hsave.
  assert (forall j, has_file output_dir (Pipeline.slide_name j) (files w) = false) as Hnone.
  { intros j. unfold has_file. apply not_true_is_false.
    intros (f & Hin & Hf)%existsb_exists. apply andb_prop in Hf as [Hdir%String.eqb_eq _].
    apply (Hfresh f); [by apply list_elem_of_In|done]. }
  eexists _, _. split; [by apply gen_images_parallel_run|].
  set (results := _ <$> enumerate 1 prompts).
  unfold Pipeline.create_pptx_from_images. rewrite bind_run. unfold scandir. cbn [files].
  assert ((fun i => (output_dir, Pipeline.slide_name i)) <$> StageView.rendered results
          = (fun n => (output_dir, n)) <$> (Pipeline.slide_name <$> StageView.rendered results))
    as Hnames by (by rewrite <- list_fmap_compose).
  rewrite Hnames, scandir_fresh by done.
  rewrite filter_glob_slide_names, sort_slide_names by apply rendered_from_Sorted.
  rewrite bind_run, mapM_add_slide_run by done.
  rewrite lift_bind_run, Hsave. unfold emit. rewrite bind_run. cbn.
  rewrite <- app_assoc. do 3 f_equal.
  unfold results. rewrite rendered_paths_of. by rewrite <- !list_fmap_compose.
Qed.

Section description_requests.
Import Pipeline.
Variables (E : env) (W : wording).

Lemma generate_page_desc_world idea outline i (d : gmap string json) w :
  (generate_page_desc E W idea outline i (JDict d) w).1 =
    World (files w) (trace w ++ [EvTextRequest i]).
Proof.
  unfold generate_page_desc, mbind, M_bind, lift, emit, mret, M_ret. cbn.
  destruct (bool_decide (is_Some (d !! "part"))) eqn:Hpart; cbn.
  - apply bool_decide_eq_true_1 in Hpart as [part Hpart]. rewrite Hpart.
    by destruct (gen_text E i _).
  - by destruct (gen_text E i _).
Qed.

Lemma desc_tasks_world idea outline (ds : list (gmap string json)) (start : nat) w :
  (mapM (fun ip : nat * json => submit (generate_page_desc E W idea outline ip.1 ip.2))
        (enumerate start (JDict <$> ds)) w).1 =
    World (files w) (trace w ++ (EvTextRequest <$> seq start (length ds))).
Proof.
  revert start w; induction ds as [|d ds IH]; intros start w.
  - cbn. rewrite app_nil_r. by destruct w.
  - cbn [fmap list_fmap enumerate mapM length seq]. rewrite bind_run.
    unfold submit at 1. cbn [fst snd].
    pose proof (generate_page_desc_world idea outline start d w) as Hw.
    destruct (generate_page_desc E W idea outline start (JDict d) w) as [w1 r].
    cbn in Hw. subst w1. rewrite bind_run. specialize (IH (S start) (World (files w)
      (trace w ++ [EvTextRequest start]))).
    destruct (mapM (M := M) _ (enumerate (S start) (JDict <$> ds))
                (World (files w) (trace w ++ [EvTextRequest start]))) as [w2 [ys|e]];
      cbn in IH; subst w2; cbn; by rewrite <- app_assoc.
Qed.
End description_requests.

(** X11. A failed description saves no request: when the flat pages are
    dicts, the description stage sends one text request per page, for
    every page, whether the stage then returns the descriptions or
    raises the error of a failed page; it touches no file. *)
Theorem every_page_is_requested (E : env) (W : wording) (idea : string) (outline : json)
    (ds : list (gmap string json)) (w : world) :
  Flatten.flatten_outline outline = Ok (JDict <$> ds) ->
  (Pipeline.gen_desc E W idea outline w).1 =
    World (files w) (trace w ++ (EvTextRequest <$> seq 1 (length ds))).
Proof.
  intros Hflat. unfold Pipeline.gen_desc. rewrite lift_bind_run, Hflat, bind_run.
  pose proof (desc_tasks_world E W idea outline ds 1 w) as Hw.
  destruct (mapM_submit_run
              (fun ip : nat * json => Pipeline.generate_page_desc E W idea outline ip.1 ip.2)
              (enumerate 1 (JDict <$> ds)) w) as [w' Hrun].
  { intros ip w0. apply generate_page_desc_outcome. }
  rewrite Hrun in Hw |- *. cbn in Hw. subst w'. by rewrite lift_lift_run.
Qed.

(** ** More on the assembler *)

Section assembler_more.
Import Text Pipeline.

Lemma mapM_add_slide_fails (E : env) (input_dir : string) (oks : list string)
    (bad : string) (rest : list string) (e : exn) (w : world) :
  (forall n, n ∈ oks -> add_picture E (path_join input_dir n) = Ok tt) ->
  add_picture E (path_join input_dir bad) = Raise e ->
  mapM (add_slide E input_dir) (oks ++ bad :: rest) w =
    (World (files w)
           (trace w ++ ((fun n => EvAddPicture (path_join input_dir n)) <$> oks)),
     Raise e).
Proof.
  intros Hoks Hbad. revert w; induction oks as [|n oks IH]; intros w.
  - cbn [app mapM]. rewrite bind_run. unfold add_slide at 1.
    rewrite lift_bind_run, Hbad. cbn. rewrite app_nil_r. by destruct w.
  - rewrite <- app_comm_cons. cbn [mapM]. rewrite bind_run. unfold add_slide at 1.
    rewrite lift_bind_run, Hoks by (by left). unfold emit at 1.
    rewrite bind_run, IH by (intros; apply Hoks; by right). cbn.
    by rewrite <- app_assoc.
Qed.

Lemma take_digits_no_digit (s : string) :
  all_chars (fun c => negb (is_digit c)) s = true -> take_digits s = EmptyString.
Proof.
  destruct s as [|c s]; [done|]. cbn. intros [Hc _]%andb_prop.
  by apply negb_true_iff in Hc as ->.
Qed.

Lemma all_chars_drop (p : ascii -> bool) (k : nat) (s : string) :
  all_chars p s = true -> all_chars p (drop k s) = true.
Proof.
  revert s; induction k as [|k IH]; intros [|c s]; cbn; try done.
  intros [_ Hs]%andb_prop. by apply IH.
Qed.

Lemma all_chars_take (p : ascii -> bool) (k : nat) (s : string) :
  all_chars p s = true -> all_chars p (take k s) = true.
Proof.
  revert s; induction k as [|k IH]; intros [|c s]; cbn; try done.
  intros [Hc Hs]%andb_prop. by rewrite Hc, IH.
Qed.

Lemma search_slide_no_digit (s : string) :
  all_chars (fun c => negb (is_digit c)) s = true -> search_slide s = None.
Proof.
  induction s as [|c s IH]; [done|]. intros Hs.
  pose proof Hs as [_ Hs']%andb_prop.
  cbn [search_slide]. rewrite (take_digits_no_digit (drop 6 (String c s)))
    by (by apply all_chars_drop).
  rewrite IH by done. by destruct (String.prefix _ _).
Qed.
End assembler_more.

(** X12. The assembler saves no deck that lacks a slide: when adding the
    picture of a slide fails, [create_pptx_from_images] raises that
    error at once; the slides before it were added, none after it is,
    and no presentation file is saved. *)
Theorem assembler_fails_without_saving (E : env) (input_dir output_file : string)
    (w : world) (names oks rest : list string) (bad : string) (e : exn) :
  (scandir input_dir w).2 = Ok names ->
  Sort.sort_by Pipeline.extract_number
               (filter (fun n => Pipeline.glob_match n = true) names) = oks ++ bad :: rest ->
  (forall n : string, n ∈ oks -> add_picture E (Text.path_join input_dir n) = Ok tt) ->
  add_picture E (Text.path_join input_dir bad) = Raise e ->
  Pipeline.create_pptx_from_images E input_dir output_file w =
    (World (files w)
           (trace w ++ ((fun n => EvAddPicture (Text.path_join input_dir n)) <$> oks)),
     Raise e).
Proof.
  intros Hscan Hsorted Hoks Hbad.
  unfold Pipeline.create_pptx_from_images. rewrite bind_run.
  unfold scandir in *. cbn in Hscan. injection Hscan as Hnames.
  rewrite Hnames, Hsorted, bind_run.
  by rewrite (mapM_add_slide_fails E input_dir oks bad rest e w Hoks Hbad).
Qed.

(** X13. The assembler reads a page number whatever its padding: a file
    named [slide_], then any number of zeros, then n in decimal, then
    [.png], has number n; so decks written without padding, or with a
    wider one, are ordered by page all the same. *)
Theorem extract_number_any_padding (n k : nat) :
  Pipeline.extract_number ("slide_" +:+ Text.zeros k +:+ Text.decimal n +:+ ".png") = n /\
  Pipeline.glob_match ("slide_" +:+ Text.zeros k +:+ Text.decimal n +:+ ".png") = true.
Proof.
  assert (Text.all_digits (Text.zeros k +:+ Text.decimal n) = true) as Hdigits
    by (by rewrite all_digits_append, all_digits_zeros, all_digits_decimal).
  assert (Text.zeros k +:+ Text.decimal n <> EmptyString) as Hne.
  { pose proof (decimal_nonempty n) as Hlen. intros Heq.
    apply (f_equal String.length) in Heq. rewrite length_append in Heq. cbn in Heq. lia. }
  assert ("slide_" +:+ Text.zeros k +:+ Text.decimal n +:+ ".png"
          = ("slide_" +:+ (Text.zeros k +:+ Text.decimal n)) +:+ ".png") as ->.
  { repeat (rewrite append_cons || rewrite append_nil). do 6 f_equal.
    clear. induction k as [|k IH]; cbn [Text.zeros];
      repeat (rewrite append_cons || rewrite append_nil); [done|]. by rewrite IH. }
  split.
  - unfold Pipeline.extract_number. rewrite stem_png by done.
    rewrite search_slide_digits by done.
    unfold Text.int_of_digits. fold (Text.int_of_digits (Text.zeros k +:+ Text.decimal n)).
    by rewrite int_of_digits_zeros, int_of_decimal.
  - unfold Pipeline.glob_match.
    apply andb_true_intro; split; [apply andb_true_intro; split|].
    + repeat (rewrite append_cons || rewrite append_nil). cbn.
      by destruct (_ +:+ ".png").
    + apply ends_with_append.
    + rewrite !length_append. pose proof (decimal_nonempty n).
      apply Nat.leb_le. cbn [String.length]. lia.
Qed.

(** X14. A slide file without a number sorts as number 0: a file name
    of ASCII characters that holds no digit has number 0, the least
    there is, so the sort of the assembler never places it after a slide
    with a positive number. *)
Theorem extract_number_without_digits (name : string) :
  Text.all_chars Names.is_ascii name = true ->
  Text.all_chars (fun c => negb (Text.is_digit c)) name = true ->
  Pipeline.extract_number name = 0 /\
  forall other : string, Sort.key_le Pipeline.extract_number name other.
Proof.
  intros _ Hname.
  assert (Pipeline.extract_number name = 0) as H0.
  { unfold Pipeline.extract_number. rewrite search_slide_no_digit; [done|].
    unfold Text.stem. destruct (Text.rfind_dot name) as [i|]; [|done].
    destruct (_ && _); [|done]. by apply all_chars_take. }
  split; [done|]. intros other. unfold Sort.key_le. rewrite H0. lia.
Qed.

(** ** More on the stripping of the reply *)

(** X15. A reply without fences reaches the decoder intact: for a reply
    that is a bracketed text with whitespace before and after it, the
    chain of [strip] calls of [AIService.generate_outline] returns the
    bracketed text, whatever stands between the brackets. *)
Theorem strip_fences_bare_reply (ws1 ws2 inner : string) :
  Text.all_chars Text.is_space ws1 = true ->
  Text.all_chars Text.is_space ws2 = true ->
  Pipeline.strip_fences (ws1 +:+ "[" +:+ inner +:+ "]" +:+ ws2) = "[" +:+ inner +:+ "]".
Proof.
  intros Hws1 Hws2. unfold Pipeline.strip_fences, Text.strip, Text.strip_chars.
  repeat (rewrite append_cons || rewrite append_nil).
  rewrite (strip_by_sandwich Text.is_space ws1 inner ws2 "[" "]") by done.
  rewrite <- (append_nil (String "[" _)).
  rewrite (strip_by_sandwich _ EmptyString inner EmptyString "[" "]") by done.
  rewrite <- (append_nil (String "[" _)).
  rewrite (strip_by_sandwich _ EmptyString inner EmptyString "[" "]") by done.
  rewrite <- (append_nil (String "[" _)).
  by rewrite (strip_by_sandwich Text.is_space EmptyString inner EmptyString "[" "]").
Qed.

(** ** The run as a whole *)

Section run_lengths.
Import Pipeline.
Variables (E : env) (W : wording).

Lemma mapM_run_length {A B} (f : A -> M B) (l : list A) (w w' : world) (ys : list B) :
  mapM f l w = (w', Ok ys) -> length ys = length l.
Proof.
  revert w w' ys; induction l as [|x l IH]; intros w w' ys.
  - cbn. by intros [= _ <-].
  - cbn [mapM]. rewrite bind_run. destruct (f x w) as [w1 [y|e]]; [|done].
    rewrite bind_run. destruct (mapM f l w1) as [w2 [zs|e]] eqn:Hl; [|done].
    unfold mret, M_ret. intros [= _ <-]. cbn. f_equal. by apply (IH w1 w2).
Qed.

Lemma gen_desc_length idea outline pages w w' desc :
  completes_all (as_completed E) ->
  Flatten.flatten_outline outline = Ok pages ->
  gen_desc E W idea outline w = (w', Ok desc) ->
  length desc = length pages.
Proof.
  intros Horder Hflat Hrun.
  change (gen_desc E W idea outline w)
    with (gen_desc (with_as_completed E (as_completed E)) W idea outline w) in Hrun.
  destruct (pages_ok_or_failed
              (fun i page => is_ok (outcome (generate_page_desc E W idea outline i page)))
              pages) as [Hok|Hfail].
  - rewrite (gen_desc_run E W idea outline pages _ w Horder Hflat Hok) in Hrun.
    injection Hrun as _ <-. by rewrite length_fmap, enumerate_length.
  - destruct (gen_desc_fails E W idea outline pages _ w Horder Hflat Hfail)
      as (k & page & e & _ & _ & Hraise).
    rewrite Hraise in Hrun. done.
Qed.

Lemma gen_images_parallel_length prompts ref_image output_dir w w' results :
  completes_all (as_completed E) ->
  gen_images_parallel E prompts ref_image output_dir w = (w', Ok results) ->
  length results = length prompts.
Proof.
  intros Horder Hrun. unfold gen_images_parallel in Hrun.
  rewrite lift_bind_run in Hrun. destruct (mkdir E output_dir) as [[]|e]; [|done].
  rewrite (pool_stage_run (generate_single_image E ref_image output_dir)
             (StageView.render_path E ref_image output_dir)) in Hrun; [|done| |].
  - injection Hrun as _ <-. by rewrite length_fmap, enumerate_length.
  - intros i a w0. unfold outcome. by rewrite !generate_single_image_returns.
  - intros k a _. unfold outcome. by rewrite generate_single_image_returns.
Qed.
End run_lengths.

(** X16. A run that returns, returns one result per flat page: the
    outline was decoded and flattens, every page got a description and
    a prompt, and the list [gen_ppt] returns has one entry, a path or
    nothing, for each flat page. *)
Theorem run_returns_one_result_per_page (E : env) (W : wording)
    (timestamp idea ref_image : string) (w w' : world) (results : list (option string)) :
  completes_all (as_completed E) ->
  Pipeline.gen_ppt E W timestamp idea ref_image w = (w', Ok results) ->
  exists (outline : json) (pages : list json),
    (Pipeline.gen_outline E W idea w).2 = Ok outline /\
    Flatten.flatten_outline outline = Ok pages /\
    length results = length pages.
Proof.
  intros Horder Hrun. unfold Pipeline.gen_ppt in Hrun. rewrite bind_run in Hrun.
  destruct (Pipeline.gen_outline E W idea w) as [w1 [outline|e]]; [|done].
  rewrite lift_bind_run in Hrun. destruct (Pipeline.show_outline outline); [|done].
  rewrite bind_run in Hrun.
  destruct (Pipeline.gen_desc E W idea outline w1) as [w2 [desc|e]] eqn:Hdesc; [|done].
  rewrite lift_bind_run in Hrun.
  destruct (Flatten.flatten_outline outline) as [pages|e] eqn:Hflat; [|done].
  rewrite lift_bind_run in Hrun. destruct (mapM _ (zip pages desc)); [|done].
  rewrite bind_run in Hrun.
  destruct (Pipeline.gen_prompts W outline desc w2) as [w3 [prompts|e]] eqn:Hprompts; [|done].
  rewrite bind_run in Hrun.
  destruct (Pipeline.gen_images_parallel E prompts ref_image ("output_" +:+ timestamp) w3)
    as [w4 [image_files|e]] eqn:Himages; [|done].
  assert (image_files = results) as ->.
  { rewrite bind_run in Hrun.
    destruct (filter (fun f => Pipeline.is_not_none f = true) image_files) as [|f0 fs].
    - unfold mret, M_ret in Hrun. congruence.
    - destruct (Pipeline.create_pptx_from_images E _ _ w4) as [w5 [b|e]];
        unfold mret, M_ret in Hrun; congruence. }
  exists outline, pages. split; [done|]. split; [done|].
  rewrite (gen_images_parallel_length E _ _ _ _ _ _ Horder Himages).
  unfold Pipeline.gen_prompts in Hprompts.
  rewrite lift_bind_run, Hflat, lift_bind_run in Hprompts.
  destruct (Pipeline.gen_outline_text W outline); [|done].
  apply mapM_run_length in Hprompts. rewrite Hprompts, enumerate_length, length_zip_with.
  rewrite (gen_desc_length E W idea outline pages w1 w2 desc Horder Hflat Hdesc). lia.
Qed.

(** ** The image service *)

Section image_service.
Import ImageService.

Lemma first_image_Some (parts : list part) (img : image) :
  first_image parts = Some img <->
  exists before rest,
    parts = before ++ InlinePart (Ok (Some img)) :: rest /\
    forallb (fun p => negb (yields_image p)) before = true.
Proof.
  induction parts as [|p parts IH].
  - split; [done|]. intros (before & rest & Heq & _). by destruct before.
  - destruct (yields_image p) eqn:Hp.
    + destruct p as [|[[img'|]|]]; try done. cbn. split.
      * intros [= ->]. by exists [], parts.
      * intros (before & rest & Heq & Hbefore). destruct before as [|q before].
        -- by injection Heq as ->.
        -- injection Heq as <- _. cbn in Hbefore. done.
    + assert (first_image (p :: parts) = first_image parts) as ->
        by (by destruct p as [|[[?|]|]]).
      rewrite IH. split.
      * intros (before & rest & -> & Hbefore). exists (p :: before), rest.
        split; [done|]. cbn. by rewrite Hp.
      * intros (before & rest & Heq & Hbefore). destruct before as [|q before].
        -- injection Heq as ->. done.
        -- injection Heq as <- ->. cbn in Hbefore. apply andb_prop in Hbefore as [_ ?].
           by exists before, rest.
Qed.
End image_service.

(** X17. [AIService.generate_image] returns the first image of the
    response: it returns an image exactly when the reference exists, the
    model answers with a list of parts, and that image is what the first
    part that yields an image yields; parts with text, parts on which
    [as_image] raises and parts that yield nothing are passed over. *)
Theorem generate_image_returns_first_image (B : ImageService.image_backend)
    (prompt ref_image_path : string) (img : image) :
  ImageService.generate_image B prompt ref_image_path = Ok (Some img) <->
  ImageService.path_exists B ref_image_path = true /\
  exists parts before rest : list ImageService.part,
    ImageService.image_model B prompt ref_image_path = Ok (Some parts) /\
    parts = before ++ ImageService.InlinePart (Ok (Some img)) :: rest /\
    forallb (fun p => negb (ImageService.yields_image p)) before = true.
Proof.
  unfold ImageService.generate_image, ImageService.generate_image_body.
  destruct (ImageService.path_exists B ref_image_path); [|split; [done|by intros [? _]]].
  destruct (ImageService.image_model B prompt ref_image_path) as [[parts|]|e].
  - destruct (ImageService.first_image parts) as [img'|] eqn:Hfirst.
    + split.
      * intros [= ->]. split; [done|].
        apply first_image_Some in Hfirst as (before & rest & Heq & Hb).
        by exists parts, before, rest.
      * intros (_ & parts' & before & rest & [= <-] & Heq & Hb).
        assert (ImageService.first_image parts = Some img) as Himg
          by (apply first_image_Some; by exists before, rest).
        congruence.
    + split; [done|].
      intros (_ & parts' & before & rest & [= <-] & Heq & Hb).
      assert (ImageService.first_image parts = Some img) as Himg
        by (apply first_image_Some; by exists before, rest).
      congruence.
  - split; [done|]. by intros (_ & ? & ? & ? & ? & _).
  - split; [done|]. by intros (_ & ? & ? & ? & ? & _).
Qed.

(** X18. [AIService.generate_image] never returns [None]: whatever goes
    wrong, it raises an exception whose text starts with [Error
    generating image: ]; when the reference image is missing the text
    names it, and the model is not asked, so the answer is the same for
    every model; [edit_image] fails in the same way when the current
    image is missing. *)
Theorem generate_image_never_returns_none (B : ImageService.image_backend)
    (prompt ref_image_path : string) :
  ImageService.generate_image B prompt ref_image_path <> Ok None /\
  (forall e : exn,
     ImageService.generate_image B prompt ref_image_path = Raise e ->
     exists detail : string, e = BackendError ("Error generating image: " +:+ detail)) /\
  (ImageService.path_exists B ref_image_path = false ->
   ImageService.generate_image B prompt ref_image_path =
     Raise (BackendError ("Error generating image: FileNotFoundError: " +:+
                          "Reference image not found: " +:+ ref_image_path)) /\
   ImageService.edit_image B prompt ref_image_path =
     Raise (BackendError ("Error generating image: FileNotFoundError: " +:+
                          "Reference image not found: " +:+ ref_image_path))).
Proof.
  unfold ImageService.edit_image, ImageService.generate_image,
    ImageService.generate_image_body.
  split; [|split].
  - destruct (ImageService.path_exists B ref_image_path); [|done].
    destruct (ImageService.image_model B prompt ref_image_path) as [[parts|]|e]; try done.
    by destruct (ImageService.first_image parts).
  - intros e. destruct (ImageService.path_exists B ref_image_path).
    + destruct (ImageService.image_model B prompt ref_image_path) as [[parts|]|e0].
      * destruct (ImageService.first_image parts); [done|]. intros [= <-]. by eexists.
      * intros [= <-]. by eexists.
      * intros [= <-]. by eexists.
    + intros [= <-]. by eexists.
  - intros ->. done.
Qed.

(** ** The further theorems at work on scenarios *)

(** X1 on a part whose one page has a key [part] and a key [notes]. *)
Lemma flatten_part_keeps_page_keys_witness :
  exists flat : list (gmap string json),
    Flatten.flatten_outline
      (JList ([Scenario.page_A] ++
              JDict (Scenario2.part_of (JList [JDict Scenario2.tagged_page])) ::
              [Scenario.page_B])) =
      Ok ([Scenario.page_A] ++ (JDict <$> flat) ++ [Scenario.page_B]) /\
    Forall2 (fun d d' => d' !! "part" = Some (JStr "P") /\
                         forall key : string, key <> "part" -> d' !! key = d !! key)
            [Scenario2.tagged_page] flat.
Proof.
  exact (flatten_part_keeps_page_keys
           (Scenario2.part_of (JList [JDict Scenario2.tagged_page])) (JStr "P")
           [Scenario2.tagged_page] [Scenario.page_A] [Scenario.page_B]
           [Scenario.page_A] [Scenario.page_B] eq_refl eq_refl eq_refl eq_refl).
Defined.

(** X2 on a part whose pages are null. *)
Lemma flatten_part_pages_not_iterable_witness :
  Flatten.flatten_outline
    (JList ([Scenario.page_A] ++ JDict (Scenario2.part_of JNull) :: [Scenario.page_B]))
    = Raise TypeError.
Proof.
  exact (flatten_part_pages_not_iterable (Scenario2.part_of JNull) (JStr "P") JNull
           [Scenario.page_A] [Scenario.page_B] [Scenario.page_A]
           eq_refl eq_refl eq_refl I).
Defined.

(** X3 on a part whose second page is a string. *)
Lemma flatten_part_page_not_dict_witness :
  Flatten.flatten_outline
    (JList ([Scenario.page_A] ++
            JDict (Scenario2.part_of
                     (JList ((JDict <$> [Scenario2.tagged_page]) ++ JStr "oops" :: []))) ::
            [Scenario.page_B]))
    = Raise AttributeError.
Proof.
  apply (flatten_part_page_not_dict
           (Scenario2.part_of
              (JList ((JDict <$> [Scenario2.tagged_page]) ++ JStr "oops" :: [])))
           (JStr "P") (JStr "oops") [Scenario2.tagged_page] [] [Scenario.page_A]
           [Scenario.page_B] [Scenario.page_A] eq_refl eq_refl eq_refl).
  intros d. discriminate.
Defined.

(** X4 on an outline of a part of two pages and a page. *)
Lemma flatten_idempotent_witness :
  Flatten.flatten_outline
    (JList (Outline.encode_flat <$> Outline.traversal Scenario2.small_outline))
    = Ok (Outline.encode_flat <$> Outline.traversal Scenario2.small_outline).
Proof.
  apply (flatten_idempotent Scenario2.small_outline). vm_compute. reflexivity.
Defined.

(** X6 on the entry with a part and nothing else. *)
Lemma part_without_pages_is_untitled_witness :
  Pipeline.outline_line Scenario.wording0 2 (JDict Scenario.lone_part) =
    Ok (Text.decimal 2 +:+ ". " +:+ py_str Scenario.wording0 (JStr "Untitled")) /\
  (Pipeline.gen_prompt Scenario.wording0 "text" 2 (JDict Scenario.lone_part) "desc"
                       Scenario.empty_world).2 =
    Ok (image_prompt Scenario.wording0 "desc" "text" (py_str Scenario.wording0 (JStr "Intro"))).
Proof.
  exact (part_without_pages_is_untitled Scenario.wording0 Scenario.lone_part (JStr "Intro")
           "text" "desc" 2 Scenario.empty_world eq_refl eq_refl eq_refl).
Defined.

(** X7 on the six pages and six descriptions. *)
Lemma gen_prompts_agrees_with_service_witness :
  (Pipeline.gen_prompts Scenario.wording0 Scenario.outline0 Scenario2.six_descs
                        Scenario.empty_world).2 =
    (_ ← Pipeline.gen_outline_text Scenario.wording0 Scenario.outline0;
     mapM (fun ipd : nat * (json * string) =>
             Service.generate_image_prompt Scenario.wording0 Scenario.outline0
                                           ipd.2.1 ipd.2.2 ipd.1)
          (enumerate 1 (zip Scenario.pages0 Scenario2.six_descs))).
Proof.
  apply (gen_prompts_agrees_with_service Scenario.wording0 Scenario.outline0
           Scenario2.six_descs Scenario.pages0 Scenario.empty_world).
  vm_compute. reflexivity.
Defined.

(** X9 on six prompts, the render of page 2 raising and that of page 5
    returning no image. *)
Lemma image_stage_effects_witness :
  exists results : list (option string),
    Pipeline.gen_images_parallel Scenario.env_holes Scenario.six_prompts "ref.png" "out"
                                 Scenario2.other_world =
      (World (files Scenario2.other_world ++
              ((fun i => ("out", Pipeline.slide_name i)) <$> StageView.rendered results))
             (trace Scenario2.other_world ++
              (enumerate 1 results ≫= StageView.render_events)),
       Ok results) /\
    length results = length Scenario.six_prompts /\
    StageView.rendered_paths results =
      (fun i => Text.path_join "out" (Pipeline.slide_name i)) <$> StageView.rendered results.
Proof.
  exact (image_stage_effects Scenario.env_holes Scenario.six_prompts "ref.png" "out"
           Scenario2.other_world last_first_completes eq_refl (fun j => eq_refl)).
Defined.

(** X10 on the same stage, followed by the assembler. *)
Lemma deck_holds_rendered_pages_witness :
  exists (w1 : world) (results : list (option string)),
    Pipeline.gen_images_parallel Scenario.env_holes Scenario.six_prompts "ref.png" "out"
                                 Scenario2.other_world = (w1, Ok results) /\
    Pipeline.create_pptx_from_images Scenario.env_holes "out" "deck.pptx" w1 =
      (World (files w1)
             (trace w1 ++ (EvAddPicture <$> StageView.rendered_paths results) ++
              [EvPptxSaved "deck.pptx"]),
       Ok true).
Proof.
  apply (deck_holds_rendered_pages Scenario.env_holes Scenario.six_prompts "ref.png" "out"
           "deck.pptx" Scenario2.other_world last_first_completes eq_refl).
  - intros f Hin. apply list_elem_of_singleton in Hin. subst f. discriminate.
  - intros path. reflexivity.
  - reflexivity.
Defined.

(** X11 on six pages of which the descriptions of pages 3 and 5 fail. *)
Lemma every_page_is_requested_witness :
  (Pipeline.gen_desc Scenario.env_desc_fails Scenario.wording0 "idea" Scenario.outline0
                     Scenario.empty_world).1 =
    World (files Scenario.empty_world)
          (trace Scenario.empty_world ++
           (EvTextRequest <$> seq 1 (length Scenario2.dicts0))).
Proof.
  apply (every_page_is_requested Scenario.env_desc_fails Scenario.wording0 "idea"
           Scenario.outline0 Scenario2.dicts0 Scenario.empty_world).
  vm_compute. reflexivity.
Defined.

(** X12 on a directory of four slides of which the second cannot be
    added. *)
Lemma assembler_fails_without_saving_witness :
  Pipeline.create_pptx_from_images Scenario2.env_bad_picture "out" "deck.pptx"
                                   Scenario.shuffled_world =
    (World (files Scenario.shuffled_world)
           (trace Scenario.shuffled_world ++
            ((fun n => EvAddPicture (Text.path_join "out" n)) <$> ["slide_01.png"])),
     Raise (BackendError "not an image")).
Proof.
  apply (assembler_fails_without_saving Scenario2.env_bad_picture "out" "deck.pptx"
           Scenario.shuffled_world
           ["slide_10.png"; "slide_02.png"; "slide_11.png"; "slide_01.png"; "notes.txt"]
           ["slide_01.png"] ["slide_10.png"; "slide_11.png"] "slide_02.png"
           (BackendError "not an image") eq_refl).
  - vm_compute. reflexivity.
  - intros n Hin. apply list_elem_of_singleton in Hin. subst n. reflexivity.
  - reflexivity.
Defined.

(** X14 on a slide file named after its content. *)
Lemma extract_number_without_digits_witness :
  Pipeline.extract_number "slide_cover.png" = 0 /\
  forall other : string, Sort.key_le Pipeline.extract_number "slide_cover.png" other.
Proof.
  apply (extract_number_without_digits "slide_cover.png"); reflexivity.
Defined.

(** X15 on a reply that holds a fence marker between its brackets. *)
Lemma strip_fences_bare_reply_witness :
  Pipeline.strip_fences ((" " +:+ Pipeline.newline) +:+ "[" +:+ "```json, 1" +:+ "]" +:+
                         Pipeline.newline) =
    "[" +:+ "```json, 1" +:+ "]".
Proof.
  apply (strip_fences_bare_reply (" " +:+ Pipeline.newline) Pipeline.newline "```json, 1");
    reflexivity.
Defined.

(** X16 on the run in which pages 2 and 5 do not render. *)
Lemma run_returns_one_result_per_page_witness :
  exists (outline : json) (pages : list json),
    (Pipeline.gen_outline Scenario.env_holes Scenario.wording0 "idea"
                          Scenario.empty_world).2 = Ok outline /\
    Flatten.flatten_outline outline = Ok pages /\
    length Scenario2.results_holes = length pages.
Proof.
  apply (run_returns_one_result_per_page Scenario.env_holes Scenario.wording0 "t" "idea"
           "ref.png" Scenario.empty_world Scenario2.run_holes.1 Scenario2.results_holes
           last_first_completes).
  vm_compute. reflexivity.
Defined.

(** X17 on a response of five parts, the fourth being the first that
    yields an image. *)
Lemma generate_image_returns_first_image_witness :
  ImageService.generate_image Scenario2.image_backend0 "a slide" "template.png" =
    Ok (Some (Image 7)).
Proof.
  apply (generate_image_returns_first_image Scenario2.image_backend0 "a slide"
           "template.png" (Image 7)).
  split; [reflexivity|].
  exists Scenario2.five_parts,
    [ImageService.TextPart "here is your slide";
     ImageService.InlinePart (Raise (BackendError "bad data"));
     ImageService.InlinePart (Ok None)],
    [ImageService.InlinePart (Ok (Some (Image 8)))].
  split; [reflexivity|]. split; reflexivity.
Defined.

(** X18 on a reference image that does not exist. *)
Lemma generate_image_never_returns_none_witness :
  ImageService.generate_image Scenario2.image_backend0 "a slide" "missing.png" =
    Raise (BackendError ("Error generating image: FileNotFoundError: " +:+
                         "Reference image not found: " +:+ "missing.png")) /\
  ImageService.edit_image Scenario2.image_backend0 "a slide" "missing.png" =
    Raise (BackendError ("Error generating image: FileNotFoundError: " +:+
                         "Reference image not found: " +:+ "missing.png")).
Proof.
  apply (generate_image_never_returns_none Scenario2.image_backend0 "a slide" "missing.png").
  reflexivity.
Defined.
